(** * ioka_api: a shallow embedding of [ioka/api.py]

    The client library validates keyword arguments through pydantic (v1)
    records, turns them into HTTP calls carrying an [API-KEY] header, and
    wraps the JSON answers back into records.  This file embeds

    - the Python values that travel through the library,
    - [datetime] objects with [isoformat], and the documented format of
      [fromisoformat],
    - pydantic's field validation, driven by the field declarations of the
      source classes,
    - the [Api] client with its shared [headers] dict, its log and the calls
      it hands to [requests.request],
    - the [Order] facade with its class attribute [api], and [Ioka.order].

    Conventions.  Python [int] is [Z]; [str] is [string], one character per
    code point (code points below 256); a [dict] used as keyword arguments
    or as a JSON object is a [gmap string PyVal]; objects that are mutated
    through aliases (the headers dicts) live in a store addressed by [loc]. *)

From Stdlib Require Import ZArith NArith Ascii String Floats.
From stdpp Require Import gmap strings list fin_maps pretty.

#[local] Open Scope string_scope.
#[local] Open Scope list_scope.
#[local] Open Scope Z_scope.

(** ** Characters and digits *)

Definition chars (s : string) : list ascii := list_ascii_of_string s.
Definition str_of (l : list ascii) : string := string_of_list_ascii l.

Definition digit_char (d : N) : ascii := ascii_of_N (48 + d).

Definition digit_val (c : ascii) : option N :=
  let n := N_of_ascii c in
  if ((48 <=? n) && (n <=? 57))%N then Some (n - 48)%N else None.

(** The value of a run of ASCII digits, most significant first; [None] on
    the empty run and on any other character. *)
Fixpoint digits_from (acc : N) (l : list ascii) : option N :=
  match l with
  | [] => Some acc
  | c :: l' =>
      match digit_val c with
      | Some d => digits_from (10 * acc + d)%N l'
      | None => None
      end
  end.

Definition parse_digits (l : list ascii) : option N :=
  match l with
  | [] => None
  | _ => digits_from 0%N l
  end.

(** [fixed_digits w n]: the [w] low decimal digits of [n], most significant
    first. *)
Fixpoint fixed_digits (w : nat) (n : N) : list ascii :=
  match w with
  | O => []
  | S w' => fixed_digits w' (n / 10)%N ++ [digit_char (n mod 10)%N]
  end.

(** ["%0wd" % n] for a non-negative [n]. *)
Definition zero_pad (w : nat) (n : N) : list ascii :=
  if (n <? 10 ^ N.of_nat w)%N then fixed_digits w n else chars (pretty n).

(** ** datetime *)

Module datetime.

(** [timedelta], held as a signed number of microseconds. *)
Definition timedelta := Z.

Record t := mk {
  year : N; month : N; day : N;
  hour : N; minute : N; second : N; microsecond : N;
  tzinfo : option timedelta
}.

Definition _is_leap (y : N) : bool :=
  ((y mod 4 =? 0) && (negb (y mod 100 =? 0) || (y mod 400 =? 0)))%N.

Definition _days_in_month (y m : N) : N :=
  (if (m =? 2) && _is_leap y then 29
   else match m with
        | 1 | 3 | 5 | 7 | 8 | 10 | 12 => 31
        | 4 | 6 | 9 | 11 => 30
        | 2 => 28
        | _ => 0
        end)%N.

Definition _check_date_fields (y m d : N) : bool :=
  ((1 <=? y) && (y <=? 9999) && (1 <=? m) && (m <=? 12)
   && (1 <=? d) && (d <=? _days_in_month y m))%N.

Definition _check_time_fields (hh mm ss us : N) : bool :=
  ((hh <=? 23) && (mm <=? 59) && (ss <=? 59) && (us <=? 999999))%N.

(** [timezone(offset)] requires the offset strictly within a day. *)
Definition _check_utc_offset (tz : option timedelta) : bool :=
  match tz with
  | None => true
  | Some off => (-86400000000 <? off) && (off <? 86400000000)
  end.

(** What every [datetime] object satisfies. *)
Definition wf (dt : t) : bool :=
  _check_date_fields (year dt) (month dt) (day dt)
  && _check_time_fields (hour dt) (minute dt) (second dt) (microsecond dt)
  && _check_utc_offset (tzinfo dt).

(** The constructor [datetime(y, m, d, hh, mm, ss, us, tz)]: [None] stands
    for the [ValueError] of an out-of-range field. *)
Definition new (y m d hh mm ss us : N) (tz : option timedelta) : option t :=
  let dt := mk y m d hh mm ss us tz in
  if wf dt then Some dt else None.

(** [dt.replace(tzinfo=tz)]. *)
Definition replace_tzinfo (dt : t) (tz : option timedelta) : t :=
  mk (year dt) (month dt) (day dt) (hour dt) (minute dt) (second dt)
     (microsecond dt) tz.

(** *** Parsing

    [datetime.fromisoformat] belongs to the Python runtime, and what it reads
    has grown from version to version; the function the library calls is a
    field of [PyRuntime] below.  What follows is a reader of the format
    documented since Python 3.7,
    [YYYY-MM-DD[*HH[:MM[:SS[.fff[fff]]]][+HH:MM[:SS[.ffffff]]]]] with fields
    of ASCII digits, and of nothing else: one behaviour the runtime may have,
    and the one the closed examples run on. *)

Definition _parse_isoformat_date (dstr : list ascii) : option (N * N * N) :=
  match dstr with
  | [y1; y2; y3; y4; s1; m1; m2; s2; d1; d2] =>
      if decide (s1 = "-"%char ∧ s2 = "-"%char) then
        y ← parse_digits [y1; y2; y3; y4];
        m ← parse_digits [m1; m2];
        d ← parse_digits [d1; d2];
        Some (y, m, d)
      else None
  | _ => None
  end.

(** [.fff] or [.ffffff] after the seconds; the empty rest is no fraction. *)
Definition _parse_fraction (rest : list ascii) : option N :=
  match rest with
  | [] => Some 0%N
  | c :: frac =>
      if decide (c = "."%char) then
        match length frac with
        | 3%nat => us ← parse_digits frac; Some (us * 1000)%N
        | 6%nat => parse_digits frac
        | _ => None
        end
      else None
  end.

(** [HH[:MM[:SS[.fff[fff]]]]] *)
Definition _parse_hh_mm_ss_ff (tstr : list ascii) : option (N * N * N * N) :=
  match tstr with
  | h1 :: h2 :: rest =>
      hh ← parse_digits [h1; h2];
      match rest with
      | [] => Some (hh, 0, 0, 0)%N
      | c1 :: m1 :: m2 :: rest =>
          if decide (c1 = ":"%char) then
            mm ← parse_digits [m1; m2];
            match rest with
            | [] => Some (hh, mm, 0, 0)%N
            | c2 :: s1 :: s2 :: rest =>
                if decide (c2 = ":"%char) then
                  ss ← parse_digits [s1; s2];
                  us ← _parse_fraction rest;
                  Some (hh, mm, ss, us)
                else None
            | _ => None
            end
          else None
      | _ => None
      end
  | _ => None
  end.

(** [tstr.find(c)]: the position of the first [c]. *)
Fixpoint find_char (c : ascii) (l : list ascii) : option nat :=
  match l with
  | [] => None
  | x :: l' => if decide (x = c) then Some O else S <$> find_char c l'
  end.

(** [tstr.find('-') + 1 or tstr.find('+') + 1]: a minus sign anywhere wins
    over a plus sign. *)
Definition _tz_pos (tstr : list ascii) : option nat :=
  match find_char "-"%char tstr with
  | Some i => Some i
  | None => find_char "+"%char tstr
  end.

Definition _parse_isoformat_time (tstr : list ascii)
  : option (N * N * N * N * option timedelta) :=
  if (length tstr <? 2)%nat then None
  else
    match _tz_pos tstr with
    | None =>
        '(hh, mm, ss, us) ← _parse_hh_mm_ss_ff tstr;
        Some (hh, mm, ss, us, None)
    | Some i =>
        '(hh, mm, ss, us) ← _parse_hh_mm_ss_ff (take i tstr);
        let tzstr := drop (S i) tstr in
        if decide (length tzstr = 5 ∨ length tzstr = 8 ∨ length tzstr = 15)%nat then
          '(oh, om, os, ous) ← _parse_hh_mm_ss_ff tzstr;
          let td := ((Z.of_N oh * 3600 + Z.of_N om * 60 + Z.of_N os) * 1000000
                     + Z.of_N ous)%Z in
          let sign := if decide (tstr !! i = Some "-"%char) then (-1)%Z else 1%Z in
          Some (hh, mm, ss, us, Some (sign * td)%Z)
        else None
    end.

(** The reader of the documented format; [None] is a [ValueError].  A date
    alone stands for its midnight; a date followed by anything must be
    followed by a separator and a time. *)
Definition fromisoformat_documented (date_string : string) : option t :=
  let s := chars date_string in
  '(y, m, d) ← _parse_isoformat_date (take 10 s);
  match drop 10 s with
  | [] => new y m d 0 0 0 0 None
  | _ :: tstr =>
      '(hh, mm, ss, us, tz) ← _parse_isoformat_time tstr;
      new y m d hh mm ss us tz
  end.

(** *** Printing: [isoformat] *)

Definition _format_time (hh mm ss us : N) : list ascii :=
  zero_pad 2 hh ++ ":"%char :: zero_pad 2 mm ++ ":"%char :: zero_pad 2 ss
  ++ (if (us =? 0)%N then [] else "."%char :: zero_pad 6 us).

Definition _format_offset (off : option timedelta) : list ascii :=
  match off with
  | None => []
  | Some off =>
      let sign := if (off <? 0)%Z then "-"%char else "+"%char in
      let a := Z.to_N (Z.abs off) in
      let hh := (a / 3600000000)%N in
      let r := (a mod 3600000000)%N in
      let mm := (r / 60000000)%N in
      let ss := (r mod 60000000)%N in
      sign :: zero_pad 2 hh ++ ":"%char :: zero_pad 2 mm
      ++ (if (ss =? 0)%N then []
          else ":"%char :: zero_pad 2 (ss / 1000000)%N
               ++ (if (ss mod 1000000 =? 0)%N then []
                   else "."%char :: zero_pad 6 (ss mod 1000000)%N))
  end.

(** [dt.isoformat()] with the default separator and [timespec='auto']. *)
Definition isoformat (dt : t) : string :=
  str_of (zero_pad 4 (year dt) ++ "-"%char :: zero_pad 2 (month dt)
          ++ "-"%char :: zero_pad 2 (day dt) ++ "T"%char
          :: _format_time (hour dt) (minute dt) (second dt) (microsecond dt)
          ++ _format_offset (tzinfo dt)).

End datetime.

(** ** Python values *)

(** The values that reach the library: keyword arguments from a caller and
    JSON from the remote service.  A [VModel] is a validated pydantic record:
    its field values and the names of the fields that were supplied
    ([__fields_set__]).  A [VSecret] is a pydantic [SecretStr].  An enum member
    is represented by its value, to which it compares equal (the enums of the
    source mix in [str] or [int]). *)
#[warnings="-register-all"]
Inductive PyVal :=
| VNone
| VBool (b : bool)
| VInt (z : Z)
| VFloat (f : float)
| VStr (s : string)
| VList (l : list PyVal)
| VDict (kvs : list (PyVal * PyVal))
| VDatetime (dt : datetime.t)
| VSecret (secret : string)
| VModel (cls : string) (values : gmap string PyVal) (fields_set : gset string).

(** Keyword arguments [**data]. *)
Abbreviation Kwargs := (gmap string PyVal).

(** pydantic's error classes, as far as the declarations of the source can
    raise them. *)
Inductive ErrorKind :=
| MissingError
| NoneIsNotAllowedError
| IntegerError
| FloatError
| StrError
| DictError
| ListError
| EnumMemberError
| UrlError
| NumberNotGeError (limit_value : Z)
| NumberNotLeError (limit_value : Z)
| AnyStrMinLengthError (limit_value : nat)
| AnyStrMaxLengthError (limit_value : nat)
| ValidatorTypeError (msg : string)
| ValidatorValueError (msg : string).

(** Library functions of the Python runtime and of pydantic that the source
    reaches through coercions of ill-typed values, through URL parsing and
    through the parsing of dates.  They are left open: a statement below
    holds for each behaviour they may have, unless it names what it asks of
    them. *)
Class PyRuntime := {
  (** [int(v)] for a [str] or [float]; [None] when it raises. *)
  py_int : PyVal → option Z;
  (** [float(v)] for an [int], [bool] or [str]; [None] when it raises
      [TypeError] or [ValueError]. *)
  py_float : PyVal → option float;
  (** [str(v)] for a [float], a container, a [datetime] or a record. *)
  py_str : PyVal → string;
  (** [str(z)] of an [int] is refused with a [ValueError] when [z] has more
      digits than the interpreter prints ([sys.get_int_max_str_digits()],
      4300 unless set otherwise, no limit in older versions): the message of
      the error, [None] when [z] is printed. *)
  py_str_int_refused : Z → option string;
  (** [dict(v)] for a [str] or a [list]. *)
  py_dict : PyVal → option (list (PyVal * PyVal));
  (** [f == z] for a [float] and an [int]. *)
  py_float_eq_int : float → Z → bool;
  (** pydantic's [HttpUrl] applied to a string, from the stripping of white
      space and the check of its length (1 to 2083 characters) to the parsing
      of its parts: the URL it keeps, or the error it reports. *)
  HttpUrl_validate : string → ErrorKind + string;
  (** [datetime.fromisoformat(s)]; [None] when it raises [ValueError]. *)
  datetime_fromisoformat : string → option datetime.t;
  (** The message of that [ValueError]. *)
  datetime_fromisoformat_error : string → string;
}.

(** An entry of [ValidationError.errors()]: where, and what. *)
Inductive LocItem := LField (name : string) | LIndex (i : nat).
Definition ErrorList := list (list LocItem * ErrorKind).

(** An HTTP response as [requests] hands it over: the status code, the body
    text, and what [response.json()] yields ([None]: the body is not JSON). *)
Record Response := {
  status_code : Z;
  text : string;
  json : option PyVal
}.

Inductive Exception :=
| ValidationError (model : string) (errors : ErrorList)
| TypeError (msg : string)
| ValueError (msg : string)
| OverflowError (msg : string)
| AttributeError (msg : string)
| HTTPError (response : Response)
| JSONDecodeError
| RequestException (msg : string).

Inductive Result (A : Type) :=
| Ok (a : A)
| Raise (e : Exception).
Arguments Ok {A} a.
Arguments Raise {A} e.

(** ** ISODatetime *)

Module ISODatetime.

(** [v.replace("Z", "")]: every [Z] goes, wherever it stands. *)
Definition replace_Z (v : string) : string :=
  str_of (filter (λ c, c ≠ "Z"%char) (chars v)).

(** [ISODatetime.validate(v)] *)
Definition validate `{PyRuntime} (v : PyVal) : Result string :=
  match v with
  | VStr s =>
      match datetime_fromisoformat (replace_Z s) with
      | Some dt => Ok (datetime.isoformat (datetime.replace_tzinfo dt None))
      | None => Raise (ValueError (datetime_fromisoformat_error (replace_Z s)))
      end
  | VDatetime dt => Ok (datetime.isoformat (datetime.replace_tzinfo dt None))
  | _ => Raise (TypeError "Datetime string RFC 3339 or datetime required")
  end.

End ISODatetime.

(** ** pydantic (v1): field declarations and their validation *)

Module pydantic.

(** The annotations the source uses on scalar fields. *)
Inductive ScalarType :=
| TInt
| TFloat
| TStr
| TDict
| THttpUrl
| TSecretStr
| TISODatetime
| TEnum (members : list PyVal).

(** How a field is declared: [name: T] or [Field(...)] is [Required];
    [name: Optional[T]] is [Optional]; [name: T = d] or [Field(d, ...)] is
    [Default d]; [name: Optional[T] = d] is [OptionalDefault d]. *)
Inductive Presence :=
| Required
| Optional
| Default (d : PyVal)
| OptionalDefault (d : PyVal).

(** The keyword bounds of [Field(...)]. *)
Record Bounds := {
  ge : option Z;
  le : option Z;
  min_length : option nat;
  max_length : option nat
}.

Definition unbounded : Bounds :=
  {| ge := None; le := None; min_length := None; max_length := None |}.

Record Field (T : Type) := {
  name : string;
  type_ : T;
  presence : Presence;
  bounds : Bounds
}.
Arguments name {T} _.
Arguments type_ {T} _.
Arguments presence {T} _.
Arguments bounds {T} _.

Record Model (T : Type) := {
  model_name : string;
  fields : list (Field T)
}.
Arguments model_name {T} _.
Arguments fields {T} _.

(** A field annotated with a record of scalar fields, or a list of them. *)
Inductive FieldType :=
| Scalar (t : ScalarType)
| Nested (m : Model ScalarType)
| ListOf (m : Model ScalarType).

Definition required {T} (f : Field T) : bool :=
  match presence f with Required => true | _ => false end.

Definition get_default {T} (f : Field T) : PyVal :=
  match presence f with
  | Default d | OptionalDefault d => d
  | _ => VNone
  end.

(** pydantic lets [None] through when the annotation is [Optional[...]] or
    when the field is not required and its default is [None]. *)
Definition allow_none {T} (f : Field T) : bool :=
  match presence f with
  | Required => false
  | Optional | OptionalDefault _ => true
  | Default VNone => true
  | Default _ => false
  end.

Section validators.
Context `{PyRuntime}.

(** [int_validator] *)
Definition int_validator (v : PyVal) : option Z :=
  match v with
  | VInt z => Some z
  | VBool b => Some (Z.b2z b)
  | VStr _ | VFloat _ => py_int v
  | _ => None
  end.

(** [float(z)] of an int raises [OverflowError] when [z] is out of the range
    of a double: when it rounds to [2^1024] or beyond. *)
Definition float_overflows (z : Z) : bool := 2 ^ 1024 - 2 ^ 970 <=? Z.abs z.

(** [float_validator]: [TypeError] and [ValueError] of [float(v)] become a
    [FloatError].  It does not catch the [OverflowError] of an int out of
    range, which leaves the validation of the whole record ([escapes],
    below); for such an int there is no value here either. *)
Definition float_validator (v : PyVal) : option float :=
  match v with
  | VFloat f => Some f
  | VInt z => if float_overflows z then None else py_float v
  | VBool _ | VStr _ => py_float v
  | _ => None
  end.

(** [str_validator]: a [str] is kept, an [int] or a [float] is printed; the
    [ValueError] of an int that is not printed is reported as it is. *)
Definition str_validator (v : PyVal) : ErrorKind + string :=
  match v with
  | VStr s => inr s
  | VInt z =>
      match py_str_int_refused z with
      | Some msg => inl (ValidatorValueError msg)
      | None => inr (pretty z)
      end
  | VBool b => inr (if b then "True" else "False")
  | VFloat _ => inr (py_str v)
  | _ => inl StrError
  end.

(** [dict(v)] of a record: its fields and their values. *)
Definition dict_of_record (vals : gmap string PyVal) : list (PyVal * PyVal) :=
  map (λ kv, (VStr kv.1, kv.2)) (map_to_list vals).

(** [dict_validator]: a dict is kept, anything else goes through [dict(v)],
    which reads a record field by field. *)
Definition dict_validator (v : PyVal) : option (list (PyVal * PyVal)) :=
  match v with
  | VDict kvs => Some kvs
  | VStr _ | VList _ => py_dict v
  | VModel _ vals _ => Some (dict_of_record vals)
  | _ => None
  end.

(** Python's [==] between a candidate and an enum member's value. *)
Definition py_eqb (v m : PyVal) : bool :=
  match v, m with
  | VStr a, VStr b => bool_decide (a = b)
  | VInt a, VInt b => bool_decide (a = b)
  | VBool a, VInt b => bool_decide (Z.b2z a = b)
  | VFloat f, VInt b => py_float_eq_int f b
  | _, _ => false
  end.

(** [enum_member_validator]: [Enum(v)] looks the value up among the members. *)
Definition enum_member_validator (members : list PyVal) (v : PyVal) : option PyVal :=
  List.find (py_eqb v) members.

(** [number_size_validator] *)
Definition number_size_validator (b : Bounds) (z : Z) : ErrorKind + Z :=
  match ge b, le b with
  | Some g, _ => if z <? g then inl (NumberNotGeError g)
                 else match le b with
                      | Some l => if l <? z then inl (NumberNotLeError l) else inr z
                      | None => inr z
                      end
  | None, Some l => if l <? z then inl (NumberNotLeError l) else inr z
  | None, None => inr z
  end.

(** [constr_length_validator], with [len] counting characters. *)
Definition constr_length_validator (b : Bounds) (s : string) : ErrorKind + string :=
  let n := String.length s in
  let lo := default 0%nat (min_length b) in
  if (n <? lo)%nat then inl (AnyStrMinLengthError lo)
  else match max_length b with
       | Some hi => if (hi <? n)%nat then inl (AnyStrMaxLengthError hi) else inr s
       | None => inr s
       end.

(** The validators pydantic chains for a scalar annotation, applied to a
    value other than [None]. *)
Definition validate_scalar (t : ScalarType) (b : Bounds) (v : PyVal) : ErrorKind + PyVal :=
  match t with
  | TInt =>
      match int_validator v with
      | Some z => sum_map id VInt (number_size_validator b z)
      | None => inl IntegerError
      end
  | TFloat =>
      match float_validator v with
      | Some f => inr (VFloat f)
      | None => inl FloatError
      end
  | TStr =>
      match str_validator v with
      | inr s => sum_map id VStr (constr_length_validator b s)
      | inl e => inl e
      end
  | TDict =>
      match dict_validator v with
      | Some kvs => inr (VDict kvs)
      | None => inl DictError
      end
  | THttpUrl =>
      match str_validator v with
      | inr s => sum_map id VStr (HttpUrl_validate s)
      | inl e => inl e
      end
  | TSecretStr =>
      match v with
      | VSecret s => inr (VSecret s)
      | _ => sum_map id VSecret (str_validator v)
      end
  | TISODatetime =>
      match ISODatetime.validate v with
      | Ok s => inr (VStr s)
      | Raise (TypeError msg) => inl (ValidatorTypeError msg)
      | Raise (ValueError msg) => inl (ValidatorValueError msg)
      | Raise _ => inl (ValidatorValueError "")
      end
  | TEnum members =>
      match enum_member_validator members v with
      | Some m => inr m
      | None => inl EnumMemberError
      end
  end.

(** [ModelField.validate]: [None] is settled before the type's validators. *)
Definition validate_scalar_field (f : Field ScalarType) (v : PyVal) : ErrorList + PyVal :=
  match v with
  | VNone => if allow_none f then inr VNone else inl [([], NoneIsNotAllowedError)]
  | _ => match validate_scalar (type_ f) (bounds f) v with
         | inl e => inl [([], e)]
         | inr v' => inr v'
         end
  end.

(** The state of [validate_model]'s loop over the declared fields. *)
Record Acc := {
  acc_values : gmap string PyVal;
  acc_fields_set : gset string;
  acc_errors : ErrorList
}.

Definition at_loc (l : LocItem) (errs : ErrorList) : ErrorList :=
  map (λ e, (l :: e.1, e.2)) errs.

(** One turn of the loop: a missing field is an error when required and takes
    its default otherwise (unvalidated); a supplied one is recorded in
    [fields_set] and validated.  Keywords that name no field are never looked
    at ([Config.extra] is [ignore]). *)
Definition validate_step {T} (validate_field : Field T → PyVal → ErrorList + PyVal)
    (kw : Kwargs) (acc : Acc) (f : Field T) : Acc :=
  match kw !! name f with
  | None =>
      if required f then
        {| acc_values := acc_values acc;
           acc_fields_set := acc_fields_set acc;
           acc_errors := acc_errors acc ++ [([LField (name f)], MissingError)] |}
      else
        {| acc_values := <[name f := get_default f]> (acc_values acc);
           acc_fields_set := acc_fields_set acc;
           acc_errors := acc_errors acc |}
  | Some v =>
      match validate_field f v with
      | inl errs =>
          {| acc_values := acc_values acc;
             acc_fields_set := {[name f]} ∪ acc_fields_set acc;
             acc_errors := acc_errors acc ++ at_loc (LField (name f)) errs |}
      | inr v' =>
          {| acc_values := <[name f := v']> (acc_values acc);
             acc_fields_set := {[name f]} ∪ acc_fields_set acc;
             acc_errors := acc_errors acc |}
      end
  end.

Definition validate_fields {T} (validate_field : Field T → PyVal → ErrorList + PyVal)
    (fs : list (Field T)) (kw : Kwargs) : Acc :=
  foldl (validate_step validate_field kw)
        {| acc_values := ∅; acc_fields_set := ∅; acc_errors := [] |} fs.

(** [validate_model] followed by [BaseModel.__init__]: the record, or the
    errors of all fields. *)
Definition construct_with {T} (validate_field : Field T → PyVal → ErrorList + PyVal)
    (m : Model T) (kw : Kwargs) : Result PyVal :=
  let acc := validate_fields validate_field (fields m) kw in
  match acc_errors acc with
  | [] => Ok (VModel (model_name m) (acc_values acc) (acc_fields_set acc))
  | errs => Raise (ValidationError (model_name m) errs)
  end.

(** [**d] for a dict: every key must be a [str]. *)
Fixpoint kwargs_of (kvs : list (PyVal * PyVal)) : option Kwargs :=
  match kvs with
  | [] => Some ∅
  | (VStr k, v) :: kvs' => kw ← kwargs_of kvs'; Some (<[k := v]> kw)
  | _ => None
  end.

(** [Model.validate(value)] for a record-typed field: an instance of the
    class is kept, a dict is passed as keywords, another record is read
    through [dict(value)]. *)
Definition validate_nested (m : Model ScalarType) (v : PyVal) : ErrorList + PyVal :=
  let from_kwargs kw :=
    match construct_with validate_scalar_field m kw with
    | Ok inst => inr inst
    | Raise (ValidationError _ errs) => inl errs
    | Raise _ => inl [([], DictError)]
    end in
  let from_items kvs :=
    match kwargs_of kvs with
    | Some kw => from_kwargs kw
    | None => inl [([], ValidatorTypeError "keywords must be strings")]
    end in
  match v with
  | VModel c vals set =>
      if decide (c = model_name m) then inr v else from_kwargs vals
  | VDict kvs => from_items kvs
  | VStr _ | VList _ =>
      match py_dict v with
      | Some kvs => from_items kvs
      | None => inl [([], DictError)]
      end
  | _ => inl [([], DictError)]
  end.

(** A [List[Model]] field: every item is validated, all errors are kept. *)
Fixpoint validate_items (m : Model ScalarType) (i : nat) (l : list PyVal)
    : ErrorList * list PyVal :=
  match l with
  | [] => ([], [])
  | v :: l' =>
      let '(errs, vs) := validate_items m (S i) l' in
      match validate_nested m v with
      | inl e => (at_loc (LIndex i) e ++ errs, vs)
      | inr v' => (errs, v' :: vs)
      end
  end.

Definition validate_field (f : Field FieldType) (v : PyVal) : ErrorList + PyVal :=
  match v with
  | VNone => if allow_none f then inr VNone else inl [([], NoneIsNotAllowedError)]
  | _ =>
      match type_ f with
      | Scalar t =>
          match validate_scalar t (bounds f) v with
          | inl e => inl [([], e)]
          | inr v' => inr v'
          end
      | Nested m => validate_nested m v
      | ListOf m =>
          match v with
          | VList l =>
              match validate_items m 0 l with
              | ([], vs) => inr (VList vs)
              | (errs, _) => inl errs
              end
          | _ => inl [([], ListError)]
          end
      end
  end.

(** An [OverflowError] is caught by none of pydantic's handlers: raised by
    the validator of a field, it ends the validation of the record, and of
    the record that holds it, at once and whatever the other fields hold.
    Validation does nothing but compute its result, so a record class raises
    it exactly when one of the validators it runs meets an int that
    [float] does not take.  The validators of a field run when the field is
    supplied; those of a nested record run on the keywords that
    [validate_nested] reads from the value. *)
Definition float_escapes (t : ScalarType) (v : PyVal) : bool :=
  match t, v with
  | TFloat, VInt z => float_overflows z
  | _, _ => false
  end.

Definition record_escapes (m : Model ScalarType) (kw : Kwargs) : bool :=
  existsb (λ f, match kw !! name f with
                | Some v => float_escapes (type_ f) v
                | None => false
                end) (fields m).

Definition nested_escapes (m : Model ScalarType) (v : PyVal) : bool :=
  let from_items kvs :=
    match kwargs_of kvs with
    | Some kw => record_escapes m kw
    | None => false
    end in
  match v with
  | VModel c vals _ => if decide (c = model_name m) then false else record_escapes m vals
  | VDict kvs => from_items kvs
  | VStr _ | VList _ =>
      match py_dict v with
      | Some kvs => from_items kvs
      | None => false
      end
  | _ => false
  end.

Definition field_escapes (f : Field FieldType) (v : PyVal) : bool :=
  match type_ f with
  | Scalar t => float_escapes t v
  | Nested m => nested_escapes m v
  | ListOf m =>
      match v with
      | VList l => existsb (nested_escapes m) l
      | _ => false
      end
  end.

Definition escapes (m : Model FieldType) (kw : Kwargs) : bool :=
  existsb (λ f, match kw !! name f with
                | Some v => field_escapes f v
                | None => false
                end) (fields m).

(** Calling the record class on the keywords [kw]. *)
Definition construct (m : Model FieldType) (kw : Kwargs) : Result PyVal :=
  if escapes m kw then Raise (OverflowError "int too large to convert to float")
  else construct_with validate_field m kw.

End validators.

(** [_get_value] of [BaseModel.dict(exclude_unset=True)]: records become dicts
    of the fields that were supplied, containers are walked, everything else
    is kept. *)
Fixpoint _get_value (v : PyVal) : PyVal :=
  match v with
  | VModel _ vals set =>
      VDict (map (λ kv, (VStr kv.1, kv.2))
               (map_to_list (filter (λ kv, kv.1 ∈ set) (_get_value <$> vals))))
  | VList l => VList (map _get_value l)
  | VDict kvs => VDict (map (λ kv, (kv.1, _get_value kv.2)) kvs)
  | _ => v
  end.

(** [inst.dict(exclude_unset=True)] *)
Definition dict_exclude_unset (inst : PyVal) : Kwargs :=
  match inst with
  | VModel _ vals set => filter (λ kv, kv.1 ∈ set) (_get_value <$> vals)
  | _ => ∅
  end.

End pydantic.

(** ** The declarations of [api.py] *)

Import pydantic.

Definition F {T} (n : string) (t : T) (p : Presence) (b : Bounds) : Field T :=
  {| name := n; type_ := t; presence := p; bounds := b |}.

Definition at_least (g : Z) : Bounds :=
  {| ge := Some g; le := None; min_length := None; max_length := None |}.
Definition between (g l : Z) : Bounds :=
  {| ge := Some g; le := Some l; min_length := None; max_length := None |}.
Definition min_len (n : nat) : Bounds :=
  {| ge := None; le := None; min_length := Some n; max_length := None |}.
Definition max_len (n : nat) : Bounds :=
  {| ge := None; le := None; min_length := None; max_length := Some n |}.
Definition len_between (lo hi : nat) : Bounds :=
  {| ge := None; le := None; min_length := Some lo; max_length := Some hi |}.

Definition CaptureMethodEnum : list PyVal := [VStr "AUTO"; VStr "MANUAL"].
Definition OrderStatusEnum : list PyVal :=
  [VStr "EXPIRED"; VStr "UNPAID"; VStr "ON_HOLD"; VStr "PAID"].
Definition CurrencyEnum : list PyVal := [VStr "KZT"; VStr "USD"; VStr "RUB"].
Definition PaymentStatusEnum : list PyVal :=
  [VStr "PENDING"; VStr "REQUIRES_ACTION"; VStr "APPROVED"; VStr "CAPTURED";
   VStr "CANCELLED"; VStr "DECLINED"].
Definition PayerTypeEnum : list PyVal :=
  [VStr "CARD"; VStr "CARD_NO_CVC"; VStr "CARD_WITH_BINDING"; VStr "BINDING";
   VStr "APPLE_PAY"; VStr "GOOGLE_PAY"; VStr "MASTERPASS"].
Definition EventNameEnum : list PyVal :=
  [VStr "ORDER_CREATED"; VStr "PAYMENT_CREATED"; VStr "REFUND_CREATED";
   VStr "INSTALLMENT_CREATED"; VStr "SPLIT_CREATED"; VStr "ORDER_ON_HOLD";
   VStr "ORDER_PAID"; VStr "ORDER_EXPIRED"; VStr "PAYMENT_DECLINED";
   VStr "PAYMENT_ACTION_REQUIRED"; VStr "PAYMENT_APPROVED"; VStr "PAYMENT_CAPTURED";
   VStr "CAPTURE_DECLINED"; VStr "PAYMENT_CANCELLED"; VStr "CANCEL_DECLINED";
   VStr "REFUND_APPROVED"; VStr "REFUND_DECLINED"; VStr "SPLIT_APPROVED";
   VStr "SPLIT_DECLINED"; VStr "SPLIT_REFUND_APPROVED"; VStr "SPLIT_REFUND_DECLINED";
   VStr "CHECK_APPROVED"; VStr "CHECK_DECLINED"; VStr "OTP_SENT";
   VStr "SEND_OTP_DECLINED"; VStr "OTP_CONFIRMED"; VStr "CONFIRM_OTP_DECLINED";
   VStr "INSTALLMENT_ACTION_REQUIRED"; VStr "INSTALLMENT_ISSUED";
   VStr "INSTALLMENT_REJECTED"; VStr "INSTALLMENT_DECLINED"].
Definition OperationTypeEnum : list PyVal := [VInt 0; VInt 100].
Definition RefundStatusEnum : list PyVal :=
  [VStr "PENDING"; VStr "APPROVED"; VStr "DECLINED"].

(** [uuid4()] reads the entropy of the process: its [n]-th call returns
    [uuid4_draw n]. *)
Record Entropy := { uuid4_draw : nat → string }.

(** What importing [api.py] fixes.  The class bodies run once, at import; the
    one call they make is the [str(uuid4())] that is the first argument of
    [Field] in the declaration of [CreateOrder.external_id]. *)
Class Imported := { external_id_default : string }.

Definition import_api (e : Entropy) (drawn : nat) : Imported * nat :=
  ({| external_id_default := uuid4_draw e drawn |}, S drawn).

Definition CreateOrder `{Imported} : Model FieldType :=
  {| model_name := "CreateOrder";
     fields :=
       [ F "amount" (Scalar TInt) Required (at_least 100);
         F "currency" (Scalar (TEnum CurrencyEnum)) Optional unbounded;
         F "capture_method" (Scalar (TEnum CaptureMethodEnum)) Optional unbounded;
         F "external_id" (Scalar TStr) (Default (VStr external_id_default)) (min_len 1);
         F "description" (Scalar TStr) Optional unbounded;
         F "mcc" (Scalar TStr) (OptionalDefault VNone) (len_between 4 4);
         F "extra_info" (Scalar TDict) Optional unbounded;
         F "attempts" (Scalar TInt) (Default (VInt 10)) (between 1 50);
         F "due_date" (Scalar TStr) Optional unbounded;
         F "customer_id" (Scalar TStr) (OptionalDefault VNone) (min_len 1);
         F "card_id" (Scalar TStr) (OptionalDefault VNone) (min_len 1);
         F "back_url" (Scalar THttpUrl) Optional unbounded;
         F "success_url" (Scalar THttpUrl) Optional unbounded;
         F "failure_url" (Scalar THttpUrl) Optional unbounded;
         F "template" (Scalar TStr) Optional unbounded ] |}.

Definition CancelOrder : Model FieldType :=
  {| model_name := "CancelOrder";
     fields :=
       [ F "order_id" (Scalar TStr) Required unbounded;
         F "reason" (Scalar TStr) Required (max_len 255) ] |}.

Definition Payer : Model ScalarType :=
  {| model_name := "Payer";
     fields :=
       [ F "type" (TEnum PayerTypeEnum) Required unbounded;
         F "pan_masked" TStr Optional unbounded;
         F "expiry_date" TStr Optional unbounded;
         F "holder" TStr Optional unbounded;
         F "payment_system" TStr Optional unbounded;
         F "emitter" TStr Optional unbounded;
         F "email" TStr Optional unbounded;
         F "phone" TStr Optional unbounded;
         F "customer_id" TStr Optional unbounded;
         F "card_id" TStr Optional unbounded ] |}.

Definition Error : Model ScalarType :=
  {| model_name := "Error";
     fields := [ F "code" TStr Required unbounded;
                 F "message" TStr Required unbounded ] |}.

Definition Acquirer : Model ScalarType :=
  {| model_name := "Acquirer";
     fields := [ F "name" TStr Required unbounded;
                 F "reference" TStr Optional unbounded ] |}.

Definition Action : Model ScalarType :=
  {| model_name := "Action";
     fields := [ F "url" TStr Required unbounded ] |}.

Definition CancelOrderResponse_fields : list (Field FieldType) :=
  [ F "id" (Scalar TStr) Required unbounded;
    F "order_id" (Scalar TStr) Required unbounded;
    F "status" (Scalar (TEnum PaymentStatusEnum)) Required unbounded;
    F "created_at" (Scalar TISODatetime) Required unbounded;
    F "approved_amount" (Scalar TInt) Required unbounded;
    F "captured_amount" (Scalar TInt) Required unbounded;
    F "refunded_amount" (Scalar TInt) Required unbounded;
    F "processing_fee" (Scalar TFloat) Required unbounded;
    F "payer" (Nested Payer) Optional unbounded;
    F "error" (Nested Error) Optional unbounded;
    F "acquirer" (Nested Acquirer) Optional unbounded;
    F "action" (Nested Action) Optional unbounded ].

Definition CancelOrderResponse : Model FieldType :=
  {| model_name := "CancelOrderResponse"; fields := CancelOrderResponse_fields |}.

Definition CaptureOrder : Model FieldType :=
  {| model_name := "CaptureOrder";
     fields :=
       [ F "amount" (Scalar TInt) Required (at_least 100);
         F "reason" (Scalar TStr) (Default VNone) (max_len 255) ] |}.

(** [class CaptureOrderResponse(CancelOrderResponse): ...] *)
Definition CaptureOrderResponse : Model FieldType :=
  {| model_name := "CaptureOrderResponse"; fields := CancelOrderResponse_fields |}.

Definition Event : Model FieldType :=
  {| model_name := "Event";
     fields :=
       [ F "id" (Scalar TStr) Required unbounded;
         F "name" (Scalar (TEnum EventNameEnum)) Required unbounded;
         F "created_at" (Scalar TISODatetime) Required unbounded;
         F "order_id" (Scalar TStr) Required unbounded;
         F "payment_id" (Scalar TStr) Optional unbounded;
         F "refund_id" (Scalar TStr) Optional unbounded;
         F "md" (Scalar TStr) Optional unbounded;
         F "pa_req" (Scalar TStr) Optional unbounded;
         F "acs_url" (Scalar THttpUrl) Optional unbounded;
         F "term_url" (Scalar THttpUrl) Optional unbounded;
         F "action_url" (Scalar THttpUrl) Optional unbounded;
         F "code" (Scalar TStr) Optional unbounded;
         F "message" (Scalar TStr) Optional unbounded ] |}.

Definition RefundRule : Model ScalarType :=
  {| model_name := "RefundRule";
     fields := [ F "account_id" TStr Required unbounded;
                 F "amount" TInt Required unbounded ] |}.

Definition CheckPosition : Model ScalarType :=
  {| model_name := "CheckPosition";
     fields :=
       [ F "name" TStr Required unbounded;
         F "amount" TInt Required unbounded;
         F "count" TInt Required unbounded;
         F "section" TInt Optional unbounded;
         F "tax_percent" TInt (OptionalDefault (VInt 0)) unbounded;
         F "tax_type" (TEnum OperationTypeEnum) (OptionalDefault (VInt 0)) unbounded;
         F "tax_amount" TInt (OptionalDefault (VInt 0)) unbounded;
         F "unit_code" TInt (OptionalDefault (VInt 0)) unbounded ] |}.

Definition RefundOrder : Model FieldType :=
  {| model_name := "RefundOrder";
     fields :=
       [ F "amount" (Scalar TInt) Required (at_least 100);
         F "reason" (Scalar TStr) (OptionalDefault VNone) (max_len 255);
         F "rules" (ListOf RefundRule) Optional unbounded;
         F "positions" (ListOf CheckPosition) Optional unbounded ] |}.

Definition Refund : Model FieldType :=
  {| model_name := "Refund";
     fields :=
       [ F "id" (Scalar TStr) Required unbounded;
         F "payment_id" (Scalar TStr) Required unbounded;
         F "order_id" (Scalar TStr) Required unbounded;
         F "status" (Scalar (TEnum RefundStatusEnum)) Required unbounded;
         F "created_at" (Scalar TISODatetime) Required unbounded;
         F "error" (Nested Error) Optional unbounded;
         F "acquirer" (Nested Acquirer) Optional unbounded ] |}.

(** ** The world the client runs in *)

(** Addresses of dict objects. *)
Abbreviation loc := positive.

(** A call handed to [requests.request]: verb, URL, the headers dict as it
    stands at the call, and the one extra keyword [params_type=params] when
    [params] is truthy. *)
Record HttpCall := {
  call_method : string;
  call_url : string;
  call_headers : gmap string PyVal;
  call_extra : option (string * Kwargs)
}.

(** What [logger.debug] receives.  The f-string of the request line is
    formatted when the statement runs, so the record holds the headers dict
    as it stood at that moment. *)
Inductive LogRecord :=
| LogRequest (method url : string) (params : option Kwargs) (params_type : string)
             (headers : gmap string PyVal) (raise_for_status : bool)
| LogResponse (response : Response).

(** The remote side: what [requests.request] answers to a call, given the
    calls made before it.  [Raise] stands for a transport failure. *)
Class Network := { network_answer : list HttpCall → HttpCall → Result Response }.

(** An [Api] object after [__init__].  Its attributes are never reassigned by
    the library; [headers] is a reference to a dict that is. *)
Record ApiObj := {
  api_host : string;
  api_key : string;
  version : string;
  headers : loc
}.

Record World := {
  dicts : gmap loc (gmap string PyVal);
  Order_api : option ApiObj;
  log : list LogRecord;
  calls : list HttpCall
}.

Definition M (A : Type) : Type := World → Result A * World.

#[global] Instance M_ret : MRet M := λ A a w, (Ok a, w).
#[global] Instance M_bind : MBind M := λ A B k m w,
  match m w with
  | (Ok a, w') => k a w'
  | (Raise e, w') => (Raise e, w')
  end.

Definition raise {A} (e : Exception) : M A := λ w, (Raise e, w).
Definition lift {A} (r : Result A) : M A := λ w, (r, w).
Definition get_world : M World := λ w, (Ok w, w).

(** The dict an address holds. *)
Definition deref (l : loc) (w : World) : gmap string PyVal :=
  default ∅ (dicts w !! l).

(** [d = {...}]: a new dict object. *)
Definition alloc_dict (d : gmap string PyVal) : M loc := λ w,
  let l := fresh (dom (dicts w)) in
  (Ok l, {| dicts := <[l := d]> (dicts w); Order_api := Order_api w;
            log := log w; calls := calls w |}).

(** [d[k] = v] on the dict at [l]. *)
Definition dict_setitem (l : loc) (k : string) (v : PyVal) : M unit := λ w,
  (Ok (), {| dicts := <[l := <[k := v]> (deref l w)]> (dicts w);
             Order_api := Order_api w; log := log w; calls := calls w |}).

Definition logger_debug (r : LogRecord) : M unit := λ w,
  (Ok (), {| dicts := dicts w; Order_api := Order_api w;
             log := log w ++ [r]; calls := calls w |}).

(** The keywords [requests.request(method, url, headers=..., **kwargs)] takes
    besides the three the source passes itself. *)
Definition request_keywords : list string :=
  ["params"; "data"; "cookies"; "files"; "auth"; "timeout"; "allow_redirects";
   "proxies"; "hooks"; "stream"; "verify"; "cert"; "json"].

Definition requests_request `{Network} (c : HttpCall) : M Response := λ w,
  (network_answer (calls w) c,
   {| dicts := dicts w; Order_api := Order_api w;
      log := log w; calls := calls w ++ [c] |}).

(** [response.raise_for_status()] *)
Definition raise_for_status_ (r : Response) : Result unit :=
  if (400 <=? status_code r) && (status_code r <? 600)
  then Raise (HTTPError r) else Ok ().

(** [str(v)] as an f-string formats it; an int is taken to be one the
    interpreter prints. *)
Definition format_value `{PyRuntime} (v : PyVal) : string :=
  match v with
  | VStr s => s
  | VInt z => pretty z
  | VBool b => if b then "True" else "False"
  | VNone => "None"
  | _ => py_str v
  end.

(** Binding a call to the signature [(self, order_id, **data)]: [pos] are the
    positional arguments after [self], [kw] the keywords of the call. *)
Definition bind_order_id (pos : list PyVal) (kw : Kwargs) : Result (PyVal * Kwargs) :=
  match pos with
  | [] =>
      match kw !! "order_id" with
      | Some v => Ok (v, delete "order_id" kw)
      | None => Raise (TypeError "missing 1 required positional argument: 'order_id'")
      end
  | [v] =>
      match kw !! "order_id" with
      | Some _ => Raise (TypeError "got multiple values for argument 'order_id'")
      | None => Ok (v, kw)
      end
  | _ => Raise (TypeError "too many positional arguments")
  end.

(** What [_request] returns: [response.json()] or the response itself. *)
Inductive RequestResult :=
| Parsed (j : PyVal)
| Raw (r : Response).

(** ** [class Api] *)

Module Api.

Definition model : Model FieldType :=
  {| model_name := "Api";
     fields :=
       [ F "api_host" (Scalar THttpUrl) (Default (VStr "https://stage-api.ioka.kz")) unbounded;
         F "api_key" (Scalar TSecretStr) Required unbounded;
         F "version" (Scalar TStr) (Default (VStr "v2")) unbounded;
         F "headers" (Scalar TDict) (Default (VDict [])) unbounded ] |}.

Section methods.
Context `{PyRuntime, Network, Imported}.

(** [Api.__init__]: the fields are validated, then [self.headers] is bound to
    a new dict that holds the [SecretStr] itself under [API-KEY]. *)
Definition __init__ (data : Kwargs) : M ApiObj :=
  inst ← lift (construct model data);
  match inst with
  | VModel _ vals _ =>
      match vals !! "api_host", vals !! "api_key", vals !! "version" with
      | Some (VStr host), Some (VSecret key), Some (VStr ver) =>
          l ← alloc_dict {[ "API-KEY" := VSecret key;
                            "Content-Type" := VStr "application/json" ]};
          mret {| api_host := host; api_key := key; version := ver; headers := l |}
      | _, _, _ => raise (AttributeError "Api")
      end
  | _ => raise (AttributeError "Api")
  end.

(** [Api._request] *)
Definition _request (self : ApiObj) (method url : string) (params : option Kwargs)
    (params_type : string) (headers_arg : option loc) (raise_for_status : bool)
    : M RequestResult :=
  w ← get_world;
  (* headers = headers or self.headers *)
  let hdrs :=
    match headers_arg with
    | Some l => if decide (deref l w = ∅) then headers self else l
    | None => headers self
    end in
  let url := (api_host self +:+ "/" +:+ version self +:+ "/" +:+ url)%string in
  logger_debug (LogRequest method url params params_type (deref hdrs w) raise_for_status);;
  dict_setitem hdrs "API-KEY" (VStr (api_key self));;
  w ← get_world;
  response ←
    match params with
    | Some p =>
        if decide (p = ∅) then
          requests_request
            {| call_method := method; call_url := url;
               call_headers := deref hdrs w; call_extra := None |}
        else if decide (params_type ∈ request_keywords) then
          requests_request
            {| call_method := method; call_url := url;
               call_headers := deref hdrs w; call_extra := Some (params_type, p) |}
        else raise (TypeError "request() got an unexpected keyword argument")
    | None =>
        requests_request
          {| call_method := method; call_url := url;
             call_headers := deref hdrs w; call_extra := None |}
    end;
  logger_debug (LogResponse response);;
  if raise_for_status then
    lift (raise_for_status_ response);;
    match json response with
    | Some j => mret (Parsed j)
    | None => raise JSONDecodeError
    end
  else mret (Raw response).

Definition create_order (self : ApiObj) (data : Kwargs) : M RequestResult :=
  inst ← lift (construct CreateOrder data);
  _request self "post" "orders" (Some (dict_exclude_unset inst)) "json" None true.

Definition cancel_order (self : ApiObj) (pos : list PyVal) (kw : Kwargs) : M RequestResult :=
  '(order_id, data) ← lift (bind_order_id pos kw);
  let url := ("orders/" +:+ format_value order_id +:+ "/cancel")%string in
  inst ← lift (construct CancelOrder data);
  _request self "post" url (Some (dict_exclude_unset inst)) "json" None true.

Definition get_orders (self : ApiObj) : M RequestResult :=
  _request self "get" "orders" None "json" None true.

Definition get_order_by_id (self : ApiObj) (order_id : PyVal) : M RequestResult :=
  _request self "get" ("orders/" +:+ format_value order_id)%string None "json" None true.

Definition capture_order (self : ApiObj) (pos : list PyVal) (kw : Kwargs) : M RequestResult :=
  '(order_id, data) ← lift (bind_order_id pos kw);
  let url := ("orders/" +:+ format_value order_id +:+ "/capture")%string in
  inst ← lift (construct CaptureOrder data);
  _request self "post" url (Some (dict_exclude_unset inst)) "json" None true.

Definition get_order_events (self : ApiObj) (order_id : PyVal) : M RequestResult :=
  _request self "get" ("orders/" +:+ format_value order_id +:+ "/events")%string None "json" None true.

Definition refund_order (self : ApiObj) (pos : list PyVal) (kw : Kwargs) : M RequestResult :=
  '(order_id, data) ← lift (bind_order_id pos kw);
  let url := ("orders/" +:+ format_value order_id +:+ "/refunds")%string in
  inst ← lift (construct RefundOrder data);
  _request self "post" url (Some (dict_exclude_unset inst)) "json" None true.

Definition get_refunds (self : ApiObj) (order_id : PyVal) : M RequestResult :=
  _request self "get" ("orders/" +:+ format_value order_id +:+ "/refunds")%string None "json" None true.

Definition get_refund_by_id (self : ApiObj) (order_id refund_id : PyVal) : M RequestResult :=
  _request self "get"
    ("orders/" +:+ format_value order_id +:+ "/refunds/" +:+ format_value refund_id)%string
    None "json" None true.

End methods.
End Api.

(** ** [class Order] *)

(** The class object [Order].  There is one; [set_api] returns it. *)
Inductive PyClass := Order_class.

(** [x.get(key)] on what an operation returned. *)
Definition result_get (r : RequestResult) (key : string) : Result PyVal :=
  match r with
  | Parsed (VDict kvs) =>
      Ok (default VNone
            (snd <$> List.find (λ kv, match kv.1 with
                                      | VStr k => bool_decide (k = key)
                                      | _ => false
                                      end) kvs))
  | _ => Raise (AttributeError "object has no attribute 'get'")
  end.

(** The argument of a double-star unpacking must be a mapping with [str] keys. *)
Definition unpack (v : PyVal) : Result Kwargs :=
  match v with
  | VDict kvs =>
      match kwargs_of kvs with
      | Some kw => Ok kw
      | None => Raise (TypeError "keywords must be strings")
      end
  | _ => Raise (TypeError "argument after ** must be a mapping")
  end.

Definition unpack_result (r : RequestResult) : Result Kwargs :=
  match r with
  | Parsed j => unpack j
  | Raw _ => Raise (TypeError "argument after ** must be a mapping")
  end.

(** [for x in r]: a list yields its items, a dict its keys, a string its
    characters. *)
Definition iterate (r : RequestResult) : Result (list PyVal) :=
  match r with
  | Parsed (VList l) => Ok l
  | Parsed (VDict kvs) => Ok (fst <$> kvs)
  | Parsed (VStr s) => Ok ((λ c, VStr (String c EmptyString)) <$> chars s)
  | _ => Raise (TypeError "object is not iterable")
  end.

(** The list comprehension that calls the record class on each item, unpacked
    as keywords: it stops at the first item that raises. *)
Fixpoint construct_each `{PyRuntime} (m : Model FieldType) (xs : list PyVal)
    : Result (list PyVal) :=
  match xs with
  | [] => Ok []
  | x :: xs' =>
      match unpack x with
      | Ok kw =>
          match construct m kw with
          | Ok inst =>
              match construct_each m xs' with
              | Ok insts => Ok (inst :: insts)
              | Raise e => Raise e
              end
          | Raise e => Raise e
          end
      | Raise e => Raise e
      end
  end.

Module Order.

Definition model : Model FieldType :=
  {| model_name := "Order";
     fields :=
       [ F "id" (Scalar TStr) Required unbounded;
         F "shop_id" (Scalar TStr) Required unbounded;
         F "status" (Scalar (TEnum OrderStatusEnum)) Required unbounded;
         F "created_at" (Scalar TISODatetime) Required unbounded;
         F "amount" (Scalar TInt) Required unbounded;
         F "currency" (Scalar (TEnum CurrencyEnum)) Required unbounded;
         F "capture_method" (Scalar (TEnum CaptureMethodEnum)) Required unbounded;
         F "external_id" (Scalar TStr) (OptionalDefault VNone) (min_len 1);
         F "description" (Scalar TStr) Optional unbounded;
         F "extra_info" (Scalar TDict) Optional unbounded;
         F "attempts" (Scalar TInt) (OptionalDefault (VInt 10)) (between 0 50);
         F "due_date" (Scalar TStr) Optional unbounded;
         F "customer_id" (Scalar TStr) (OptionalDefault VNone) (min_len 1);
         F "card_id" (Scalar TStr) (OptionalDefault VNone) (min_len 1);
         F "mcc" (Scalar TStr) (OptionalDefault VNone) (len_between 4 4);
         F "back_url" (Scalar THttpUrl) Optional unbounded;
         F "success_url" (Scalar THttpUrl) Optional unbounded;
         F "failure_url" (Scalar THttpUrl) Optional unbounded;
         F "template" (Scalar TStr) Optional unbounded;
         F "checkout_url" (Scalar THttpUrl) Optional unbounded;
         F "access_token" (Scalar TStr) Optional unbounded ] |}.

Section methods.
Context `{PyRuntime, Network, Imported}.

(** [Order.set_api]: [cls.api = api] writes the class attribute, which every
    holder of the class sees; the class itself is returned. *)
Definition set_api (cls : PyClass) (api : ApiObj) : M PyClass := λ w,
  (Ok cls, {| dicts := dicts w; Order_api := Some api;
              log := log w; calls := calls w |}).

(** Reading [cls.api] in a class method. *)
Definition get_api : M ApiObj := λ w,
  match Order_api w with
  | Some a => (Ok a, w)
  | None => (Raise (AttributeError "type object 'Order' has no attribute 'api'"), w)
  end.

(** Reading [self.api] in a method of a record: the record has no attribute
    of that name of its own and so finds the class attribute; when the class
    has none either, the error names the record. *)
Definition self_api : M ApiObj := λ w,
  match Order_api w with
  | Some a => (Ok a, w)
  | None => (Raise (AttributeError "'Order' object has no attribute 'api'"), w)
  end.

(** [self.id] *)
Definition get_id (self : PyVal) : Result PyVal :=
  match self with
  | VModel _ vals _ =>
      match vals !! "id" with
      | Some v => Ok v
      | None => Raise (AttributeError "id")
      end
  | _ => Raise (AttributeError "id")
  end.

(** The keywords [order_id=self.id, **data] of a call. *)
Definition with_order_id (id : PyVal) (data : Kwargs) : Result Kwargs :=
  match data !! "order_id" with
  | Some _ => Raise (TypeError "got multiple values for keyword argument 'order_id'")
  | None => Ok (<["order_id" := id]> data)
  end.

Definition create (cls : PyClass) (data : Kwargs) : M PyVal :=
  api ← get_api;
  r ← Api.create_order api data;
  order ← lift (result_get r "order");
  kw ← lift (unpack order);
  lift (construct model kw).

Definition cancel (cls : PyClass) (data : Kwargs) : M PyVal :=
  api ← get_api;
  r ← Api.cancel_order api [] data;
  kw ← lift (unpack_result r);
  lift (construct CancelOrderResponse kw).

Definition retrieve (cls : PyClass) (order_id : PyVal) : M PyVal :=
  api ← get_api;
  r ← Api.get_order_by_id api order_id;
  kw ← lift (unpack_result r);
  lift (construct model kw).

Definition capture (self : PyVal) (data : Kwargs) : M PyVal :=
  api ← self_api;
  id ← lift (get_id self);
  kw ← lift (with_order_id id data);
  r ← Api.capture_order api [] kw;
  kw' ← lift (unpack_result r);
  lift (construct CaptureOrderResponse kw').

Definition get_events (self : PyVal) : M (list PyVal) :=
  api ← self_api;
  id ← lift (get_id self);
  r ← Api.get_order_events api id;
  es ← lift (iterate r);
  lift (construct_each Event es).

Definition refund (self : PyVal) (data : Kwargs) : M PyVal :=
  api ← self_api;
  id ← lift (get_id self);
  kw ← lift (with_order_id id data);
  r ← Api.refund_order api [] kw;
  kw' ← lift (unpack_result r);
  lift (construct Refund kw').

Definition refund_list (self : PyVal) : M (list PyVal) :=
  api ← self_api;
  id ← lift (get_id self);
  r ← Api.get_refunds api id;
  rs ← lift (iterate r);
  lift (construct_each Refund rs).

Definition refund_retrieve (self : PyVal) (refund_id : PyVal) : M PyVal :=
  api ← self_api;
  id ← lift (get_id self);
  r ← Api.get_refund_by_id api id refund_id;
  kw ← lift (unpack_result r);
  lift (construct Refund kw).

Definition list (cls : PyClass) : M (list PyVal) :=
  api ← get_api;
  r ← Api.get_orders api;
  ds ← lift (iterate r);
  lift (construct_each model ds).

End methods.
End Order.

(** ** [class Ioka(Api)] *)

Module Ioka.

(** The property [order]: [return Order.set_api(self)]. *)
Definition order (self : ApiObj) : M PyClass := Order.set_api Order_class self.

End Ioka.

(** ** The operations, their table, and the facade's calls *)

(** [requests] sends the verb in upper case ([method.upper()]). *)
Definition upper_char (c : ascii) : ascii :=
  let n := N_of_ascii c in
  if ((97 <=? n) && (n <=? 122))%N then ascii_of_N (n - 32) else c.

Definition upper (s : string) : string := str_of (upper_char <$> chars s).

Definition http_verb (c : HttpCall) : string := upper (call_method c).

(** A call of one of the nine operations of [Api], with its arguments. *)
Inductive Operation :=
| CreateOrderOp (data : Kwargs)
| CancelOrderOp (pos : list PyVal) (kw : Kwargs)
| GetOrdersOp
| GetOrderByIdOp (order_id : PyVal)
| CaptureOrderOp (pos : list PyVal) (kw : Kwargs)
| GetOrderEventsOp (order_id : PyVal)
| RefundOrderOp (pos : list PyVal) (kw : Kwargs)
| GetRefundsOp (order_id : PyVal)
| GetRefundByIdOp (order_id refund_id : PyVal).

Definition run `{PyRuntime, Network, Imported} (self : ApiObj) (op : Operation)
    : M RequestResult :=
  match op with
  | CreateOrderOp data => Api.create_order self data
  | CancelOrderOp pos kw => Api.cancel_order self pos kw
  | GetOrdersOp => Api.get_orders self
  | GetOrderByIdOp order_id => Api.get_order_by_id self order_id
  | CaptureOrderOp pos kw => Api.capture_order self pos kw
  | GetOrderEventsOp order_id => Api.get_order_events self order_id
  | RefundOrderOp pos kw => Api.refund_order self pos kw
  | GetRefundsOp order_id => Api.get_refunds self order_id
  | GetRefundByIdOp order_id refund_id => Api.get_refund_by_id self order_id refund_id
  end.

(** The [order_id] a call binds, when it binds one. *)
Definition bound_order_id (pos : list PyVal) (kw : Kwargs) : PyVal :=
  match bind_order_id pos kw with
  | Ok (order_id, _) => order_id
  | Raise _ => VNone
  end.

(** The table of operations of the specification: verb and path, with the
    ids of the call in the path. *)
Definition table `{PyRuntime} (op : Operation) : string * string :=
  let id v := format_value v in
  match op with
  | CreateOrderOp _ => ("POST", "orders")
  | CancelOrderOp pos kw =>
      ("POST", "orders/" +:+ id (bound_order_id pos kw) +:+ "/cancel")
  | GetOrdersOp => ("GET", "orders")
  | GetOrderByIdOp order_id => ("GET", "orders/" +:+ id order_id)
  | CaptureOrderOp pos kw =>
      ("POST", "orders/" +:+ id (bound_order_id pos kw) +:+ "/capture")
  | GetOrderEventsOp order_id => ("GET", "orders/" +:+ id order_id +:+ "/events")
  | RefundOrderOp pos kw =>
      ("POST", "orders/" +:+ id (bound_order_id pos kw) +:+ "/refunds")
  | GetRefundsOp order_id => ("GET", "orders/" +:+ id order_id +:+ "/refunds")
  | GetRefundByIdOp order_id refund_id =>
      ("GET", "orders/" +:+ id order_id +:+ "/refunds/" +:+ id refund_id)
  end%string.

(** A use of the [Order] facade: the class methods, and the methods of an
    [Order] record [self]. *)
Inductive FacadeCall :=
| DoCreate (data : Kwargs)
| DoCancel (data : Kwargs)
| DoList
| DoRetrieve (order_id : PyVal)
| DoCapture (self : PyVal) (data : Kwargs)
| DoGetEvents (self : PyVal)
| DoRefund (self : PyVal) (data : Kwargs)
| DoRefundList (self : PyVal)
| DoRefundRetrieve (self : PyVal) (refund_id : PyVal).

Definition facade_call `{PyRuntime, Network, Imported} (cls : PyClass) (fc : FacadeCall)
    : M (PyVal + list PyVal) :=
  match fc with
  | DoCreate data => r ← Order.create cls data; mret (inl r)
  | DoCancel data => r ← Order.cancel cls data; mret (inl r)
  | DoList => r ← Order.list cls; mret (inr r)
  | DoRetrieve order_id => r ← Order.retrieve cls order_id; mret (inl r)
  | DoCapture self data => r ← Order.capture self data; mret (inl r)
  | DoGetEvents self => r ← Order.get_events self; mret (inr r)
  | DoRefund self data => r ← Order.refund self data; mret (inl r)
  | DoRefundList self => r ← Order.refund_list self; mret (inr r)
  | DoRefundRetrieve self refund_id =>
      r ← Order.refund_retrieve self refund_id; mret (inl r)
  end.

(** ** RFC 3339 date-times, as the RFC writes them (section 5.6)

    [date-time = full-date "T" full-time], with
    [full-date = 4DIGIT "-" 2DIGIT "-" 2DIGIT],
    [full-time = 2DIGIT ":" 2DIGIT ":" 2DIGIT ["." 1*DIGIT] time-offset] and
    [time-offset = "Z" / ("+" / "-") 2DIGIT ":" 2DIGIT].  The letters [T]
    and [Z] of the grammar may be written in lower case. *)

Module Rfc3339.

Inductive letter_case := Upper | Lower.

Inductive time_offset :=
| Zulu (z : letter_case)
| Numeric (negative : bool) (offset_hour offset_minute : N).

Record t := mk {
  year : N; month : N; day : N;
  (** how the [T] between the date and the time is written *)
  separator : letter_case;
  hour : N; minute : N; second : N;
  (** the digits of [time-secfrac], none when the fraction is absent *)
  secfrac : list N;
  offset : time_offset
}.

Definition leap_year (y : N) : bool :=
  ((y mod 4 =? 0) && (negb (y mod 100 =? 0) || (y mod 400 =? 0)))%N.

(** Section 5.7: the days of each month. *)
Definition days_in_month (y m : N) : N :=
  (match m with
   | 2 => if leap_year y then 29 else 28
   | 4 | 6 | 9 | 11 => 30
   | _ => 31
   end)%N.

Definition valid_offset (o : time_offset) : bool :=
  match o with
  | Zulu _ => true
  | Numeric _ h m => ((h <=? 23) && (m <=? 59))%N
  end.

(** Section 5.7: the ranges of the fields.  A second of 60 is a leap
    second. *)
Definition valid (d : t) : bool :=
  ((year d <=? 9999) && (1 <=? month d) && (month d <=? 12)
   && (1 <=? day d) && (day d <=? days_in_month (year d) (month d))
   && (hour d <=? 23) && (minute d <=? 59) && (second d <=? 60))%N
  && forallb (λ x, x <? 10)%N (secfrac d)
  && valid_offset (offset d).

Definition secfrac_chars (ds : list N) : list ascii :=
  match ds with
  | [] => []
  | _ => "."%char :: (digit_char <$> ds)
  end.

Definition offset_chars (o : time_offset) : list ascii :=
  match o with
  | Zulu Upper => ["Z"%char]
  | Zulu Lower => ["z"%char]
  | Numeric negative h m =>
      (if negative then "-"%char else "+"%char)
      :: fixed_digits 2 h ++ ":"%char :: fixed_digits 2 m
  end.

Definition separator_char (c : letter_case) : ascii :=
  match c with Upper => "T"%char | Lower => "t"%char end.

(** The string a date-time is written as. *)
Definition to_string (d : t) : string :=
  str_of (fixed_digits 4 (year d) ++ "-"%char :: fixed_digits 2 (month d)
          ++ "-"%char :: fixed_digits 2 (day d) ++ separator_char (separator d)
          :: fixed_digits 2 (hour d) ++ ":"%char :: fixed_digits 2 (minute d)
          ++ ":"%char :: fixed_digits 2 (second d)
          ++ secfrac_chars (secfrac d) ++ offset_chars (offset d)).

(** The fraction of a second in microseconds, for up to six digits. *)
Definition micros (ds : list N) : N :=
  (foldl (λ acc x, 10 * acc + x) 0 ds * 10 ^ N.of_nat (6 - length ds))%N.

(** The local time a date-time shows, as a naive [datetime]. *)
Definition local (d : t) : datetime.t :=
  datetime.mk (year d) (month d) (day d) (hour d) (minute d) (second d)
              (micros (secfrac d)) None.

(** The date-times within reach of [ISODatetime.validate] on every version
    of Python: the year is not 0000, the second is not a leap second, a
    fraction has three or six digits, and a [Z] is written in upper case,
    the one letter [validate] removes. *)
Definition plain (d : t) : bool :=
  ((1 <=? year d) && (second d <=? 59))%N
  && bool_decide (length (secfrac d) ∈ [0; 3; 6]%nat)
  && match offset d with Zulu Lower => false | _ => true end.

End Rfc3339.

(** * Terms of the statements *)

(** ** What validation does with one field *)

Section per_field.
Context {T : Type} (vf : Field T → PyVal → ErrorList + PyVal) (kw : Kwargs).

(** The errors one field contributes. *)
Definition field_errors (f : Field T) : ErrorList :=
  match kw !! name f with
  | None => if required f then [([LField (name f)], MissingError)] else []
  | Some v =>
      match vf f v with
      | inl errs => at_loc (LField (name f)) errs
      | inr _ => []
      end
  end.

(** The value one field ends with, if any. *)
Definition field_value (f : Field T) : option PyVal :=
  match kw !! name f with
  | None => if required f then None else Some (get_default f)
  | Some v =>
      match vf f v with
      | inl _ => None
      | inr v' => Some v'
      end
  end.

End per_field.

(** A field passes when it is supplied and validates, or is absent and not
    required. *)
Definition field_passes {T} (vf : Field T → PyVal → ErrorList + PyVal)
    (kw : Kwargs) (f : Field T) : Prop :=
  match kw !! name f with
  | None => required f = false
  | Some v => ∃ v', vf f v = inr v'
  end.

(** [vf] never fails with an empty list of errors. *)
Definition reports_errors {T} (vf : Field T → PyVal → ErrorList + PyVal) : Prop :=
  ∀ f v errs, vf f v = inl errs → errs ≠ [].

Section declared_values.
Context `{PyRuntime}.

(** What a field declaration asks of a value other than [None], read off
    the annotation and the bounds. *)
Definition scalar_ok (t : ScalarType) (b : Bounds) (v : PyVal) : Prop :=
  match t with
  | TInt => ∃ z, int_validator v = Some z
                 ∧ (∀ g, ge b = Some g → g ≤ z) ∧ (∀ l, le b = Some l → z ≤ l)
  | TFloat => is_Some (float_validator v)
  | TStr => ∃ s, str_validator v = inr s
                 ∧ (∀ n, min_length b = Some n → (n ≤ String.length s)%nat)
                 ∧ (∀ n, max_length b = Some n → (String.length s ≤ n)%nat)
  | TDict => is_Some (dict_validator v)
  | THttpUrl => ∃ s u, str_validator v = inr s ∧ HttpUrl_validate s = inr u
  | TSecretStr => (∃ s, v = VSecret s) ∨ ∃ s, str_validator v = inr s
  | TISODatetime => ∃ s, ISODatetime.validate v = Ok s
  | TEnum members => ∃ m, m ∈ members ∧ py_eqb v m = true
  end.

(** A value for a field of a flat record. *)
Definition scalar_value_ok (f : Field ScalarType) (v : PyVal) : Prop :=
  match v with
  | VNone => allow_none f = true
  | _ => scalar_ok (type_ f) (bounds f) v
  end.

(** The keywords satisfy a record of scalar fields. *)
Definition record_ok (m : Model ScalarType) (kw : Kwargs) : Prop :=
  ∀ f, f ∈ fields m →
    match kw !! name f with
    | None => required f = false
    | Some v => scalar_value_ok f v
    end.

(** A value for a record-typed field. *)
Definition nested_ok (m : Model ScalarType) (v : PyVal) : Prop :=
  match v with
  | VModel c vals _ => c = model_name m ∨ record_ok m vals
  | VDict kvs => ∃ kw, kwargs_of kvs = Some kw ∧ record_ok m kw
  | VStr _ | VList _ =>
      ∃ kvs kw, py_dict v = Some kvs ∧ kwargs_of kvs = Some kw ∧ record_ok m kw
  | _ => False
  end.

(** What a field declaration of a request or response record asks of a
    supplied value. *)
Definition value_ok (f : Field FieldType) (v : PyVal) : Prop :=
  match v with
  | VNone => allow_none f = true
  | _ =>
      match type_ f with
      | Scalar t => scalar_ok t (bounds f) v
      | Nested m => nested_ok m v
      | ListOf m => ∃ l, v = VList l ∧ Forall (nested_ok m) l
      end
  end.

(** A declared field is satisfied by the keywords. *)
Definition field_ok (kw : Kwargs) (f : Field FieldType) : Prop :=
  match kw !! name f with
  | None => required f = false
  | Some v => value_ok f v
  end.

End declared_values.

(** ** The steps of [Api._request] *)

Section request_parts.
Context `{Network}.

(** The dict [headers or self.headers] names. *)
Definition chosen_headers (self : ApiObj) (headers_arg : option loc) (w : World) : loc :=
  match headers_arg with
  | Some l => if decide (deref l w = ∅) then headers self else l
  | None => headers self
  end.

Definition full_url (self : ApiObj) (url : string) : string :=
  (api_host self +:+ "/" +:+ version self +:+ "/" +:+ url)%string.

(** [params] is truthy: a dict that is not empty. *)
Definition truthy (params : option Kwargs) : option Kwargs :=
  match params with
  | Some p => if decide (p = ∅) then None else Some p
  | None => None
  end.

(** The world once the request line is logged and the key is written. *)
Definition after_setitem (self : ApiObj) (method url : string) (params : option Kwargs)
    (params_type : string) (headers_arg : option loc) (rfs : bool) (w : World) : World :=
  let h := chosen_headers self headers_arg w in
  {| dicts := <[h := <["API-KEY" := VStr (api_key self)]> (deref h w)]> (dicts w);
     Order_api := Order_api w;
     log := log w ++ [LogRequest method (full_url self url) params params_type
                        (deref h w) rfs];
     calls := calls w |}.

(** The call [_request] hands to [requests.request]. *)
Definition the_call (self : ApiObj) (method url : string) (params : option Kwargs)
    (params_type : string) (headers_arg : option loc) (w : World) : HttpCall :=
  let h := chosen_headers self headers_arg w in
  {| call_method := method;
     call_url := full_url self url;
     call_headers := <["API-KEY" := VStr (api_key self)]> (deref h w);
     call_extra := (λ p, (params_type, p)) <$> truthy params |}.

Definition with_call (c : HttpCall) (w : World) : World :=
  {| dicts := dicts w; Order_api := Order_api w; log := log w; calls := calls w ++ [c] |}.

Definition with_log (r : LogRecord) (w : World) : World :=
  {| dicts := dicts w; Order_api := Order_api w; log := log w ++ [r]; calls := calls w |}.

(** What [_request] does with the answer. *)
Definition settle (rfs : bool) (r : Response) : Result RequestResult :=
  if rfs then
    if (400 <=? status_code r) && (status_code r <? 600) then Raise (HTTPError r)
    else match json r with
         | Some j => Ok (Parsed j)
         | None => Raise JSONDecodeError
         end
  else Ok (Raw r).

End request_parts.

(** ** Closed settings for the examples *)

(** [s.startswith(p)] *)
Definition has_prefix (p s : string) : bool :=
  bool_decide (take (String.length p) (chars s) = chars p).

(** A runtime for closed examples.  It implements what the examples reach:
    [int()] of a string of ASCII digits, URLs that start with [http://] or
    [https://], and dates and times in the documented format. *)
Definition example_runtime : PyRuntime :=
  {| py_int := λ v, match v with
                    | VStr s => Z.of_N <$> parse_digits (chars s)
                    | _ => None
                    end;
     py_float := λ _, None;
     py_str := λ _, "";
     py_str_int_refused := λ _, None;
     py_dict := λ _, None;
     py_float_eq_int := λ _ _, false;
     HttpUrl_validate := λ s,
       if has_prefix "http://" s || has_prefix "https://" s then inr s
       else inl UrlError;
     datetime_fromisoformat := datetime.fromisoformat_documented;
     datetime_fromisoformat_error := λ _, "Invalid isoformat string" |}.

(** A remote side that answers every call with [r]. *)
Definition answers (r : Response) : Network := {| network_answer := λ _ _, Ok r |}.

(** An import of the module, with the identifier it drew. *)
Definition example_import : Imported :=
  {| external_id_default := "3f2b8c1e-0d4a-4b6f-9a57-1c2d3e4f5a6b" |}.

(** The world before any client is made. *)
Definition empty_world : World :=
  {| dicts := ∅; Order_api := None; log := []; calls := [] |}.

(** A 200 answer with an empty JSON object. *)
Definition ok_response : Response :=
  {| status_code := 200; text := "{}"; json := Some (VDict []) |}.

(** The [headers] argument is falsy: [None], or an empty dict. *)
Definition falsy_headers (headers_arg : option loc) (w : World) : Prop :=
  match headers_arg with
  | None => True
  | Some l => deref l w = ∅
  end.

(** A client of the staging host whose headers dict is at location 1. *)
Definition example_api : ApiObj :=
  {| api_host := "https://stage-api.ioka.kz"; api_key := "secret";
     version := "v2"; headers := 1%positive |}.

(** ** Request records *)

Section native_values.
Context `{PyRuntime}.

(** A value that already has the type of the annotation. *)
Definition native (t : ScalarType) (v : PyVal) : Prop :=
  match t, v with
  | TInt, VInt _ | TFloat, VFloat _ | TStr, VStr _ | TDict, VDict _
  | TSecretStr, VSecret _ => True
  | TEnum _, (VStr _ | VInt _) => True
  | _, _ => False
  end.

End native_values.

Section request_record_terms.
Context `{PyRuntime, Imported}.

Definition request_records : list (Model FieldType) :=
  [CreateOrder; CancelOrder; CaptureOrder; RefundOrder].

Definition declares (m : Model FieldType) (n : string) : Prop :=
  n ∈ name <$> fields m.

(** The violations the specification lists for request records: amount below
    100, mcc not of length 4, attempts outside 1..50, reason longer than 255,
    a malformed URL in back_url, success_url or failure_url. *)
Definition spec_listed_violation (m : Model FieldType) (kw : Kwargs) : Prop :=
  (declares m "amount" ∧ ∃ z, kw !! "amount" = Some (VInt z) ∧ z < 100)
  ∨ (declares m "mcc" ∧ ∃ s, kw !! "mcc" = Some (VStr s) ∧ String.length s ≠ 4%nat)
  ∨ (declares m "attempts" ∧ ∃ z, kw !! "attempts" = Some (VInt z) ∧ ¬ 1 ≤ z ≤ 50)
  ∨ (declares m "reason"
     ∧ ∃ s, kw !! "reason" = Some (VStr s) ∧ (255 < String.length s)%nat)
  ∨ (∃ n s, n ∈ ["back_url"; "success_url"; "failure_url"] ∧ declares m n
            ∧ kw !! n = Some (VStr s) ∧ ∃ e, HttpUrl_validate s = inl e).

(** What a successfully built record exposes. *)
Definition exposes (m : Model FieldType) (kw : Kwargs)
    (vals : gmap string PyVal) (set : gset string) : Prop :=
  (∀ f, f ∈ fields m →
     match kw !! name f with
     | None => vals !! name f = Some (get_default f)
     | Some v =>
         ∃ v', validate_field f v = inr v' ∧ vals !! name f = Some v'
               ∧ (∀ t, type_ f = Scalar t → native t v → v' = v)
     end)
  ∧ (∀ n, n ∉ name <$> fields m → vals !! n = None)
  ∧ (∀ n, n ∈ set ↔ n ∈ name <$> fields m ∧ is_Some (kw !! n)).

End request_record_terms.

(** A source of identifiers that never repeats one. *)
Definition counting_entropy : Entropy :=
  {| uuid4_draw := λ n, ("uuid-" +:+ pretty n)%string |}.

(** ** Calls *)

(** [m] changes nothing in the world. *)
Definition silent {A} (m : M A) : Prop := ∀ w, (m w).2 = w.

(** [m] makes at most one call, which satisfies [P], and leaves the class
    attribute [Order.api] alone. *)
Definition sends {A} (m : M A) (P : HttpCall → Prop) : Prop :=
  ∀ w, ∃ cs, calls (m w).2 = calls w ++ cs ∧ (length cs ≤ 1)%nat ∧ Forall P cs
             ∧ Order_api (m w).2 = Order_api w
             ∧ (∀ a, (m w).1 = Ok a → length cs = 1%nat).

(** What every call of a client carries: its host and version in front of the
    path, and its key under [API-KEY]. *)
Definition call_of (self : ApiObj) (method path : string) (c : HttpCall) : Prop :=
  call_method c = method
  ∧ call_url c = full_url self path
  ∧ call_headers c !! "API-KEY" = Some (VStr (api_key self)).

(** The verb as the source writes it, in lower case. *)
Definition lower_verb (verb : string) : string :=
  if decide (verb = "POST") then "post" else "get".

(** An [Order] record with id 1. *)
Definition example_order : PyVal :=
  VModel "Order" {[ "id" := VStr "1"; "shop_id" := VStr "123" ]} {[ "id"; "shop_id" ]}.

(** Every call [m] makes from [w] carries the key of [X] and goes to the host
    and version of [X]; the class attribute stays bound to [X]. *)
Definition uses {A} (X : ApiObj) (m : M A) (w : World) : Prop :=
  ∃ cs, calls (m w).2 = calls w ++ cs
        ∧ Forall (λ c, call_headers c !! "API-KEY" = Some (VStr (api_key X))
                       ∧ ∃ path, call_url c = full_url X path) cs
        ∧ Order_api (m w).2 = Some X.

(** ** Printed dates and times *)

(** A character that is no sign and no [Z]. *)
Definition plain_char (c : ascii) : Prop :=
  c ≠ "-"%char ∧ c ≠ "+"%char ∧ c ≠ "Z"%char.

(** The characters of a numeric offset [+HH:MM] or [-HH:MM], with the hour
    below 24 and the minute below 60, and the offset they stand for; nothing
    stands for a naive time. *)
Inductive offset_of : list ascii → option datetime.timedelta → Prop :=
| offset_none : offset_of [] None
| offset_some (negative : bool) (oh om : N) :
    (oh < 24)%N → (om < 60)%N →
    offset_of ((if negative then "-"%char else "+"%char)
               :: fixed_digits 2 oh ++ ":"%char :: fixed_digits 2 om)
              (Some ((if negative then -1 else 1)
                     * ((Z.of_N oh * 3600 + Z.of_N om * 60 + Z.of_N 0) * 1000000
                        + Z.of_N 0))).

(** What the documentation of [datetime.fromisoformat] promises on every
    version of Python that runs the library.  It returns [datetime] objects.
    A date [YYYY-MM-DD] alone is read as its midnight.  A date, a [T] or a
    [t], a time [HH:MM:SS] with the hour below 24, a fraction of three or six
    digits if any, and an offset [+HH:MM] or [-HH:MM] if any, are read field
    by field.  A field out of the range of [datetime] is a [ValueError]. *)
Definition reads_documented_format `{PyRuntime} : Prop :=
  (∀ s dt, datetime_fromisoformat s = Some dt → datetime.wf dt = true)
  ∧ (∀ y m d,
       (y < 10000)%N → (m < 100)%N → (d < 100)%N →
       datetime_fromisoformat
         (str_of (fixed_digits 4 y ++ "-"%char :: fixed_digits 2 m ++ "-"%char
                  :: fixed_digits 2 d))
       = datetime.new y m d 0 0 0 0 None)
  ∧ (∀ y m d sep hh mm ss frac us tzs tz,
       (y < 10000)%N → (m < 100)%N → (d < 100)%N →
       (hh < 24)%N → (mm < 100)%N → (ss < 100)%N →
       sep = "T"%char ∨ sep = "t"%char →
       datetime._parse_fraction frac = Some us → offset_of tzs tz →
       datetime_fromisoformat
         (str_of (fixed_digits 4 y ++ "-"%char :: fixed_digits 2 m ++ "-"%char
                  :: fixed_digits 2 d ++ sep
                  :: fixed_digits 2 hh ++ ":"%char :: fixed_digits 2 mm ++ ":"%char
                  :: fixed_digits 2 ss ++ frac ++ tzs))
       = datetime.new y m d hh mm ss us tz).

(** [isinstance(v, str)] and [isinstance(v, datetime)] both fail. *)
Definition neither_str_nor_datetime (v : PyVal) : bool :=
  match v with
  | VStr _ | VDatetime _ => false
  | _ => true
  end.

(** ** What records hold *)

Section stored_values.
Context `{PyRuntime}.

(** What the validators of an annotation leave in a record: a value of the
    annotated type, within the declared bounds. *)
Definition stored_as (t : ScalarType) (b : Bounds) (v : PyVal) : Prop :=
  match t with
  | TInt => ∃ z, v = VInt z ∧ (∀ g, ge b = Some g → g ≤ z) ∧ (∀ l, le b = Some l → z ≤ l)
  | TFloat => ∃ f, v = VFloat f
  | TStr => ∃ s, v = VStr s
                 ∧ (∀ n, min_length b = Some n → (n ≤ String.length s)%nat)
                 ∧ (∀ n, max_length b = Some n → (String.length s ≤ n)%nat)
  | TDict => ∃ kvs, v = VDict kvs
  | THttpUrl => ∃ s u, v = VStr u ∧ HttpUrl_validate s = inr u
  | TSecretStr => ∃ s, v = VSecret s
  | TISODatetime => ∃ x s, v = VStr s ∧ ISODatetime.validate x = Ok s
  | TEnum members => v ∈ members
  end.

(** A record of the class [n]. *)
Definition built_as (n : Model ScalarType) (v : PyVal) : Prop :=
  ∃ vals set, v = VModel (model_name n) vals set.

(** What validation leaves under a field that was supplied with a value other
    than [None]. *)
Definition stored_in (f : Field FieldType) (v : PyVal) : Prop :=
  match type_ f with
  | Scalar t => stored_as t (bounds f) v
  | Nested n => built_as n v
  | ListOf n => ∃ l, v = VList l ∧ Forall (built_as n) l
  end.

End stored_values.

(** The records the library builds from answers. *)
Definition response_records : list (Model FieldType) :=
  [Order.model; CancelOrderResponse; CaptureOrderResponse; Event; Refund].

(** ** Where calls go *)

(** From [w], [m] makes at most one call, and that one with the verb
    [method], to [path] under the host and version of [api], with the key of
    [api]. *)
Definition addresses {A} (api : ApiObj) (method path : string) (m : M A) (w : World)
    : Prop :=
  ∃ cs, calls (m w).2 = calls w ++ cs ∧ (length cs ≤ 1)%nat
        ∧ Forall (call_of api method path) cs.

(** ** Results in sequence *)

(** [k] applied to what [r] returned; the exception of [r] otherwise. *)
Definition and_then {A B} (r : Result A) (k : A → Result B) : Result B :=
  match r with
  | Ok a => k a
  | Raise e => Raise e
  end.

(** An item of an answer builds the record [inst] of the class [m]. *)
Definition builds `{PyRuntime} (m : Model FieldType) (x inst : PyVal) : Prop :=
  ∃ kw, unpack x = Ok kw ∧ construct m kw = Ok inst.

(** An item of an answer fails with [e] when it is unpacked or validated. *)
Definition fails_with `{PyRuntime} (m : Model FieldType) (x : PyVal) (e : Exception)
    : Prop :=
  unpack x = Raise e ∨ ∃ kw, unpack x = Ok kw ∧ construct m kw = Raise e.

(** What a built record holds under a declared field, given what the
    keywords supplied for it: the default, left as declared, when nothing was
    supplied; [None] when [None] was supplied and the field takes it; and
    otherwise the validated value, which is of the declared type and within
    the declared bounds. *)
Definition field_holds `{PyRuntime} (f : Field FieldType) (supplied stored : option PyVal)
    : Prop :=
  match supplied with
  | None => required f = false ∧ stored = Some (get_default f)
  | Some VNone => allow_none f = true ∧ stored = Some VNone
  | Some x => ∃ v, validate_field f x = inr v ∧ stored = Some v ∧ stored_in f v
  end.

(** ** The requests of the table *)

(** [isinstance(v, str)] *)
Definition is_str (v : PyVal) : bool :=
  match v with VStr _ => true | _ => false end.

(** The ids of a call are strings, as the signatures of the operations
    annotate them. *)
Definition ids_are_str (op : Operation) : bool :=
  match op with
  | CreateOrderOp _ | GetOrdersOp => true
  | CancelOrderOp pos kw | CaptureOrderOp pos kw | RefundOrderOp pos kw =>
      match bind_order_id pos kw with
      | Ok (order_id, _) => is_str order_id
      | Raise _ => true
      end
  | GetOrderByIdOp order_id | GetOrderEventsOp order_id | GetRefundsOp order_id =>
      is_str order_id
  | GetRefundByIdOp order_id refund_id => is_str order_id && is_str refund_id
  end.

(** The JSON body of an operation.  The operations that take no keywords
    have none.  The others send the record validated from their keywords,
    as [dict(exclude_unset=True)] gives it, unless binding [order_id] or
    validating the record raises. *)
Definition body `{PyRuntime, Imported} (op : Operation) : Result (option Kwargs) :=
  let validated m data :=
    and_then data (λ kw,
      and_then (construct m kw) (λ inst, Ok (Some (dict_exclude_unset inst)))) in
  let unbound pos kw := and_then (bind_order_id pos kw) (λ b, Ok b.2) in
  match op with
  | CreateOrderOp data => validated CreateOrder (Ok data)
  | CancelOrderOp pos kw => validated CancelOrder (unbound pos kw)
  | CaptureOrderOp pos kw => validated CaptureOrder (unbound pos kw)
  | RefundOrderOp pos kw => validated RefundOrder (unbound pos kw)
  | GetOrdersOp | GetOrderByIdOp _ | GetOrderEventsOp _ | GetRefundsOp _
  | GetRefundByIdOp _ _ => Ok None
  end.

(** The request the table asks of an operation: its verb, its path under
    [{api_host}/{version}/], and the JSON body. *)
Definition request_of_table `{PyRuntime} (self : ApiObj) (op : Operation)
    (json_body : option Kwargs) (c : HttpCall) : Prop :=
  http_verb c = (table op).1
  ∧ call_url c = (api_host self +:+ "/" +:+ version self +:+ "/" +:+ (table op).2)%string
  ∧ call_extra c = (λ p, ("json", p)) <$> json_body.

(** ** Methods of the class and methods of a record *)

(** The call is a method of an [Order] record. *)
Definition on_record (fc : FacadeCall) : bool :=
  match fc with
  | DoCapture _ _ | DoGetEvents _ | DoRefund _ _ | DoRefundList _
  | DoRefundRetrieve _ _ => true
  | DoCreate _ | DoCancel _ | DoList | DoRetrieve _ => false
  end.

(** ** Records without a float *)

(** No field of the record, and no field of a record it holds, is declared
    a [float]: no validator of the record lets an exception through. *)
Definition float_free (m : Model FieldType) : bool :=
  let scalar t := match t with TFloat => false | _ => true end in
  forallb (λ f, match type_ f with
                | Scalar t => scalar t
                | Nested n | ListOf n => forallb (λ g, scalar (type_ g)) (fields n)
                end) (fields m).

(** * Theorems *)

(** An equation whose left side is closed is settled by evaluating that
    side; what is still open on the right is read off the value. *)
Ltac by_evaluation :=
  lazymatch goal with
  | |- ?l = _ =>
      let v := eval vm_compute in l in
      transitivity v; [vm_compute; reflexivity | reflexivity]
  end.

(** ** Facts about validation *)

Section validate_fields_facts.
Context {T : Type} (vf : Field T → PyVal → ErrorList + PyVal) (kw : Kwargs).

Lemma validate_fields_snoc fs f :
  validate_fields vf (fs ++ [f]) kw
  = validate_step vf kw (validate_fields vf fs kw) f.
Proof. unfold validate_fields. by rewrite foldl_app. Qed.

Lemma validate_fields_errors fs :
  acc_errors (validate_fields vf fs kw) = concat (field_errors vf kw <$> fs).
Proof.
  induction fs as [|f fs IH] using rev_ind; [done|].
  rewrite validate_fields_snoc, fmap_app, concat_app. simpl.
  rewrite app_nil_r, <- IH. unfold validate_step, field_errors.
  destruct (kw !! name f) as [v|].
  - destruct (vf f v); simpl; [done | by rewrite app_nil_r].
  - destruct (required f); simpl; [done | by rewrite app_nil_r].
Qed.

Lemma validate_fields_set fs n :
  n ∈ acc_fields_set (validate_fields vf fs kw)
  ↔ n ∈ name <$> fs ∧ is_Some (kw !! n).
Proof.
  induction fs as [|f fs IH] using rev_ind.
  - simpl. rewrite elem_of_empty, elem_of_nil. tauto.
  - rewrite validate_fields_snoc, fmap_app. simpl.
    unfold validate_step.
    destruct (kw !! name f) as [v|] eqn:E.
    + assert (n ∈ {[name f]} ∪ acc_fields_set (validate_fields vf fs kw)
              ↔ n ∈ (name <$> fs) ++ [name f] ∧ is_Some (kw !! n)) as Hgoal.
      { rewrite elem_of_union, elem_of_singleton, IH, elem_of_app, list_elem_of_singleton.
        split.
        - intros [-> | [? ?]]; [split; [by right | by rewrite E] | split; [by left | done]].
        - intros [[? | ->] ?]; [right; done | by left]. }
      destruct (vf f v); simpl; exact Hgoal.
    + assert (n ∈ acc_fields_set (validate_fields vf fs kw)
              ↔ n ∈ (name <$> fs) ++ [name f] ∧ is_Some (kw !! n)) as Hgoal.
      { rewrite IH, elem_of_app, list_elem_of_singleton. split.
        - intros [? ?]; split; [by left | done].
        - intros [[? | ->] Hs]; [done | rewrite E in Hs; by destruct Hs]. }
      destruct (required f); simpl; exact Hgoal.
Qed.

Lemma validate_fields_values_other fs n :
  n ∉ name <$> fs → acc_values (validate_fields vf fs kw) !! n = None.
Proof.
  induction fs as [|f fs IH] using rev_ind; [done|].
  rewrite validate_fields_snoc, fmap_app. simpl. intros Hn.
  rewrite not_elem_of_app, list_elem_of_singleton in Hn. destruct Hn as [Hn Hne].
  unfold validate_step.
  destruct (kw !! name f) as [v|].
  - destruct (vf f v); simpl; [auto | rewrite lookup_insert_ne; auto].
  - destruct (required f); simpl; [auto | rewrite lookup_insert_ne; auto].
Qed.

Lemma validate_fields_values fs f :
  NoDup (name <$> fs) → f ∈ fs →
  acc_values (validate_fields vf fs kw) !! name f = field_value vf kw f.
Proof.
  induction fs as [|g fs IH] using rev_ind; [by intros _ ?%elem_of_nil|].
  rewrite validate_fields_snoc, fmap_app. simpl.
  intros [Hnd [Hdisj _]]%NoDup_app Hin.
  apply elem_of_app in Hin as [Hin | Hin%list_elem_of_singleton]; [|subst g].
  - assert (name f ≠ name g) as Hne.
    { intros Heq. apply (Hdisj (name f)); [by apply list_elem_of_fmap_2|].
      rewrite Heq. by apply list_elem_of_singleton. }
    unfold validate_step.
    destruct (kw !! name g) as [v|].
    + destruct (vf g v); simpl; [auto | rewrite lookup_insert_ne; auto].
    + destruct (required g); simpl; [auto | rewrite lookup_insert_ne; auto].
  - assert (name f ∉ name <$> fs) as Hfresh.
    { intros ?. apply (Hdisj (name f)); [done | by apply list_elem_of_singleton]. }
    unfold validate_step, field_value.
    destruct (kw !! name f) as [v|].
    + destruct (vf f v); simpl;
        [by apply validate_fields_values_other | by rewrite lookup_insert_eq].
    + destruct (required f); simpl;
        [by apply validate_fields_values_other | by rewrite lookup_insert_eq].
Qed.

End validate_fields_facts.

Lemma at_loc_nil l errs : at_loc l errs = [] ↔ errs = [].
Proof. unfold at_loc. destruct errs; simpl; split; congruence. Qed.

Lemma field_errors_nil {T} (vf : Field T → PyVal → ErrorList + PyVal) kw f :
  reports_errors vf →
  field_errors vf kw f = [] ↔ field_passes vf kw f.
Proof.
  intros Hvf. unfold field_errors, field_passes.
  destruct (kw !! name f) as [v|].
  - destruct (vf f v) as [errs|v'] eqn:E.
    + rewrite at_loc_nil. split; [intros ->; by apply Hvf in E | by intros [? ?]].
    + split; eauto.
  - destruct (required f); split; congruence.
Qed.

Lemma concat_nil_Forall {A} (ls : list (list A)) :
  concat ls = [] ↔ Forall (λ l, l = []) ls.
Proof.
  induction ls as [|l ls IH]; simpl.
  - split; [constructor | done].
  - rewrite Forall_cons, <- IH. split.
    + by intros [-> ->]%app_eq_nil.
    + by intros [-> ->].
Qed.

Lemma construct_with_cases {T} (vf : Field T → PyVal → ErrorList + PyVal) m kw :
  reports_errors vf →
  (construct_with vf m kw
     = Ok (VModel (model_name m)
             (acc_values (validate_fields vf (fields m) kw))
             (acc_fields_set (validate_fields vf (fields m) kw)))
   ∧ Forall (field_passes vf kw) (fields m))
  ∨ (∃ errs, construct_with vf m kw = Raise (ValidationError (model_name m) errs)
             ∧ errs ≠ []
             ∧ Exists (λ f, ¬ field_passes vf kw f) (fields m)).
Proof.
  intros Hvf. unfold construct_with.
  pose proof (validate_fields_errors vf kw (fields m)) as Herrs.
  destruct (acc_errors (validate_fields vf (fields m) kw)) as [|e errs] eqn:E.
  - left. split; [done|].
    symmetry in Herrs. apply concat_nil_Forall in Herrs.
    rewrite Forall_fmap in Herrs.
    eapply Forall_impl; [exact Herrs|]. intros f Hf. simpl in Hf.
    by apply field_errors_nil in Hf.
  - right. exists (e :: errs). split; [done|]. split; [done|].
    apply not_Forall_Exists; [intros f; unfold field_passes;
      destruct (kw !! name f) as [v|];
      [destruct (vf f v); [right; by intros [? ?] | left; eauto]
      | destruct (required f); [right | left]; congruence]|].
    intros Hall.
    assert (concat (field_errors vf kw <$> fields m) = []) as Hnil.
    { apply concat_nil_Forall. rewrite Forall_fmap.
      eapply Forall_impl; [exact Hall|]. intros f Hf. simpl.
      by apply field_errors_nil. }
    congruence.
Qed.

Section declared.
Context `{PyRuntime}.

Lemma number_size_validator_inr b z :
  (∃ z', number_size_validator b z = inr z')
  ↔ (∀ g, ge b = Some g → g ≤ z) ∧ (∀ l, le b = Some l → z ≤ l).
Proof.
  unfold number_size_validator.
  destruct (ge b) as [g|], (le b) as [l|];
    repeat match goal with |- context [?a <? ?b] => destruct (Z.ltb_spec a b) end;
    split;
    try (intros [? ?]; discriminate);
    try (intros _; split; intros ? [= <-]; lia);
    try (intros [Hg Hl]; try specialize (Hg _ eq_refl); try specialize (Hl _ eq_refl); lia);
    try (intros _; split; intros ? [=]);
    try (intros _; eauto).
Qed.

Lemma constr_length_validator_inr b s :
  (∃ s', constr_length_validator b s = inr s')
  ↔ (∀ n, min_length b = Some n → (n ≤ String.length s)%nat)
    ∧ (∀ n, max_length b = Some n → (String.length s ≤ n)%nat).
Proof.
  unfold constr_length_validator.
  destruct (min_length b) as [lo|], (max_length b) as [hi|]; simpl;
    repeat match goal with |- context [(?a <? ?b)%nat] => destruct (Nat.ltb_spec a b) end;
    split;
    try (intros [? ?]; discriminate);
    try (intros _; split; intros ? [= <-]; lia);
    try (intros [Hg Hl]; try specialize (Hg _ eq_refl); try specialize (Hl _ eq_refl); lia);
    try (intros _; split; intros ? [=]; lia);
    try (intros _; eauto).
Qed.

Lemma find_some_iff {A} (p : A → bool) (l : list A) :
  is_Some (List.find p l) ↔ ∃ x, x ∈ l ∧ p x = true.
Proof.
  induction l as [|a l IH]; simpl.
  - split; [by intros [? ?] | by intros [? [?%elem_of_nil ?]]].
  - destruct (p a) eqn:E.
    + split; [intros _; exists a; split; [left | done] | eauto].
    + rewrite IH. split.
      * intros [x [? ?]]. exists x. split; [by right | done].
      * intros [x [[-> | ?]%elem_of_cons ?]]; [congruence | eauto].
Qed.

Lemma validate_scalar_inr t b v :
  (∃ v', validate_scalar t b v = inr v') ↔ scalar_ok t b v.
Proof.
  destruct t; simpl.
  - destruct (int_validator v) as [z|].
    + split.
      * intros [v' Hv]. exists z. split; [done|].
        apply number_size_validator_inr.
        destruct (number_size_validator b z); [discriminate | eauto].
      * intros [z' [[= <-] Hb]]. apply number_size_validator_inr in Hb as [z'' ->].
        simpl. eauto.
    + split; [by intros [? ?] | by intros [? [? ?]]].
  - destruct (float_validator v); split; eauto; try (by intros [? ?]).
  - destruct (str_validator v) as [e|s].
    + split; [by intros [? ?] | by intros [? [? ?]]].
    + split.
      * intros [v' Hv]. exists s. split; [done|].
        apply constr_length_validator_inr.
        destruct (constr_length_validator b s); [discriminate | eauto].
      * intros [s' [[= <-] Hb]]. apply constr_length_validator_inr in Hb as [s'' ->].
        simpl. eauto.
  - destruct (dict_validator v); split; eauto; try (by intros [? ?]).
  - destruct (str_validator v) as [e|s].
    + split; [by intros [? ?] | by intros (? & ? & ? & ?)].
    + destruct (HttpUrl_validate s) as [e|u] eqn:E; simpl.
      * split; [by intros [? ?] | intros (s' & u & [= <-] & Hs); congruence].
      * split; [intros _; exists s, u; eauto | eauto].
  - destruct v; simpl;
      try (destruct (py_str_int_refused _));
      split; eauto; try (by intros [? ?]);
      try (by intros [[? ?] | [? ?]]);
      try (intros _; right; eauto).
  - destruct (ISODatetime.validate v) as [s|e] eqn:E.
    + split; eauto.
    + split; [|by intros [? ?]].
      destruct e; by intros [? ?].
  - unfold enum_member_validator.
    rewrite <- find_some_iff.
    destruct (List.find (py_eqb v) members); split; eauto; try (by intros [? ?]).
Qed.

Lemma validate_scalar_field_reports : reports_errors validate_scalar_field.
Proof.
  intros f v errs. unfold validate_scalar_field.
  destruct v; try (destruct (validate_scalar _ _ _); by intros [= <-]).
  destruct (allow_none f); by intros [= <-].
Qed.

Lemma validate_scalar_field_inr f v :
  (∃ v', validate_scalar_field f v = inr v') ↔ scalar_value_ok f v.
Proof.
  unfold validate_scalar_field, scalar_value_ok.
  destruct v;
    try (rewrite <- validate_scalar_inr;
         destruct (validate_scalar _ _ _); split; eauto; by intros [? ?]).
  destruct (allow_none f); split; eauto; first [by intros [? ?] | done].
Qed.

Lemma record_ok_passes m kw :
  record_ok m kw ↔ Forall (field_passes validate_scalar_field kw) (fields m).
Proof.
  rewrite Forall_forall. unfold record_ok, field_passes.
  split; intros Hall f Hf; specialize (Hall f Hf);
    destruct (kw !! name f); try done; by apply validate_scalar_field_inr.
Qed.

Lemma construct_flat_inr m kw :
  (∃ inst, construct_with validate_scalar_field m kw = Ok inst) ↔ record_ok m kw.
Proof.
  rewrite record_ok_passes.
  destruct (construct_with_cases validate_scalar_field m kw
              validate_scalar_field_reports) as [[-> Hall] | [errs [-> [_ Hex]]]].
  - split; eauto.
  - split; [by intros [? ?]|]. intros Hall. exfalso.
    apply Exists_exists in Hex as [f [Hf Hnot]].
    rewrite Forall_forall in Hall. by apply Hnot, Hall.
Qed.

Lemma validate_nested_reports m v errs :
  validate_nested m v = inl errs → errs ≠ [].
Proof.
  assert (∀ kw, match construct_with validate_scalar_field m kw with
                | Ok inst => inr inst
                | Raise (ValidationError _ errs) => inl errs
                | Raise _ => inl [([], DictError)]
                end = inl errs → errs ≠ []) as Hkw.
  { intros kw.
    destruct (construct_with_cases validate_scalar_field m kw
                validate_scalar_field_reports) as [[-> _] | [errs' [-> [Hne _]]]];
      [done | by intros [= <-]]. }
  assert (∀ kvs, match kwargs_of kvs with
                 | Some kw =>
                     match construct_with validate_scalar_field m kw with
                     | Ok inst => inr inst
                     | Raise (ValidationError _ errs) => inl errs
                     | Raise _ => inl [([], DictError)]
                     end
                 | None => inl [([], ValidatorTypeError "keywords must be strings")]
                 end = inl errs → errs ≠ []) as Hkvs.
  { intros kvs. destruct (kwargs_of kvs); [apply Hkw | by intros [= <-]]. }
  unfold validate_nested. destruct v; try (by intros [= <-]).
  - destruct (py_dict _); [apply Hkvs | by intros [= <-]].
  - destruct (py_dict _); [apply Hkvs | by intros [= <-]].
  - apply Hkvs.
  - destruct (decide _); [done | apply Hkw].
Qed.

Lemma validate_nested_inr m v :
  (∃ v', validate_nested m v = inr v') ↔ nested_ok m v.
Proof.
  assert (∀ kw, (∃ v', match construct_with validate_scalar_field m kw with
                | Ok inst => inr inst
                | Raise (ValidationError _ errs) => inl errs
                | Raise _ => inl [([], DictError)]
                end = @inr ErrorList _ v') ↔ record_ok m kw) as Hkw.
  { intros kw. rewrite <- construct_flat_inr.
    destruct (construct_with validate_scalar_field m kw) as [inst|e].
    - split; eauto.
    - split; [destruct e; by intros [? ?] | by intros [? ?]]. }
  assert (∀ kvs, (∃ v', match kwargs_of kvs with
                 | Some kw =>
                     match construct_with validate_scalar_field m kw with
                     | Ok inst => inr inst
                     | Raise (ValidationError _ errs) => inl errs
                     | Raise _ => inl [([], DictError)]
                     end
                 | None => inl [([], ValidatorTypeError "keywords must be strings")]
                 end = @inr ErrorList _ v')
                 ↔ ∃ kw, kwargs_of kvs = Some kw ∧ record_ok m kw) as Hkvs.
  { intros kvs. destruct (kwargs_of kvs) as [kw|].
    - rewrite Hkw. split; [eauto | by intros [? [[= <-] ?]]].
    - split; [by intros [? ?] | by intros [? [? ?]]]. }
  unfold validate_nested, nested_ok. destruct v;
    try (split; [by intros [? ?] | done]).
  - destruct (py_dict _) as [kvs|].
    + rewrite Hkvs. split; [intros [kw ?]; eauto | by intros [? [kw [[= <-] ?]]]; eauto].
    + split; [by intros [? ?] | by intros [? [? [? ?]]]].
  - destruct (py_dict _) as [kvs|].
    + rewrite Hkvs. split; [intros [kw ?]; eauto | by intros [? [kw [[= <-] ?]]]; eauto].
    + split; [by intros [? ?] | by intros [? [? [? ?]]]].
  - apply Hkvs.
  - destruct (decide _) as [->|Hne].
    + split; eauto.
    + rewrite Hkw. split; [by right | by intros [? | ?]].
Qed.

Lemma validate_items_nil m i l :
  (validate_items m i l).1 = [] ↔ Forall (nested_ok m) l.
Proof.
  revert i. induction l as [|v l IH]; intros i; simpl.
  - split; [constructor | done].
  - specialize (IH (S i)).
    destruct (validate_items m (S i) l) as [errs vs]. simpl in IH.
    rewrite Forall_cons, <- IH, <- validate_nested_inr.
    destruct (validate_nested m v) as [e|v'] eqn:E; simpl.
    + split.
      * intros [He _]%app_eq_nil. apply at_loc_nil in He.
        by apply validate_nested_reports in E.
      * by intros [[? ?] _].
    + split; [eauto | by intros [_ ?]].
Qed.

Lemma validate_field_reports : reports_errors validate_field.
Proof.
  intros f v errs. unfold validate_field.
  assert (match type_ f with
          | Scalar t =>
              match validate_scalar t (bounds f) v with
              | inl e => inl [([], e)]
              | inr v' => inr v'
              end
          | Nested m => validate_nested m v
          | ListOf m =>
              match v with
              | VList l =>
                  match validate_items m 0 l with
                  | ([], vs) => inr (VList vs)
                  | (errs, _) => inl errs
                  end
              | _ => inl [([], ListError)]
              end
          end = inl errs → errs ≠ []) as Hty.
  { destruct (type_ f) as [t|m|m].
    - destruct (validate_scalar _ _ _); by intros [= <-].
    - apply validate_nested_reports.
    - destruct v; try (by intros [= <-]).
      destruct (validate_items m 0 l) as [[|e es] vs]; by intros [= <-]. }
  destruct v; try exact Hty.
  destruct (allow_none f); by intros [= <-].
Qed.

Lemma validate_field_inr f v :
  (∃ v', validate_field f v = inr v') ↔ value_ok f v.
Proof.
  unfold validate_field, value_ok.
  assert ((∃ v', match type_ f with
          | Scalar t =>
              match validate_scalar t (bounds f) v with
              | inl e => inl [([], e)]
              | inr v' => inr v'
              end
          | Nested m => validate_nested m v
          | ListOf m =>
              match v with
              | VList l =>
                  match validate_items m 0 l with
                  | ([], vs) => inr (VList vs)
                  | (errs, _) => inl errs
                  end
              | _ => inl [([], ListError)]
              end
          end = @inr ErrorList _ v')
          ↔ match type_ f with
            | Scalar t => scalar_ok t (bounds f) v
            | Nested m => nested_ok m v
            | ListOf m => ∃ l, v = VList l ∧ Forall (nested_ok m) l
            end) as Hty.
  { destruct (type_ f) as [t|m|m].
    - rewrite <- validate_scalar_inr.
      destruct (validate_scalar _ _ _); split; eauto; by intros [? ?].
    - apply validate_nested_inr.
    - destruct v; try (split; [by intros [? ?] | by intros [? [? ?]]]).
      pose proof (validate_items_nil m 0 l) as Hnil.
      destruct (validate_items m 0 l) as [[|e es] vs]; simpl in Hnil.
      + split; [intros _; exists l; split; [done | by apply Hnil] | eauto].
      + split; [by intros [? ?]|]. intros [l' [[= <-] Hall]].
        by apply Hnil in Hall. }
  destruct v; try exact Hty.
  destruct (allow_none f); split; eauto; first [by intros [? ?] | done].
Qed.

Lemma field_ok_passes kw f : field_ok kw f ↔ field_passes validate_field kw f.
Proof.
  unfold field_ok, field_passes. destruct (kw !! name f); [|done].
  symmetry. apply validate_field_inr.
Qed.

End declared.

(** ** Facts about [Api._request] *)

Section request_facts.
Context `{Network}.

Lemma deref_after_setitem self method url params pt ha rfs w :
  deref (chosen_headers self ha w) (after_setitem self method url params pt ha rfs w)
  = <["API-KEY" := VStr (api_key self)]> (deref (chosen_headers self ha w) w).
Proof. unfold deref at 1, after_setitem. simpl. by rewrite lookup_insert_eq. Qed.

Lemma _request_unfold self method url params pt ha rfs w :
  Api._request self method url params pt ha rfs w =
  let w1 := after_setitem self method url params pt ha rfs w in
  let c := the_call self method url params pt ha w in
  match truthy params with
  | Some _ =>
      if decide (pt ∈ request_keywords) then
        match network_answer (calls w) c with
        | Ok r => (settle rfs r, with_log (LogResponse r) (with_call c w1))
        | Raise e => (Raise e, with_call c w1)
        end
      else (Raise (TypeError "request() got an unexpected keyword argument"), w1)
  | None =>
      match network_answer (calls w) c with
      | Ok r => (settle rfs r, with_log (LogResponse r) (with_call c w1))
      | Raise e => (Raise e, with_call c w1)
      end
  end.
Proof.
  unfold Api._request, after_setitem, the_call, with_call, with_log, truthy.
  unfold mbind, M_bind, get_world, logger_debug, dict_setitem. simpl.
  fold (chosen_headers self ha w). fold (full_url self url).
  set (h := chosen_headers self ha w).
  unfold deref. simpl. rewrite !lookup_insert_eq. simpl.
  destruct params as [p|]; [destruct (decide (p = ∅))|]; simpl.
  all: try destruct (decide (pt ∈ request_keywords)); simpl.
  all: unfold requests_request, raise, lift, mret, M_ret; simpl.
  all: try reflexivity.
  all: destruct (network_answer _ _) as [resp|err]; simpl; [|reflexivity].
  all: unfold settle, raise_for_status_; destruct rfs; simpl; [|reflexivity].
  all: destruct ((400 <=? status_code resp) && (status_code resp <? 600)); simpl;
    [reflexivity|].
  all: destruct (json resp); reflexivity.
Qed.

End request_facts.

(** ** The shared headers dict (C4, C10) *)

Lemma alloc_dict_deref d w :
  deref (fresh (dom (dicts w))) (alloc_dict d w).2 = d.
Proof. unfold deref, alloc_dict. simpl. by rewrite lookup_insert_eq. Qed.

Lemma __init___headers `{PyRuntime} data w0 self w :
  Api.__init__ data w0 = (Ok self, w) →
  deref (headers self) w
  = {[ "API-KEY" := VSecret (api_key self);
       "Content-Type" := VStr "application/json" ]}.
Proof.
  unfold Api.__init__, mbind, M_bind, lift.
  destruct (construct Api.model data) as [inst|e]; [|discriminate].
  destruct inst; try discriminate.
  destruct (values !! "api_host") as [[]|]; try discriminate.
  destruct (values !! "api_key") as [[]|]; try discriminate.
  destruct (values !! "version") as [[]|]; try discriminate.
  simpl. unfold mret, M_ret. intros [= <- <-]. simpl.
  unfold deref. simpl. by rewrite lookup_insert_eq.
Qed.

Lemma chosen_headers_falsy self ha w :
  falsy_headers ha w → chosen_headers self ha w = headers self.
Proof.
  destruct ha as [l|]; simpl; [|done]. intros ->. by rewrite decide_True.
Qed.

Section shared_headers.
Context `{PyRuntime, Network}.

Lemma _request_dicts self method url params pt ha rfs w :
  dicts (Api._request self method url params pt ha rfs w).2
  = <[chosen_headers self ha w :=
        <["API-KEY" := VStr (api_key self)]> (deref (chosen_headers self ha w) w)]>
      (dicts w).
Proof.
  rewrite _request_unfold. simpl.
  destruct (truthy params); [destruct (decide _)|];
    try destruct (network_answer _ _); reflexivity.
Qed.

Lemma _request_log_head self method url params pt ha rfs w :
  ∃ rest,
    log (Api._request self method url params pt ha rfs w).2
    = log w ++ LogRequest method (full_url self url) params pt
                 (deref (chosen_headers self ha w) w) rfs :: rest.
Proof.
  rewrite _request_unfold. simpl.
  destruct (truthy params); [destruct (decide _)|];
    try destruct (network_answer _ _); simpl;
    rewrite <- ?(assoc_L (++)); simpl; eauto.
Qed.

(** C10.  A call of [_request] without headers of its own, or with an empty
    dict, writes the cleartext key into the dict the instance holds in
    [headers]: after [__init__] that dict holds the [SecretStr] under
    [API-KEY]; after the call it holds the key as a plain string there, its
    other entries and every other dict being as before; and the next such
    call reads the headers it logs and sends from that same dict. *)
Theorem _request_writes_key_into_shared_headers
    self method url params pt ha rfs w :
  falsy_headers ha w →
  let w' := (Api._request self method url params pt ha rfs w).2 in
  deref (headers self) w' !! "API-KEY" = Some (VStr (api_key self))
  ∧ (∀ k, k ≠ "API-KEY" → deref (headers self) w' !! k = deref (headers self) w !! k)
  ∧ (∀ l, l ≠ headers self → deref l w' = deref l w)
  ∧ (∀ method2 url2 params2 pt2 ha2 rfs2,
       falsy_headers ha2 w' →
       ∃ rest,
         log (Api._request self method2 url2 params2 pt2 ha2 rfs2 w').2
         = log w' ++ LogRequest method2 (full_url self url2) params2 pt2
                       (deref (headers self) w') rfs2 :: rest)
  ∧ (∀ data w0,
       Api.__init__ data w0 = (Ok self, w) →
       deref (headers self) w !! "API-KEY" = Some (VSecret (api_key self))).
Proof.
  intros Hfalsy w'.
  assert (dicts w' = <[headers self :=
            <["API-KEY" := VStr (api_key self)]> (deref (headers self) w)]> (dicts w))
    as Hd.
  { unfold w'. rewrite _request_dicts. by rewrite chosen_headers_falsy. }
  repeat split.
  - unfold deref at 1. rewrite Hd, lookup_insert_eq. simpl. by rewrite lookup_insert_eq.
  - intros k Hk. unfold deref at 1. rewrite Hd, lookup_insert_eq. simpl.
    by rewrite lookup_insert_ne.
  - intros l Hl. unfold deref. rewrite Hd. by rewrite lookup_insert_ne.
  - intros method2 url2 params2 pt2 ha2 rfs2 Hf2.
    destruct (_request_log_head self method2 url2 params2 pt2 ha2 rfs2 w') as [rest Hrest].
    rewrite chosen_headers_falsy in Hrest by done. eauto.
  - intros data w0 Hinit. by rewrite (__init___headers _ _ _ _ Hinit).
Qed.

(** C4, at the failing input: of two calls of [_request] on one instance with
    no headers of the caller's, whatever the first call's outcome, the
    request line the second call logs shows the headers with the key in
    cleartext under [API-KEY]. *)
Theorem second_request_logs_cleartext_key
    self w method1 url1 params1 pt1 rfs1 method2 url2 params2 pt2 rfs2 :
  let w1 := (Api._request self method1 url1 params1 pt1 None rfs1 w).2 in
  let w2 := (Api._request self method2 url2 params2 pt2 None rfs2 w1).2 in
  ∃ hdrs rest,
    log w2 = log w1 ++ LogRequest method2 (full_url self url2) params2 pt2 hdrs rfs2 :: rest
    ∧ hdrs !! "API-KEY" = Some (VStr (api_key self)).
Proof.
  intros w1 w2.
  destruct (_request_log_head self method2 url2 params2 pt2 None rfs2 w1) as [rest Hrest].
  exists (deref (headers self) w1), rest. split; [exact Hrest|].
  unfold deref, w1. rewrite _request_dicts. simpl.
  rewrite lookup_insert_eq. simpl. by rewrite lookup_insert_eq.
Qed.

End shared_headers.

(** The first call on a new instance logs the [SecretStr], which prints
    masked. *)
Lemma first_request_logs_masked_key `{PyRuntime, Network} data w0 self w
    method url params pt rfs :
  Api.__init__ data w0 = (Ok self, w) →
  ∃ hdrs rest,
    log (Api._request self method url params pt None rfs w).2
    = log w ++ LogRequest method (full_url self url) params pt hdrs rfs :: rest
    ∧ hdrs !! "API-KEY" = Some (VSecret (api_key self)).
Proof.
  intros Hinit.
  destruct (_request_log_head self method url params pt None rfs w) as [rest Hrest].
  exists (deref (headers self) w), rest. split; [exact Hrest|].
  by rewrite (__init___headers _ _ _ _ Hinit).
Qed.

Lemma _request_writes_key_into_shared_headers_witness :
  let R := example_runtime in
  let N := answers ok_response in
  let w := {| dicts := {[ 1%positive := {[ "API-KEY" := VSecret "secret";
                                            "Content-Type" := VStr "application/json" ]} ]};
              Order_api := None; log := []; calls := [] |} in
  falsy_headers None w
  ∧ deref 1%positive (Api._request example_api "get" "orders" None "json" None true w).2
      !! "API-KEY" = Some (VStr "secret").
Proof.
  intros R N w. split; [exact I|].
  exact (proj1 (_request_writes_key_into_shared_headers
                  example_api "get" "orders" None "json" None true w I)).
Defined.

(** ** Status handling (C7) *)

Section status.
Context `{Network}.

Lemma _request_result self method url params pt ha rfs w r :
  truthy params = None ∨ pt ∈ request_keywords →
  network_answer (calls w) (the_call self method url params pt ha w) = Ok r →
  (Api._request self method url params pt ha rfs w).1 = settle rfs r.
Proof.
  intros Hkw Hr. rewrite _request_unfold. simpl.
  destruct (truthy params) as [p|].
  - destruct Hkw as [? | Hkw]; [done|]. rewrite decide_True by done. by rewrite Hr.
  - by rewrite Hr.
Qed.

(** C7, as the code has it.  When the transport answers with a response:
    with [raise_for_status] true, a status from 400 to 599 fails the call
    with the [HTTPError] that carries the response (its status code and
    body), and any other status returns the parsed JSON body, or fails with
    a JSON decoding error when the body is not JSON; with [raise_for_status]
    false the response itself is returned, whatever its status. *)
Theorem _request_raise_for_status self method url params pt ha w r :
  truthy params = None ∨ pt ∈ request_keywords →
  network_answer (calls w) (the_call self method url params pt ha w) = Ok r →
  (400 ≤ status_code r < 600 →
     (Api._request self method url params pt ha true w).1 = Raise (HTTPError r))
  ∧ (¬ 400 ≤ status_code r < 600 →
     (Api._request self method url params pt ha true w).1
     = match json r with
       | Some j => Ok (Parsed j)
       | None => Raise JSONDecodeError
       end)
  ∧ (Api._request self method url params pt ha false w).1 = Ok (Raw r).
Proof.
  intros Hkw Hr.
  rewrite !(_request_result _ _ _ _ _ _ _ _ r) by done.
  unfold settle. repeat split.
  - intros [? ?]. destruct (Z.leb_spec 400 (status_code r)); [|lia].
    destruct (Z.ltb_spec (status_code r) 600); [done | lia].
  - intros Hout. destruct (Z.leb_spec 400 (status_code r)); [|done].
    destruct (Z.ltb_spec (status_code r) 600); [lia | done].
Qed.

End status.

Lemma _request_raise_for_status_witness :
  let N := answers {| status_code := 404; text := "not found"; json := None |} in
  (truthy None = None ∨ "json" ∈ request_keywords)
  ∧ (Api._request example_api "get" "orders/1" None "json" None true empty_world).1
    = Raise (HTTPError {| status_code := 404; text := "not found"; json := None |}).
Proof.
  intros N. split; [by left|].
  refine (proj1 (_request_raise_for_status example_api "get" "orders/1" None "json"
                   None empty_world _ (or_introl eq_refl) eq_refl) _).
  simpl. lia.
Defined.

(** C7 as the specification states it fails outside 400..599: a response
    with status 300, which is outside the 2xx range, makes the call return
    its parsed body, and one with status 304 and no JSON body makes it fail
    with a JSON decoding error; neither is an [HTTPError]. *)
Lemma non_2xx_status_without_HTTPError :
  (let N := answers {| status_code := 300; text := "[]"; json := Some (VList []) |} in
   ¬ 200 ≤ 300 < 300
   ∧ (Api._request example_api "get" "orders" None "json" None true empty_world).1
     = Ok (Parsed (VList [])))
  ∧ (let N := answers {| status_code := 304; text := ""; json := None |} in
     ¬ 200 ≤ 304 < 300
     ∧ (Api._request example_api "get" "orders" None "json" None true empty_world).1
       = Raise JSONDecodeError).
Proof. split; (split; [lia | reflexivity]). Qed.

(** ** Exceptions that validation lets through *)

Section escaping.
Context `{PyRuntime}.

Lemma construct_caught m kw :
  escapes m kw = false → construct m kw = construct_with validate_field m kw.
Proof. unfold construct. by intros ->. Qed.

Lemma construct_Ok_caught m kw inst : construct m kw = Ok inst → escapes m kw = false.
Proof. unfold construct. by destruct (escapes m kw). Qed.

Lemma float_escapes_other t v : t ≠ TFloat → float_escapes t v = false.
Proof. by destruct t. Qed.

Lemma record_escapes_float_free (n : Model ScalarType) kw :
  forallb (λ g, match type_ g with TFloat => false | _ => true end) (fields n) = true →
  record_escapes n kw = false.
Proof.
  unfold record_escapes. induction (fields n) as [|g gs IH]; [done|].
  cbn [forallb existsb]. intros [Hg Hgs]%andb_true_iff.
  rewrite (IH Hgs), orb_false_r. destruct (kw !! name g); [|done].
  apply float_escapes_other. intros Ht. by rewrite Ht in Hg.
Qed.

Lemma nested_escapes_float_free (n : Model ScalarType) v :
  forallb (λ g, match type_ g with TFloat => false | _ => true end) (fields n) = true →
  nested_escapes n v = false.
Proof.
  intros Hn. unfold nested_escapes.
  repeat case_match; try done; by apply record_escapes_float_free.
Qed.

(** A record without a float lets no exception through. *)
Lemma escapes_float_free m kw : float_free m = true → escapes m kw = false.
Proof.
  unfold float_free, escapes. induction (fields m) as [|f fs IH]; [done|].
  cbn [forallb existsb]. intros [Hf Hfs]%andb_true_iff.
  rewrite (IH Hfs), orb_false_r. destruct (kw !! name f) as [v|]; [|done].
  unfold field_escapes. destruct (type_ f) as [t|n|n].
  - apply float_escapes_other. intros ->. discriminate Hf.
  - by apply nested_escapes_float_free.
  - destruct v; try done. apply not_true_is_false. intros Hex.
    apply existsb_exists in Hex as (x & _ & Hx).
    by rewrite nested_escapes_float_free in Hx.
Qed.

Lemma construct_float_free m kw :
  float_free m = true → construct m kw = construct_with validate_field m kw.
Proof. intros Hm. by apply construct_caught, escapes_float_free. Qed.

End escaping.

(** ** Cancelling an order (C3) *)

Section cancel.
Context `{PyRuntime, Network}.

Lemma bind_order_id_drops pos kw order_id data :
  bind_order_id pos kw = Ok (order_id, data) → data !! "order_id" = None.
Proof.
  unfold bind_order_id. destruct pos as [|v [|? ?]]; [| |discriminate].
  - destruct (kw !! "order_id"); [|discriminate].
    intros [= <- <-]. apply lookup_delete_eq.
  - destruct (kw !! "order_id") eqn:E; [discriminate|]. by intros [= <- <-].
Qed.

Lemma CancelOrder_needs_order_id data :
  data !! "order_id" = None →
  ∃ errs, construct CancelOrder data
          = Raise (ValidationError "CancelOrder"
                     (([LField "order_id"], MissingError) :: errs)).
Proof.
  intros Hnone. rewrite construct_float_free by reflexivity.
  unfold construct_with, validate_fields. simpl.
  unfold validate_step at 2. simpl. rewrite Hnone. simpl.
  unfold validate_step. simpl.
  destruct (data !! "reason") as [v|]; [destruct (validate_field _ v)|];
    simpl; eauto.
Qed.

(** C3, at the failing input and beyond it: [cancel_order] binds [order_id]
    to its own parameter, so the keywords that reach [CancelOrder] never hold
    it, and the record, which requires it, is never built.  Every call
    raises before [_request] is reached and leaves the world as it was; with
    [order_id] and a [reason] as keywords the exception is the
    [ValidationError] that reports [order_id] missing. *)
Theorem cancel_order_never_reaches_request self w :
  (∀ pos kw, ∃ e, Api.cancel_order self pos kw w = (Raise e, w))
  ∧ (∀ oid r, ∃ errs,
       Api.cancel_order self [] {[ "order_id" := VStr oid; "reason" := VStr r ]} w
       = (Raise (ValidationError "CancelOrder"
                   (([LField "order_id"], MissingError) :: errs)), w)).
Proof.
  split.
  - intros pos kw. unfold Api.cancel_order, mbind, M_bind, lift.
    destruct (bind_order_id pos kw) as [[order_id data]|e] eqn:E; [|eauto].
    apply bind_order_id_drops in E.
    destruct (CancelOrder_needs_order_id data E) as [errs ->]. eauto.
  - intros oid r. unfold Api.cancel_order, mbind, M_bind, lift.
    unfold bind_order_id. rewrite lookup_insert_eq.
    destruct (CancelOrder_needs_order_id
                (delete "order_id" {[ "order_id" := VStr oid; "reason" := VStr r ]}))
      as [errs ->]; [apply lookup_delete_eq | eauto].
Qed.

End cancel.

(** ** Request records (C2, C5, C6) *)

Section records.
Context `{PyRuntime}.

(** Unless a validator lets an exception through, building a record either
    succeeds, and then every declared field is satisfied, holds its validated
    or default value, and [fields_set] is the declared names that were
    supplied; or it raises the [ValidationError] of the record, and then
    some declared field is not satisfied. *)
Lemma construct_cases (m : Model FieldType) (kw : Kwargs) :
  NoDup (name <$> fields m) → escapes m kw = false →
  (∃ vals set,
      construct m kw = Ok (VModel (model_name m) vals set)
      ∧ Forall (field_ok kw) (fields m)
      ∧ (∀ f, f ∈ fields m → vals !! name f = field_value validate_field kw f)
      ∧ (∀ n, n ∉ name <$> fields m → vals !! n = None)
      ∧ (∀ n, n ∈ set ↔ n ∈ name <$> fields m ∧ is_Some (kw !! n)))
  ∨ (∃ errs,
      construct m kw = Raise (ValidationError (model_name m) errs)
      ∧ errs ≠ []
      ∧ Exists (λ f, ¬ field_ok kw f) (fields m)).
Proof.
  intros Hnd Hesc. rewrite (construct_caught m kw Hesc).
  destruct (construct_with_cases validate_field m kw validate_field_reports)
    as [[-> Hall] | [errs [-> [Hne Hex]]]].
  - left. eexists _, _. split; [reflexivity|]. split; [|split; [|split]].
    + eapply Forall_impl; [exact Hall|]. intros f. apply field_ok_passes.
    + intros f Hf. by apply validate_fields_values.
    + intros n Hn. by apply validate_fields_values_other.
    + intros n. apply validate_fields_set.
  - right. exists errs. repeat split; [done|].
    eapply Exists_impl; [exact Hex|]. intros f Hf Hok. by apply Hf, field_ok_passes.
Qed.

Lemma find_py_eqb members v m :
  (∃ s, v = VStr s) ∨ (∃ z, v = VInt z) →
  List.find (py_eqb v) members = Some m → m = v.
Proof.
  intros Hv Hfind. apply find_some in Hfind as [_ Heq].
  destruct Hv as [[s ->] | [z ->]]; destruct m; simpl in Heq; try discriminate;
    apply bool_decide_eq_true in Heq; by subst.
Qed.

(** Validation keeps a native value as it was supplied. *)
Lemma validate_scalar_native t b v v' :
  native t v → validate_scalar t b v = inr v' → v' = v.
Proof.
  destruct t, v; simpl; try done; intros _.
  - destruct (number_size_validator b z) eqn:E; simpl; [done|].
    intros [= <-]. f_equal. revert E. unfold number_size_validator.
    repeat case_match; congruence.
  - congruence.
  - destruct (constr_length_validator b s) eqn:E; simpl; [done|].
    intros [= <-]. f_equal. revert E. unfold constr_length_validator.
    repeat case_match; congruence.
  - congruence.
  - congruence.
  - unfold enum_member_validator.
    destruct (List.find _ _) eqn:E; [|done]. intros [= <-].
    eapply find_py_eqb; [right; eauto | done].
  - unfold enum_member_validator.
    destruct (List.find _ _) eqn:E; [|done]. intros [= <-].
    eapply find_py_eqb; [left; eauto | done].
Qed.

End records.

Section request_records.
Context `{PyRuntime, Imported}.

Lemma validate_field_scalar f t v v' :
  type_ f = Scalar t → native t v → validate_field f v = inr v' →
  validate_scalar t (bounds f) v = inr v'.
Proof.
  intros Ht Hn. unfold validate_field. rewrite Ht.
  destruct v; try (by destruct t);
    destruct (validate_scalar _ _ _); congruence.
Qed.

Lemma construct_exposes m kw :
  NoDup (name <$> fields m) → escapes m kw = false →
  (∃ vals set,
      construct m kw = Ok (VModel (model_name m) vals set)
      ∧ Forall (field_ok kw) (fields m)
      ∧ exposes m kw vals set)
  ∨ (∃ errs,
      construct m kw = Raise (ValidationError (model_name m) errs)
      ∧ Exists (λ f, ¬ field_ok kw f) (fields m)).
Proof.
  intros Hnd Hesc.
  destruct (construct_cases m kw Hnd Hesc)
    as [(vals & set & Hc & Hok & Hvals & Hother & Hset) | (errs & Hc & _ & Hex)];
    [left | right; eauto].
  exists vals, set. split; [done|]. split; [done|]. split; [|done].
  intros f Hf. rewrite (Hvals f Hf). unfold field_value.
  rewrite Forall_forall in Hok. specialize (Hok f Hf).
  unfold field_ok in Hok.
  destruct (kw !! name f) as [v|].
  - apply validate_field_inr in Hok as [v' Hv']. rewrite Hv'.
    exists v'. split; [done|]. split; [done|].
    intros t Ht Hn. eapply validate_scalar_native; [done|].
    by eapply validate_field_scalar.
  - by rewrite Hok.
Qed.

Lemma violation_raises m kw f :
  NoDup (name <$> fields m) → float_free m = true → f ∈ fields m → ¬ field_ok kw f →
  ∃ errs, construct m kw = Raise (ValidationError (model_name m) errs).
Proof.
  intros Hnd Hfree Hf Hnot.
  destruct (construct_cases m kw Hnd (escapes_float_free m kw Hfree))
    as [(vals & set & _ & Hok & _) | (errs & Hc & _)]; [|eauto].
  rewrite Forall_forall in Hok. by destruct (Hnot (Hok f Hf)).
Qed.

Lemma int_below kw n b g z :
  ge b = Some g → kw !! n = Some (VInt z) → z < g →
  ¬ field_ok kw (F n (Scalar TInt) Required b).
Proof.
  intros Hb Hkw Hz. unfold field_ok. simpl. rewrite Hkw. simpl.
  intros (z' & [= <-] & Hge & _). specialize (Hge _ Hb). lia.
Qed.

Lemma int_outside kw n p b g l z :
  ge b = Some g → le b = Some l → kw !! n = Some (VInt z) → ¬ g ≤ z ≤ l →
  ¬ field_ok kw (F n (Scalar TInt) p b).
Proof.
  intros Hg Hl Hkw Hz. unfold field_ok. simpl. rewrite Hkw. simpl.
  intros (z' & [= <-] & Hge & Hle). specialize (Hge _ Hg). specialize (Hle _ Hl). lia.
Qed.

Lemma str_too_long kw n p b hi s :
  max_length b = Some hi → kw !! n = Some (VStr s) → (hi < String.length s)%nat →
  ¬ field_ok kw (F n (Scalar TStr) p b).
Proof.
  intros Hb Hkw Hs. unfold field_ok. simpl. rewrite Hkw. simpl.
  intros (s' & [= <-] & _ & Hmax). specialize (Hmax _ Hb). lia.
Qed.

Lemma str_too_short kw n p b lo s :
  min_length b = Some lo → kw !! n = Some (VStr s) → (String.length s < lo)%nat →
  ¬ field_ok kw (F n (Scalar TStr) p b).
Proof.
  intros Hb Hkw Hs. unfold field_ok. simpl. rewrite Hkw. simpl.
  intros (s' & [= <-] & Hmin & _). specialize (Hmin _ Hb). lia.
Qed.

Lemma url_malformed kw n p b s e :
  kw !! n = Some (VStr s) → HttpUrl_validate s = inl e →
  ¬ field_ok kw (F n (Scalar THttpUrl) p b).
Proof.
  intros Hkw Hs. unfold field_ok. simpl. rewrite Hkw. simpl.
  intros (s' & u & [= <-] & Hu). congruence.
Qed.

Lemma request_records_NoDup :
  Forall (λ m, NoDup (name <$> fields m)) request_records.
Proof. repeat constructor; by apply (bool_decide_unpack _). Qed.

End request_records.

Ltac not_declared H :=
  exfalso; unfold declares in H; simpl in H;
  repeat (apply elem_of_cons in H as [H|H]; [discriminate H|]);
  by apply elem_of_nil in H.

Ltac in_fields := simpl; repeat first [by left | right].

Ltac raise_by lem :=
  eapply violation_raises; [done | reflexivity | | eapply lem; eauto];
  [in_fields | first [reflexivity | lia] ..].

(** C5, as the code has it.  For each request record and every keyword set:
    building the record either succeeds, and then every declared field is
    satisfied and the record exposes, for each declared field, the validated
    value that was supplied (the supplied value itself when it already has
    the declared type) or else the declared default, no other field, and as
    [fields_set] the declared names that were supplied; or it raises the
    record's [ValidationError], and then some declared field is not satisfied
    (a required one is missing, [None] stands where it is not allowed, a value
    is not of the declared type, or a declared bound is broken).  Each
    violation the specification lists does raise. *)
Theorem request_record_construction `{PyRuntime, Imported} :
  Forall (λ m, ∀ kw,
    ((∃ vals set,
         construct m kw = Ok (VModel (model_name m) vals set)
         ∧ Forall (field_ok kw) (fields m)
         ∧ exposes m kw vals set)
     ∨ (∃ errs,
         construct m kw = Raise (ValidationError (model_name m) errs)
         ∧ Exists (λ f, ¬ field_ok kw f) (fields m)))
    ∧ (spec_listed_violation m kw →
       ∃ errs, construct m kw = Raise (ValidationError (model_name m) errs)))
    request_records.
Proof.
  pose proof request_records_NoDup as Hnd.
  unfold request_records in *.
  repeat match goal with
         | H : Forall _ (_ :: _) |- _ => apply Forall_cons in H as [? H]
         end.
  repeat apply Forall_cons_2; [| | | |by constructor];
    (intros kw; split; [by apply construct_exposes, escapes_float_free|]).
  - (* CreateOrder *)
    intros [[_ (z & Hkw & Hz)] | [[_ (s & Hkw & Hs)] | [[_ (z & Hkw & Hz)]
           | [[Hd _] | (n & s & Hn & _ & Hkw & e & Hs)]]]].
    + raise_by int_below.
    + destruct (decide (String.length s < 4)%nat).
      * raise_by (str_too_short kw "mcc").
      * raise_by (str_too_long kw "mcc").
    + raise_by (int_outside kw "attempts").
    + not_declared Hd.
    + repeat (apply elem_of_cons in Hn as [-> | Hn]);
        [| | | by apply elem_of_nil in Hn];
        raise_by url_malformed.
  - (* CancelOrder *)
    intros [[Hd _] | [[Hd _] | [[Hd _]
           | [[_ (s & Hkw & Hs)] | (n & s & Hn & Hd & _)]]]];
      try (not_declared Hd).
    + raise_by (str_too_long kw "reason").
    + repeat (apply elem_of_cons in Hn as [-> | Hn]);
        [| | | by apply elem_of_nil in Hn]; not_declared Hd.
  - (* CaptureOrder *)
    intros [[_ (z & Hkw & Hz)] | [[Hd _] | [[Hd _]
           | [[_ (s & Hkw & Hs)] | (n & s & Hn & Hd & _)]]]];
      try (not_declared Hd).
    + raise_by int_below.
    + raise_by (str_too_long kw "reason").
    + repeat (apply elem_of_cons in Hn as [-> | Hn]);
        [| | | by apply elem_of_nil in Hn]; not_declared Hd.
  - (* RefundOrder *)
    intros [[_ (z & Hkw & Hz)] | [[Hd _] | [[Hd _]
           | [[_ (s & Hkw & Hs)] | (n & s & Hn & Hd & _)]]]];
      try (not_declared Hd).
    + raise_by int_below.
    + raise_by (str_too_long kw "reason").
    + repeat (apply elem_of_cons in Hn as [-> | Hn]);
        [| | | by apply elem_of_nil in Hn]; not_declared Hd.
Qed.

Lemma request_record_construction_witness :
  let R := example_runtime in
  let I := example_import in
  let kw : Kwargs := {[ "amount" := VInt 99 ]} in
  spec_listed_violation CreateOrder kw
  ∧ ∃ errs, construct CreateOrder kw = Raise (ValidationError "CreateOrder" errs).
Proof.
  intros R I kw.
  assert (Hv : spec_listed_violation CreateOrder kw).
  { left. split; [unfold declares; simpl; set_solver|].
    exists 99. split; [reflexivity | lia]. }
  split; [exact Hv|].
  pose proof (@request_record_construction R I) as Hall.
  apply Forall_cons in Hall as [Hcreate _].
  exact (proj2 (Hcreate kw) Hv).
Defined.

(** C5 as the specification states it fails: an empty [external_id] beside a
    valid amount breaks none of the listed bounds, and building the record
    raises the [ValidationError] of the [min_length] bound of [external_id]. *)
Lemma ValidationError_outside_listed_bounds :
  let kw : Kwargs := {[ "amount" := VInt 100; "external_id" := VStr "" ]} in
  (∀ (R : PyRuntime) (I : Imported),
     construct CreateOrder kw
     = Raise (ValidationError "CreateOrder"
                [([LField "external_id"], AnyStrMinLengthError 1)]))
  ∧ (∀ (R : PyRuntime) (I : Imported), ¬ spec_listed_violation CreateOrder kw).
Proof.
  intros kw. split.
  - intros R I. reflexivity.
  - intros R I [(_ & z & Hkw & Hz) | [(_ & s & Hkw & _) | [(_ & z & Hkw & _)
         | [(_ & s & Hkw & _) | (n & s & Hn & _ & Hkw & _)]]]];
      try (vm_compute in Hkw; congruence).
    + vm_compute in Hkw. injection Hkw as <-. lia.
    + repeat (apply elem_of_cons in Hn as [-> | Hn]);
        [| | | by apply elem_of_nil in Hn]; vm_compute in Hkw; congruence.
Qed.

(** ** The payload (C6) *)

Lemma dict_exclude_unset_lookup c vals set n :
  dict_exclude_unset (VModel c vals set) !! n
  = if decide (n ∈ set) then _get_value <$> vals !! n else None.
Proof.
  unfold dict_exclude_unset.
  destruct (decide (n ∈ set)) as [Hin|Hout].
  - destruct (vals !! n) as [v|] eqn:E; simpl.
    + apply map_lookup_filter_Some. split; [|done]. by rewrite lookup_fmap, E.
    + apply map_lookup_filter_None. left. by rewrite lookup_fmap, E.
  - apply map_lookup_filter_None. right. intros v _. done.
Qed.

Section calls_facts.
Context `{Network}.

Lemma _request_calls self method url params pt ha rfs w :
  truthy params = None ∨ pt ∈ request_keywords →
  calls (Api._request self method url params pt ha rfs w).2
  = calls w ++ [the_call self method url params pt ha w].
Proof.
  intros Hkw. rewrite _request_unfold. simpl.
  destruct (truthy params) as [p|].
  - destruct Hkw as [? | Hkw]; [done|]. rewrite decide_True by done.
    by destruct (network_answer _ _).
  - by destruct (network_answer _ _).
Qed.

Lemma json_is_request_keyword : "json" ∈ request_keywords.
Proof. by apply (bool_decide_unpack _). Qed.

End calls_facts.

Section payload.
Context `{PyRuntime, Imported}.

Lemma payload_spec m kw inst :
  NoDup (name <$> fields m) →
  construct m kw = Ok inst →
  (∀ n, is_Some (dict_exclude_unset inst !! n)
        ↔ n ∈ name <$> fields m ∧ is_Some (kw !! n))
  ∧ (∀ f v, f ∈ fields m → kw !! name f = Some v →
       ∃ v', validate_field f v = inr v'
             ∧ dict_exclude_unset inst !! name f = Some (_get_value v')).
Proof.
  intros Hnd Hc.
  destruct (construct_exposes m kw Hnd (construct_Ok_caught m kw inst Hc))
    as [(vals & set & Hc' & Hok & Hexp & Hother & Hset) | (errs & Hc' & _)];
    [|congruence].
  rewrite Hc in Hc'. injection Hc' as ->.
  assert (∀ f v, f ∈ fields m → kw !! name f = Some v →
       ∃ v', validate_field f v = inr v'
             ∧ dict_exclude_unset (VModel (model_name m) vals set) !! name f
               = Some (_get_value v')) as Hsupplied.
  { intros f v Hf Hkw. specialize (Hexp f Hf). rewrite Hkw in Hexp.
    destruct Hexp as (v' & Hv & Hvals & _). exists v'. split; [done|].
    rewrite dict_exclude_unset_lookup, decide_True, Hvals; [done|].
    apply Hset. split; [by apply list_elem_of_fmap_2 | by rewrite Hkw]. }
  split; [|done].
  intros n. rewrite dict_exclude_unset_lookup. split.
  - destruct (decide (n ∈ set)) as [Hin|]; [|by intros [? ?]].
    intros _. by apply Hset.
  - intros [Hn [v Hkw]]. apply list_elem_of_fmap in Hn as (f & -> & Hf).
    destruct (Hsupplied f v Hf Hkw) as (v' & _ & Hp).
    rewrite dict_exclude_unset_lookup in Hp. by rewrite Hp.
Qed.

End payload.

(** C6, as the code has it.  For each request record built from a keyword
    set, the payload [dict(exclude_unset=True)] holds exactly the declared
    fields that were supplied, each with its validated value: a field that
    was not supplied is left out whether or not it declares a default, so
    neither [attempts] nor [external_id] appears unless the caller gave it.
    The payload of [CreateOrder] is what [create_order] passes as [json] in
    the one call it makes. *)
Theorem payload_holds_exactly_the_supplied_fields `{PyRuntime, Imported, Network} :
  Forall (λ m, ∀ kw inst,
    construct m kw = Ok inst →
    (∀ n, is_Some (dict_exclude_unset inst !! n)
          ↔ n ∈ name <$> fields m ∧ is_Some (kw !! n))
    ∧ (∀ f v, f ∈ fields m → kw !! name f = Some v →
         ∃ v', validate_field f v = inr v'
               ∧ dict_exclude_unset inst !! name f = Some (_get_value v')))
    request_records
  ∧ (∀ self kw inst w,
       construct CreateOrder kw = Ok inst →
       ∃ c, calls (Api.create_order self kw w).2 = calls w ++ [c]
            ∧ call_method c = "post"
            ∧ call_extra c = Some ("json", dict_exclude_unset inst)).
Proof.
  split.
  - pose proof request_records_NoDup as Hnd.
    eapply Forall_impl; [exact Hnd|]. intros m Hm kw inst. by apply payload_spec.
  - intros self kw inst w Hc.
    unfold Api.create_order, mbind, M_bind, lift. rewrite Hc.
    rewrite _request_calls by (right; apply json_is_request_keyword).
    eexists. split; [reflexivity|]. split; [done|]. simpl.
    assert (is_Some (dict_exclude_unset inst !! "amount")) as [a Ha].
    { pose proof request_records_NoDup as Hnd. apply Forall_cons in Hnd as [Hnd _].
      apply (payload_spec CreateOrder kw inst Hnd Hc). split; [in_fields|].
      destruct (construct_cases CreateOrder kw Hnd (construct_Ok_caught _ _ _ Hc))
        as [(vals & set & _ & Hok & _) | (errs & Hc' & _)]; [|congruence].
      apply Forall_cons in Hok as [Hok _]. unfold field_ok in Hok. simpl in Hok.
      destruct (kw !! "amount"); [eauto | discriminate]. }
    rewrite decide_False; [done|]. intros Hempty. by rewrite Hempty in Ha.
Qed.

Lemma payload_holds_exactly_the_supplied_fields_witness :
  let R := example_runtime in
  let I := example_import in
  let N := answers ok_response in
  let kw : Kwargs := {[ "amount" := VInt 50000; "currency" := VStr "KZT" ]} in
  ∃ inst,
    construct CreateOrder kw = Ok inst
    ∧ (is_Some (dict_exclude_unset inst !! "attempts")
       ↔ "attempts" ∈ name <$> fields CreateOrder ∧ is_Some (kw !! "attempts")).
Proof.
  intros R I N kw. eexists. split; [by_evaluation|].
  pose proof (proj1 payload_holds_exactly_the_supplied_fields) as Hall.
  apply Forall_cons in Hall as [Hcreate _].
  refine (proj1 (Hcreate kw _ _) "attempts"). by_evaluation.
Defined.

(** C6 as the specification states it fails on its exception: with only
    [amount] supplied, the payload of [CreateOrder] is the single entry
    [amount]; [attempts], which declares the default 10, is not in it. *)
Lemma default_attempts_left_out_of_payload :
  let kw : Kwargs := {[ "amount" := VInt 100 ]} in
  kw !! "attempts" = None
  ∧ (∀ (R : PyRuntime) (I : Imported),
       ∃ inst, construct CreateOrder kw = Ok inst
               ∧ dict_exclude_unset inst = {[ "amount" := VInt 100 ]}
               ∧ dict_exclude_unset inst !! "attempts" = None).
Proof.
  intros kw. split; [reflexivity|]. intros R I.
  eexists. split; [by_evaluation|]. split; reflexivity.
Qed.

(** ** The default of [external_id] (C2) *)

(** C2, at the failing input: the default of [external_id] is the string the
    one [uuid4()] call of the import returned.  Building a record draws
    nothing, so any two records built without [external_id] hold that same
    string, however the entropy source behaves. *)
Theorem CreateOrder_records_share_the_import_time_uuid `{PyRuntime}
    (e : Entropy) (drawn : nat) (kw1 kw2 : Kwargs) vals1 set1 vals2 set2 :
  kw1 !! "external_id" = None →
  kw2 !! "external_id" = None →
  construct (@CreateOrder (import_api e drawn).1) kw1 = Ok (VModel "CreateOrder" vals1 set1) →
  construct (@CreateOrder (import_api e drawn).1) kw2 = Ok (VModel "CreateOrder" vals2 set2) →
  vals1 !! "external_id" = Some (VStr (uuid4_draw e drawn))
  ∧ vals2 !! "external_id" = vals1 !! "external_id".
Proof.
  set (I := (import_api e drawn).1).
  assert (∀ kw vals set, kw !! "external_id" = None →
            construct (@CreateOrder I) kw = Ok (VModel "CreateOrder" vals set) →
            vals !! "external_id" = Some (VStr (uuid4_draw e drawn))) as Hone.
  { intros kw vals set Hkw Hc.
    pose proof (@request_records_NoDup I) as Hnd. apply Forall_cons in Hnd as [Hnd _].
    destruct (construct_cases (@CreateOrder I) kw Hnd (construct_Ok_caught _ _ _ Hc))
      as [(vals' & set' & Hc' & _ & Hvals & _) | (errs & Hc' & _)]; [|congruence].
    rewrite Hc in Hc'. injection Hc' as -> ->.
    specialize (Hvals (F "external_id" (Scalar TStr)
                         (Default (VStr external_id_default)) (min_len 1))).
    simpl in Hvals. rewrite Hvals by in_fields.
    unfold field_value. simpl. by rewrite Hkw. }
  intros Hkw1 Hkw2 Hc1 Hc2.
  rewrite (Hone kw1 vals1 set1), (Hone kw2 vals2 set2); done.
Qed.

Lemma CreateOrder_records_share_the_import_time_uuid_witness :
  let R := example_runtime in
  let kw1 : Kwargs := {[ "amount" := VInt 100 ]} in
  let kw2 : Kwargs := {[ "amount" := VInt 250; "description" := VStr "second" ]} in
  kw1 !! "external_id" = None ∧ kw2 !! "external_id" = None
  ∧ ∃ vals1 set1 vals2 set2,
      construct (@CreateOrder (import_api counting_entropy 0).1) kw1
      = Ok (VModel "CreateOrder" vals1 set1)
      ∧ construct (@CreateOrder (import_api counting_entropy 0).1) kw2
        = Ok (VModel "CreateOrder" vals2 set2)
      ∧ vals1 !! "external_id" = Some (VStr "uuid-0")
      ∧ vals2 !! "external_id" = vals1 !! "external_id".
Proof.
  intros R kw1 kw2. split; [reflexivity|]. split; [reflexivity|].
  eexists _, _, _, _.
  split; [by_evaluation|]. split; [by_evaluation|].
  refine (CreateOrder_records_share_the_import_time_uuid counting_entropy 0%nat kw1 kw2
            _ _ _ _ eq_refl eq_refl _ _); by_evaluation.
Defined.

(** ** Which calls a computation makes *)

Lemma silent_lift {A} (r : Result A) : silent (lift r).
Proof. by intros w. Qed.

Lemma silent_mret {A} (a : A) : silent (mret a).
Proof. by intros w. Qed.

Lemma silent_bind {A B} (m : M A) (k : A → M B) :
  silent m → (∀ a, silent (k a)) → silent (m ≫= k).
Proof.
  intros Hm Hk w. unfold mbind, M_bind. specialize (Hm w).
  destruct (m w) as [[a|e] w']; simpl in *; subst; [apply Hk | done].
Qed.

Lemma sends_lift_bind {A B} (r : Result A) (k : A → M B) P :
  (∀ a, r = Ok a → sends (k a) P) → sends (lift r ≫= k) P.
Proof.
  intros Hk w. unfold mbind, M_bind, lift. destruct r as [a|e].
  - by apply Hk.
  - exists []. simpl. rewrite app_nil_r. repeat split; [lia | constructor | done].
Qed.

Lemma sends_bind_silent {A B} (m : M A) (k : A → M B) P :
  sends m P → (∀ a, silent (k a)) → sends (m ≫= k) P.
Proof.
  intros Hm Hk w. destruct (Hm w) as (cs & Hc & Hlen & HP & Hapi & Hok).
  exists cs. unfold mbind, M_bind.
  destruct (m w) as [[a|e] w'] eqn:E; simpl in *.
  - rewrite (Hk a w'). repeat split; try done. intros _ _. by eapply Hok.
  - repeat split; try done.
Qed.

Section api_sends.
Context `{PyRuntime, Network, Imported}.

Lemma sends__request self method path params :
  sends (Api._request self method path params "json" None true)
        (call_of self method path).
Proof.
  intros w. exists [the_call self method path params "json" None w].
  split; [apply _request_calls; right; apply json_is_request_keyword|].
  split; [simpl; lia|]. split.
  - constructor; [|constructor]. unfold call_of, the_call. simpl.
    by rewrite lookup_insert_eq.
  - split; [|done]. rewrite _request_unfold. simpl.
    destruct (truthy params); [destruct (decide ("json" ∈ request_keywords))|];
      try destruct (network_answer _ _); done.
Qed.

End api_sends.

Lemma sends_weaken {A} (m : M A) (P Q : HttpCall → Prop) :
  sends m P → (∀ c, P c → Q c) → sends m Q.
Proof.
  intros Hm HPQ w. destruct (Hm w) as (cs & ? & ? & HP & ? & ?).
  exists cs. repeat split; try done. eapply Forall_impl; eauto.
Qed.

Section operations.
Context `{PyRuntime, Network, Imported}.

Lemma sends_with_order_id pos kw (k : PyVal * Kwargs → M RequestResult)
    (P : PyVal → HttpCall → Prop) :
  (∀ order_id data, sends (k (order_id, data)) (P order_id)) →
  sends (lift (bind_order_id pos kw) ≫= k) (P (bound_order_id pos kw)).
Proof.
  intros Hk. apply sends_lift_bind. intros [order_id data] Hb.
  unfold bound_order_id. rewrite Hb. apply Hk.
Qed.

Lemma sends_validated {A} (r : Result A) self method path (params : A → option Kwargs) :
  sends (lift r ≫= λ inst, Api._request self method path (params inst) "json" None true)
        (call_of self method path).
Proof. apply sends_lift_bind. intros a _. apply sends__request. Qed.

Lemma sends_run self op :
  sends (run self op) (call_of self (lower_verb (table op).1) (table op).2).
Proof.
  destruct op.
  - exact (sends_validated _ self "post" "orders" _).
  - exact (sends_with_order_id pos kw _
             (λ oid, call_of self "post" ("orders/" +:+ format_value oid +:+ "/cancel")%string)
             (λ order_id data, sends_validated _ self "post" _ _)).
  - exact (sends__request self "get" "orders" None).
  - exact (sends__request self "get" _ None).
  - exact (sends_with_order_id pos kw _
             (λ oid, call_of self "post" ("orders/" +:+ format_value oid +:+ "/capture")%string)
             (λ order_id data, sends_validated _ self "post" _ _)).
  - exact (sends__request self "get" _ None).
  - exact (sends_with_order_id pos kw _
             (λ oid, call_of self "post" ("orders/" +:+ format_value oid +:+ "/refunds")%string)
             (λ order_id data, sends_validated _ self "post" _ _)).
  - exact (sends__request self "get" _ None).
  - exact (sends__request self "get" _ None).
Qed.

Lemma table_verb_cases op : (table op).1 = "POST" ∨ (table op).1 = "GET".
Proof. destruct op; simpl; auto. Qed.

Lemma upper_lower_verb op : upper (lower_verb (table op).1) = (table op).1.
Proof. destruct (table_verb_cases op) as [-> | ->]; reflexivity. Qed.

End operations.

(** ** Paths and verbs (C9) *)

Lemma bind_world_silent {A B} (m : M A) (k : A → M B) w :
  (∀ a, silent (k a)) → ((m ≫= k) w).2 = (m w).2.
Proof.
  intros Hk. unfold mbind, M_bind.
  destruct (m w) as [[a|e] w']; simpl; [apply Hk | done].
Qed.

Lemma bind_lift_Ok {A B} (r : Result A) (a : A) (k : A → M B) w :
  r = Ok a → (lift r ≫= k) w = k a w.
Proof. by intros ->. Qed.

Lemma get_api_bind {B} (k : ApiObj → M B) api w :
  Order_api w = Some api → (Order.get_api ≫= k) w = k api w.
Proof. intros Hapi. unfold mbind, M_bind, Order.get_api. by rewrite Hapi. Qed.

Lemma self_api_bind {B} (k : ApiObj → M B) api w :
  Order_api w = Some api → (Order.self_api ≫= k) w = k api w.
Proof. intros Hapi. unfold mbind, M_bind, Order.self_api. by rewrite Hapi. Qed.

Lemma silent_tail `{PyRuntime} m (r : RequestResult) :
  silent (lift (unpack_result r) ≫= λ kw, lift (construct m kw)).
Proof. apply silent_bind; [apply silent_lift | intros; apply silent_lift]. Qed.

Section capture.
Context `{PyRuntime, Network, Imported}.

Lemma payload_has_required m kw inst f :
  NoDup (name <$> fields m) → construct m kw = Ok inst →
  f ∈ fields m → required f = true →
  is_Some (dict_exclude_unset inst !! name f).
Proof.
  intros Hnd Hc Hf Hreq.
  apply (payload_spec m kw inst Hnd Hc). split; [by apply list_elem_of_fmap_2|].
  destruct (construct_cases m kw Hnd (construct_Ok_caught _ _ _ Hc))
    as [(vals & set & _ & Hok & _) | (errs & Hc' & _)]; [|congruence].
  rewrite Forall_forall in Hok. specialize (Hok f Hf). unfold field_ok in Hok.
  destruct (kw !! name f); [eauto | congruence].
Qed.

Lemma truthy_payload m kw inst f :
  NoDup (name <$> fields m) → construct m kw = Ok inst →
  f ∈ fields m → required f = true →
  truthy (Some (dict_exclude_unset inst)) = Some (dict_exclude_unset inst).
Proof.
  intros Hnd Hc Hf Hreq.
  destruct (payload_has_required m kw inst f Hnd Hc Hf Hreq) as [v Hv].
  unfold truthy. rewrite decide_False; [done|]. intros Hempty. by rewrite Hempty in Hv.
Qed.

Lemma capture_call api self X data inst w :
  Order_api w = Some api →
  Order.get_id self = Ok (VStr X) →
  data !! "order_id" = None →
  construct CaptureOrder data = Ok inst →
  calls (Order.capture self data w).2
  = calls w ++ [the_call api "post" ("orders/" +:+ X +:+ "/capture")%string
                  (Some (dict_exclude_unset inst)) "json" None w].
Proof.
  intros Hapi Hid Hdata Hc. unfold Order.capture.
  rewrite (self_api_bind _ api) by done.
  rewrite (bind_lift_Ok _ (VStr X)) by done.
  unfold Order.with_order_id. rewrite Hdata.
  rewrite (bind_lift_Ok _ (<["order_id" := VStr X]> data)) by done.
  rewrite bind_world_silent by (intros; apply silent_tail).
  unfold Api.capture_order, bind_order_id. rewrite lookup_insert_eq.
  rewrite (bind_lift_Ok _ (VStr X, delete "order_id" (<["order_id" := VStr X]> data)))
    by done.
  simpl. rewrite delete_insert_eq, delete_id by done.
  rewrite (bind_lift_Ok _ inst) by done.
  apply _request_calls. right. apply json_is_request_keyword.
Qed.

End capture.

Section table.
Context `{PyRuntime, Network, Imported}.

Lemma request_records_required :
  Forall (λ m, ∃ f, f ∈ fields m ∧ required f = true) request_records.
Proof. repeat constructor; eexists; (split; [by left | reflexivity]). Qed.

(** An operation that takes no keywords makes its one call, without a
    body. *)
Lemma get_request self path w :
  ∃ c, calls (Api._request self "get" path None "json" None true w).2 = calls w ++ [c]
       ∧ http_verb c = "GET" ∧ call_url c = full_url self path
       ∧ call_extra c = None.
Proof. eexists. split; [apply _request_calls; by left|]. done. Qed.

(** An operation that validates a request record makes its one call once
    the record is built, with the record as the JSON body; it makes none,
    and raises, when the record is not built. *)
Lemma post_request self path m data w :
  m ∈ request_records →
  match construct m data with
  | Ok inst =>
      ∃ c, calls ((lift (construct m data) ≫= λ inst,
                   Api._request self "post" path (Some (dict_exclude_unset inst))
                     "json" None true) w).2 = calls w ++ [c]
           ∧ http_verb c = "POST" ∧ call_url c = full_url self path
           ∧ call_extra c = Some ("json", dict_exclude_unset inst)
  | Raise e =>
      (lift (construct m data) ≫= λ inst,
       Api._request self "post" path (Some (dict_exclude_unset inst)) "json" None true) w
      = (Raise e, w)
  end.
Proof.
  intros Hm. destruct (construct m data) as [inst|e] eqn:Hc; [|done].
  rewrite (bind_lift_Ok _ inst) by done.
  eexists. split; [apply _request_calls; right; apply json_is_request_keyword|].
  split; [done|]. split; [done|]. unfold the_call. cbn [call_extra].
  pose proof request_records_NoDup as Hnd. pose proof request_records_required as Hreq.
  rewrite Forall_forall in Hnd, Hreq.
  destruct (Hreq m Hm) as (f & Hf & Hr).
  by rewrite (truthy_payload m data inst f (Hnd m Hm) Hc Hf Hr).
Qed.

Lemma bound_order_id_Ok pos kw order_id data :
  bind_order_id pos kw = Ok (order_id, data) → bound_order_id pos kw = order_id.
Proof. unfold bound_order_id. by intros ->. Qed.

(** The same, for the operations that bind [order_id] first. *)
Lemma post_request_with_order_id self pos kw m (path : PyVal → string) w :
  m ∈ request_records →
  let op_run : M RequestResult :=
    '(order_id, data) ← lift (bind_order_id pos kw);
    inst ← lift (construct m data);
    Api._request self "post" (path order_id) (Some (dict_exclude_unset inst))
      "json" None true in
  match and_then (and_then (bind_order_id pos kw) (λ b, Ok b.2))
          (λ kw, and_then (construct m kw) (λ inst, Ok (Some (dict_exclude_unset inst)))) with
  | Ok json_body =>
      ∃ c, calls (op_run w).2 = calls w ++ [c]
           ∧ http_verb c = "POST"
           ∧ call_url c = full_url self (path (bound_order_id pos kw))
           ∧ call_extra c = (λ p, ("json", p)) <$> json_body
  | Raise e => op_run w = (Raise e, w)
  end.
Proof.
  intros Hm op_run. subst op_run.
  destruct (bind_order_id pos kw) as [[order_id data]|e] eqn:Hb; [|done].
  rewrite (bound_order_id_Ok _ _ _ _ Hb).
  rewrite (bind_lift_Ok _ (order_id, data)) by done. cbn [and_then snd].
  pose proof (post_request self (path order_id) m data w Hm) as Hpost.
  destruct (construct m data) as [inst|e]; exact Hpost.
Qed.

End table.

(** C9, as the code has it.  Called with ids that are strings, each
    operation either raises before anything is sent, when binding
    [order_id] or validating the keywords raises, or makes exactly one call:
    the verb and the URL are the entry of the operations table under
    [{api_host}/{version}/], and the JSON body is the validated record for
    the operations that take keywords and absent for the others.  The five
    GET operations never raise before sending.  [cancel_order] always does:
    the row of the table for it is never sent.  For an [Order] record whose
    [id] is [X], [capture] with keywords that validate makes the one call
    [POST {api_host}/{version}/orders/X/capture], on the client bound to the
    class, with the validated payload as its JSON body. *)
Theorem operations_follow_the_table `{PyRuntime, Network, Imported} :
  (∀ self op w,
     ids_are_str op = true →
     match body op with
     | Ok json_body =>
         ∃ c, calls (run self op w).2 = calls w ++ [c]
              ∧ request_of_table self op json_body c
     | Raise e => run self op w = (Raise e, w)
     end)
  ∧ (∀ pos kw, ∃ e, body (CancelOrderOp pos kw) = Raise e)
  ∧ (∀ api self X data inst w,
       Order_api w = Some api →
       Order.get_id self = Ok (VStr X) →
       data !! "order_id" = None →
       construct CaptureOrder data = Ok inst →
       ∃ c, calls (Order.capture self data w).2 = calls w ++ [c]
            ∧ http_verb c = "POST"
            ∧ call_url c = (api_host api +:+ "/" +:+ version api +:+ "/"
                            +:+ "orders/" +:+ X +:+ "/capture")%string
            ∧ call_extra c = Some ("json", dict_exclude_unset inst)).
Proof.
  assert (Hrec : ∀ m, m ∈ request_records ↔
            m = CreateOrder ∨ m = CancelOrder ∨ m = CaptureOrder ∨ m = RefundOrder).
  { intros m. unfold request_records. rewrite !elem_of_cons, elem_of_nil. tauto. }
  split; [|split].
  - intros self op w _. unfold request_of_table.
    destruct op; cbn [body run table fst snd].
    + pose proof (post_request self "orders" CreateOrder data w
                    (proj2 (Hrec _) (or_introl eq_refl))) as Hp.
      unfold Api.create_order. cbn [and_then].
      destruct (construct CreateOrder data); exact Hp.
    + apply (post_request_with_order_id self pos kw CancelOrder
               (λ oid, ("orders/" +:+ format_value oid +:+ "/cancel")%string) w).
      apply Hrec; tauto.
    + apply get_request.
    + apply get_request.
    + apply (post_request_with_order_id self pos kw CaptureOrder
               (λ oid, ("orders/" +:+ format_value oid +:+ "/capture")%string) w).
      apply Hrec; tauto.
    + apply get_request.
    + apply (post_request_with_order_id self pos kw RefundOrder
               (λ oid, ("orders/" +:+ format_value oid +:+ "/refunds")%string) w).
      apply Hrec; tauto.
    + apply get_request.
    + apply get_request.
  - intros pos kw. cbn [body].
    destruct (bind_order_id pos kw) as [[order_id data]|e] eqn:E; [|by eexists].
    apply bind_order_id_drops in E. cbn [and_then snd].
    destruct (CancelOrder_needs_order_id data E) as [errs ->]. by eexists.
  - intros api self X data inst w Hapi Hid Hdata Hc.
    eexists. split; [by eapply capture_call|]. split; [reflexivity|].
    split; [reflexivity|]. unfold the_call. cbn [call_extra].
    pose proof (@request_records_NoDup _) as Hnd.
    apply Forall_cons in Hnd as [_ Hnd]. apply Forall_cons in Hnd as [_ Hnd].
    apply Forall_cons in Hnd as [Hnd _].
    rewrite (truthy_payload CaptureOrder data inst
               (F "amount" (Scalar TInt) Required (at_least 100))); try done.
    in_fields.
Qed.

Lemma operations_follow_the_table_witness :
  let R := example_runtime in
  let N := answers ok_response in
  let I := example_import in
  let w := {| dicts := ∅; Order_api := Some example_api; log := []; calls := [] |} in
  let data : Kwargs := {[ "amount" := VInt 50000 ]} in
  let get := GetRefundByIdOp (VStr "1") (VStr "7") in
  let post := RefundOrderOp [VStr "1"] data in
  ids_are_str get = true ∧ ids_are_str post = true
  ∧ (∃ c, calls (run example_api get w).2 = calls w ++ [c]
          ∧ http_verb c = "GET"
          ∧ call_url c = "https://stage-api.ioka.kz/v2/orders/1/refunds/7"
          ∧ call_extra c = None)
  ∧ (∃ c, calls (run example_api post w).2 = calls w ++ [c]
          ∧ http_verb c = "POST"
          ∧ call_url c = "https://stage-api.ioka.kz/v2/orders/1/refunds"
          ∧ call_extra c = Some ("json", data))
  ∧ Order_api w = Some example_api
  ∧ Order.get_id example_order = Ok (VStr "1")
  ∧ data !! "order_id" = None
  ∧ ∃ inst, construct CaptureOrder data = Ok inst
    ∧ ∃ c, calls (Order.capture example_order data w).2 = calls w ++ [c]
           ∧ http_verb c = "POST"
           ∧ call_url c = "https://stage-api.ioka.kz/v2/orders/1/capture"
           ∧ call_extra c = Some ("json", dict_exclude_unset inst).
Proof.
  intros R N I w data get post.
  destruct operations_follow_the_table as (Hrun & _ & Hcapture).
  split; [reflexivity|]. split; [reflexivity|].
  split; [exact (Hrun example_api get w eq_refl)|].
  split.
  { pose proof (Hrun example_api post w eq_refl) as Hpost.
    assert (Hb : body post = Ok (Some data)) by by_evaluation.
    rewrite Hb in Hpost. exact Hpost. }
  split; [reflexivity|]. split; [reflexivity|]. split; [reflexivity|].
  eexists. split; [by_evaluation|].
  refine (Hcapture example_api example_order "1" data _ w eq_refl eq_refl eq_refl _).
  by_evaluation.
Defined.

(** ** Which client the facade uses (C1) *)

Lemma sends_uses {A} (m : M A) X method path w :
  sends m (call_of X method path) → Order_api w = Some X → uses X m w.
Proof.
  intros Hm Hw. destruct (Hm w) as (cs & Hc & _ & HP & Hapi & _).
  exists cs. repeat split; [done| |congruence].
  eapply Forall_impl; [exact HP|]. intros c (_ & Hu & Hk). eauto.
Qed.

Lemma uses_raise {A} X (e : Exception) w :
  Order_api w = Some X → uses X (λ w, (@Raise A e, w)) w.
Proof.
  intros Hw. exists []. simpl. rewrite app_nil_r. repeat split; [constructor | done].
Qed.

Lemma uses_bind_silent {A B} X (m : M A) (k : A → M B) w :
  uses X m w → (∀ a, silent (k a)) → uses X (m ≫= k) w.
Proof.
  intros (cs & Hc & HP & Hapi) Hk. exists cs.
  by rewrite bind_world_silent.
Qed.

Lemma uses_lift_bind {A B} X (r : Result A) (k : A → M B) w :
  Order_api w = Some X → (∀ a, uses X (k a) w) → uses X (lift r ≫= k) w.
Proof.
  intros Hw Hk. destruct r as [a|e]; [apply Hk | by apply uses_raise].
Qed.

Lemma uses_get_api {B} X (k : ApiObj → M B) w :
  Order_api w = Some X → uses X (k X) w → uses X (Order.get_api ≫= k) w.
Proof. intros Hw Hk. unfold uses. by rewrite (get_api_bind _ X). Qed.

Lemma uses_self_api {B} X (k : ApiObj → M B) w :
  Order_api w = Some X → uses X (k X) w → uses X (Order.self_api ≫= k) w.
Proof. intros Hw Hk. unfold uses. by rewrite (self_api_bind _ X). Qed.

Section facade.
Context `{PyRuntime, Network, Imported}.

Lemma silent_each m (r : RequestResult) :
  silent (lift (iterate r) ≫= λ xs, lift (construct_each m xs)).
Proof. apply silent_bind; [apply silent_lift | intros; apply silent_lift]. Qed.

Lemma silent_inl (r : PyVal) : silent (mret (M := M) (@inl PyVal (list PyVal) r)).
Proof. apply silent_mret. Qed.

Lemma silent_inr (r : list PyVal) : silent (mret (M := M) (@inr PyVal (list PyVal) r)).
Proof. apply silent_mret. Qed.

Lemma run_uses X op w : Order_api w = Some X → uses X (run X op) w.
Proof. intros Hw. eapply sends_uses; [apply sends_run | done]. Qed.

Lemma uses_then_silent {B} X op (m : M RequestResult) (k : RequestResult → M B) w :
  run X op = m → Order_api w = Some X → (∀ r, silent (k r)) → uses X (m ≫= k) w.
Proof. intros <- Hw Hk. apply uses_bind_silent; [by apply run_uses | done]. Qed.

Lemma silent_create (r : RequestResult) :
  silent (lift (result_get r "order") ≫= λ order,
          lift (unpack order) ≫= λ kw, lift (construct Order.model kw)).
Proof.
  apply silent_bind; [apply silent_lift | intros order].
  apply silent_bind; [apply silent_lift | intros kw; apply silent_lift].
Qed.

Lemma create_uses X cls data w :
  Order_api w = Some X → uses X (Order.create cls data) w.
Proof.
  intros Hw. apply uses_get_api; [done|].
  apply (uses_then_silent X (CreateOrderOp data)); [reflexivity | done | intros; apply silent_create].
Qed.

Lemma cancel_uses X cls data w :
  Order_api w = Some X → uses X (Order.cancel cls data) w.
Proof.
  intros Hw. apply uses_get_api; [done|].
  apply (uses_then_silent X (CancelOrderOp [] data)); [reflexivity | done | intros; apply silent_tail].
Qed.

Lemma list_uses X cls w : Order_api w = Some X → uses X (Order.list cls) w.
Proof.
  intros Hw. apply uses_get_api; [done|].
  apply (uses_then_silent X GetOrdersOp); [reflexivity | done | intros; apply silent_each].
Qed.

Lemma retrieve_uses X cls order_id w :
  Order_api w = Some X → uses X (Order.retrieve cls order_id) w.
Proof.
  intros Hw. apply uses_get_api; [done|].
  apply (uses_then_silent X (GetOrderByIdOp order_id)); [reflexivity | done | intros; apply silent_tail].
Qed.

Lemma capture_uses X self data w :
  Order_api w = Some X → uses X (Order.capture self data) w.
Proof.
  intros Hw. apply uses_self_api; [done|].
  apply uses_lift_bind; [done|]. intros id.
  apply uses_lift_bind; [done|]. intros kw.
  apply (uses_then_silent X (CaptureOrderOp [] kw)); [reflexivity | done | intros; apply silent_tail].
Qed.

Lemma get_events_uses X self w :
  Order_api w = Some X → uses X (Order.get_events self) w.
Proof.
  intros Hw. apply uses_self_api; [done|].
  apply uses_lift_bind; [done|]. intros id.
  apply (uses_then_silent X (GetOrderEventsOp id)); [reflexivity | done | intros; apply silent_each].
Qed.

Lemma refund_uses X self data w :
  Order_api w = Some X → uses X (Order.refund self data) w.
Proof.
  intros Hw. apply uses_self_api; [done|].
  apply uses_lift_bind; [done|]. intros id.
  apply uses_lift_bind; [done|]. intros kw.
  apply (uses_then_silent X (RefundOrderOp [] kw)); [reflexivity | done | intros; apply silent_tail].
Qed.

Lemma refund_list_uses X self w :
  Order_api w = Some X → uses X (Order.refund_list self) w.
Proof.
  intros Hw. apply uses_self_api; [done|].
  apply uses_lift_bind; [done|]. intros id.
  apply (uses_then_silent X (GetRefundsOp id)); [reflexivity | done | intros; apply silent_each].
Qed.

Lemma refund_retrieve_uses X self refund_id w :
  Order_api w = Some X → uses X (Order.refund_retrieve self refund_id) w.
Proof.
  intros Hw. apply uses_self_api; [done|].
  apply uses_lift_bind; [done|]. intros id.
  apply (uses_then_silent X (GetRefundByIdOp id refund_id)); [reflexivity | done | intros; apply silent_tail].
Qed.

Lemma facade_call_uses X cls fc w :
  Order_api w = Some X → uses X (facade_call cls fc) w.
Proof.
  intros Hw. destruct fc.
  - exact (uses_bind_silent X _ _ w (create_uses X cls data w Hw) silent_inl).
  - exact (uses_bind_silent X _ _ w (cancel_uses X cls data w Hw) silent_inl).
  - exact (uses_bind_silent X _ _ w (list_uses X cls w Hw) silent_inr).
  - exact (uses_bind_silent X _ _ w (retrieve_uses X cls order_id w Hw) silent_inl).
  - exact (uses_bind_silent X _ _ w (capture_uses X self data w Hw) silent_inl).
  - exact (uses_bind_silent X _ _ w (get_events_uses X self w Hw) silent_inr).
  - exact (uses_bind_silent X _ _ w (refund_uses X self data w Hw) silent_inl).
  - exact (uses_bind_silent X _ _ w (refund_list_uses X self w Hw) silent_inr).
  - exact (uses_bind_silent X _ _ w (refund_retrieve_uses X self refund_id w Hw) silent_inl).
Qed.

End facade.

(** C1, as the code has it.  [.order] returns the class [Order] itself,
    whichever client is asked, after binding the class attribute [api] to
    that client.  So every call made through the facade carries the key,
    host and version of the client whose [.order] was read last: those of
    [A] right after [A.order], and those of [B] once [B.order] has been read,
    also for a holder of what [A.order] returned.  A use of the facade leaves
    the binding as it is. *)
Theorem facade_calls_carry_the_client_bound_last `{PyRuntime, Network, Imported}
    (A B : ApiObj) (fc : FacadeCall) (w : World) :
  let after_A := Ioka.order A w in
  let after_B := Ioka.order B after_A.2 in
  after_A.1 = Ok Order_class
  ∧ after_B.1 = Ok Order_class
  ∧ uses A (facade_call Order_class fc) after_A.2
  ∧ uses B (facade_call Order_class fc) after_B.2.
Proof.
  intros after_A after_B. split; [done|]. split; [done|].
  split; by apply facade_call_uses.
Qed.

(** C1 as the specification states it fails: with two clients that differ
    in their key, reading [A.order] and then [B.order] hands out the same
    class twice, and a request made through what [A.order] returned is sent
    with the key of [B]. *)
Lemma facade_of_first_client_sends_key_of_second :
  let R := example_runtime in
  let N := answers ok_response in
  let I := example_import in
  ∃ A B w fa fb w' c,
    (a ← Api.__init__ {[ "api_key" := VStr "key-A" ]};
     b ← Api.__init__ {[ "api_key" := VStr "key-B" ]};
     mret (a, b)) empty_world = (Ok (A, B), w)
    ∧ api_key A = "key-A" ∧ api_key B = "key-B"
    ∧ (fa ← Ioka.order A; fb ← Ioka.order B; mret (fa, fb)) w = (Ok (fa, fb), w')
    ∧ fa = fb
    ∧ calls (Order.retrieve fa (VStr "1") w').2 = [c]
    ∧ call_url c = "https://stage-api.ioka.kz/v2/orders/1"
    ∧ call_headers c !! "API-KEY" = Some (VStr "key-B").
Proof.
  intros R N I. eexists _, _, _, _, _, _, _.
  split; [by_evaluation|].
  split; [reflexivity|]. split; [reflexivity|].
  split; [by_evaluation|].
  split; [reflexivity|].
  split; [by_evaluation|].
  split; reflexivity.
Qed.

(** ** ISODatetime (C8) *)

Section digits.
#[local] Open Scope N_scope.

Lemma chars_str_of l : chars (str_of l) = l.
Proof. apply list_ascii_of_string_of_list_ascii. Qed.

Lemma N_of_ascii_digit_char d : d < 10 → N_of_ascii (digit_char d) = 48 + d.
Proof. intros Hd. unfold digit_char. apply N_ascii_embedding. lia. Qed.

Lemma digit_val_digit_char d : d < 10 → digit_val (digit_char d) = Some d.
Proof.
  intros Hd. unfold digit_val. rewrite N_of_ascii_digit_char by done.
  destruct (N.leb_spec 48 (48 + d)); [|lia].
  destruct (N.leb_spec (48 + d) 57); [|lia].
  cbn [andb]. f_equal. lia.
Qed.

Lemma digit_char_ne d c :
  d < 10 → (N_of_ascii c <? 48) || (57 <? N_of_ascii c) = true → digit_char d ≠ c.
Proof.
  intros Hd Hc <-. rewrite N_of_ascii_digit_char in Hc by done.
  apply orb_true_iff in Hc as [Hc|Hc]; apply N.ltb_lt in Hc; lia.
Qed.

Lemma digits_from_snoc acc l c :
  digits_from acc (l ++ [c])
  = a ← digits_from acc l; d ← digit_val c; Some (10 * a + d).
Proof.
  revert acc. induction l as [|x l IH]; intros acc; simpl.
  - by destruct (digit_val c).
  - destruct (digit_val x); [apply IH | done].
Qed.

Lemma digits_from_fixed_digits w n acc :
  digits_from acc (fixed_digits w n) = Some (acc * 10 ^ N.of_nat w + n mod 10 ^ N.of_nat w).
Proof.
  revert n acc. induction w as [|w IH]; intros n acc.
  - simpl. f_equal. rewrite N.mod_1_r. lia.
  - cbn [fixed_digits]. rewrite digits_from_snoc, IH. cbn [mbind option_bind].
    rewrite digit_val_digit_char by (apply N.mod_lt; lia).
    cbn [mbind option_bind]. f_equal.
    rewrite Nat2N.inj_succ, N.pow_succ_r'.
    rewrite (N.Div0.mod_mul_r n 10 (10 ^ N.of_nat w)). lia.
Qed.

Lemma parse_fixed_digits w n :
  (0 < w)%nat → n < 10 ^ N.of_nat w → parse_digits (fixed_digits w n) = Some n.
Proof.
  intros Hw Hn. unfold parse_digits.
  destruct (fixed_digits w n) eqn:E.
  - destruct w; [lia|]. cbn [fixed_digits] in E. by destruct (fixed_digits w (n / 10)).
  - rewrite <- E, digits_from_fixed_digits, N.mod_small by done. done.
Qed.

Lemma length_fixed_digits w n : length (fixed_digits w n) = w.
Proof.
  revert n. induction w as [|w IH]; intros n; [done|].
  cbn [fixed_digits]. rewrite length_app, IH. simpl. lia.
Qed.

Lemma zero_pad_fixed w n : n < 10 ^ N.of_nat w → zero_pad w n = fixed_digits w n.
Proof. intros Hn. unfold zero_pad. by destruct (N.ltb_spec n (10 ^ N.of_nat w)); [|lia]. Qed.

End digits.

(** *** Parsing what was printed *)

Section parsing.
#[local] Open Scope N_scope.

Lemma plain_digit_char d : d < 10 → plain_char (digit_char d).
Proof. intros Hd. repeat split; by apply digit_char_ne. Qed.

Lemma Forall_plain_fixed_digits w n : Forall plain_char (fixed_digits w n).
Proof.
  revert n. induction w as [|w IH]; intros n; [constructor|].
  cbn [fixed_digits]. apply Forall_app. split; [apply IH|].
  constructor; [|constructor]. apply plain_digit_char, N.mod_lt. lia.
Qed.

Lemma find_char_None c l : Forall (λ x, x ≠ c) l → datetime.find_char c l = None.
Proof.
  induction 1 as [|x l Hx _ IH]; [done|]. cbn [datetime.find_char].
  by rewrite decide_False, IH.
Qed.

Lemma find_char_middle c l1 l2 :
  Forall (λ x, x ≠ c) l1 → datetime.find_char c (l1 ++ c :: l2) = Some (length l1).
Proof.
  induction 1 as [|x l Hx _ IH]; cbn [datetime.find_char app length].
  - by rewrite decide_True.
  - by rewrite decide_False, IH.
Qed.

Lemma drop_S_middle {A} (l1 l2 : list A) x :
  drop (S (length l1)) (l1 ++ x :: l2) = l2.
Proof. by rewrite cons_middle, app_assoc, drop_app_length'; [|rewrite length_app; simpl; lia]. Qed.

Lemma _parse_hh_mm_ss_ff_full h1 h2 m1 m2 s1 s2 frac hh mm ss us :
  parse_digits [h1; h2] = Some hh → parse_digits [m1; m2] = Some mm →
  parse_digits [s1; s2] = Some ss → datetime._parse_fraction frac = Some us →
  datetime._parse_hh_mm_ss_ff
    (h1 :: h2 :: ":"%char :: m1 :: m2 :: ":"%char :: s1 :: s2 :: frac)
  = Some (hh, mm, ss, us).
Proof.
  intros Hh Hm Hs Hf. unfold datetime._parse_hh_mm_ss_ff.
  rewrite Hh. cbn [mbind option_bind]. rewrite decide_True by done.
  rewrite Hm. cbn [mbind option_bind]. rewrite decide_True by done.
  rewrite Hs, Hf. done.
Qed.

Lemma _parse_hh_mm_ss_ff_offset o1 o2 o3 o4 oh om :
  parse_digits [o1; o2] = Some oh → parse_digits [o3; o4] = Some om →
  datetime._parse_hh_mm_ss_ff [o1; o2; ":"%char; o3; o4] = Some (oh, om, 0, 0).
Proof.
  intros Hh Hm. unfold datetime._parse_hh_mm_ss_ff.
  rewrite Hh. cbn [mbind option_bind]. rewrite decide_True by done.
  by rewrite Hm.
Qed.

Lemma fixed_digits_2 n : fixed_digits 2 n = [digit_char (n / 10 mod 10); digit_char (n mod 10)].
Proof. reflexivity. Qed.

Lemma fixed_digits_4 n :
  fixed_digits 4 n = [digit_char (n / 10 / 10 / 10 mod 10); digit_char (n / 10 / 10 mod 10);
                      digit_char (n / 10 mod 10); digit_char (n mod 10)].
Proof. reflexivity. Qed.

Lemma parse_2 n :
  n < 100 → parse_digits [digit_char (n / 10 mod 10); digit_char (n mod 10)] = Some n.
Proof. intros Hn. apply (parse_fixed_digits 2 n); [lia | exact Hn]. Qed.

Lemma parse_4 n :
  n < 10000 →
  parse_digits [digit_char (n / 10 / 10 / 10 mod 10); digit_char (n / 10 / 10 mod 10);
                digit_char (n / 10 mod 10); digit_char (n mod 10)] = Some n.
Proof. intros Hn. apply (parse_fixed_digits 4 n); [lia | exact Hn]. Qed.

Lemma digit_val_plain c : is_Some (digit_val c) → plain_char c.
Proof.
  intros [d Hd]. repeat split; intros ->; vm_compute in Hd; discriminate Hd.
Qed.

Lemma digits_from_plain acc l n : digits_from acc l = Some n → Forall plain_char l.
Proof.
  revert acc. induction l as [|c l IH]; intros acc; [constructor|].
  cbn [digits_from]. destruct (digit_val c) as [d|] eqn:E; [|done].
  intros Hl. constructor; [by apply digit_val_plain | by eapply IH].
Qed.

Lemma _parse_fraction_plain frac us :
  datetime._parse_fraction frac = Some us → Forall plain_char frac.
Proof.
  unfold datetime._parse_fraction. destruct frac as [|c frac]; [constructor|].
  destruct (decide (c = "."%char)) as [->|]; [|done].
  intros Hf. constructor; [done|].
  assert (∃ n, parse_digits frac = Some n) as [n Hn].
  { destruct (length frac) as [|[|[|[|[|[|[|]]]]]]]; try done.
    - destruct (parse_digits frac); [eauto | done].
    - eauto. }
  unfold parse_digits in Hn. destruct frac; [done|]. by eapply digits_from_plain.
Qed.

(** The time of day, followed by an offset or by nothing. *)
Lemma _parse_isoformat_time_printed hh mm ss frac us tzs tz :
  hh < 100 → mm < 100 → ss < 100 →
  Forall plain_char frac → datetime._parse_fraction frac = Some us →
  offset_of tzs tz →
  datetime._parse_isoformat_time
    (fixed_digits 2 hh ++ ":"%char :: fixed_digits 2 mm ++ ":"%char
     :: fixed_digits 2 ss ++ frac ++ tzs)
  = Some (hh, mm, ss, us, tz).
Proof.
  intros Hhh Hmm Hss Hfrac Hus Htz.
  set (body := fixed_digits 2 hh ++ ":"%char :: fixed_digits 2 mm ++ ":"%char
               :: fixed_digits 2 ss ++ frac).
  assert (Hbody : datetime._parse_hh_mm_ss_ff body = Some (hh, mm, ss, us)).
  { subst body. rewrite !fixed_digits_2. cbn [app].
    apply _parse_hh_mm_ss_ff_full; [by apply parse_2..|done]. }
  assert (Hplain : Forall plain_char body).
  { subst body. repeat first
      [ apply Forall_plain_fixed_digits | apply Forall_app; split | apply Forall_cons_2
      | done ]. }
  assert (Hlen : (2 ≤ length body)%nat).
  { subst body. rewrite length_app, length_fixed_digits. lia. }
  replace (fixed_digits 2 hh ++ ":"%char :: fixed_digits 2 mm ++ ":"%char
           :: fixed_digits 2 ss ++ frac ++ tzs) with (body ++ tzs)
    by (subst body; by rewrite <- ?app_assoc, <- ?app_comm_cons, <- ?app_assoc).
  unfold datetime._parse_isoformat_time.
  destruct Htz as [|negative oh om Hoh Hom].
  - rewrite app_nil_r.
    destruct (Nat.ltb_spec (length body) 2); [lia|].
    unfold datetime._tz_pos.
    rewrite !find_char_None by (eapply Forall_impl; [exact Hplain | by intros ? (?&?&?)]).
    by rewrite Hbody.
  - set (rest := fixed_digits 2 oh ++ ":"%char :: fixed_digits 2 om).
    assert (Hrest : Forall plain_char rest).
    { subst rest. repeat first
        [ apply Forall_plain_fixed_digits | apply Forall_app; split | apply Forall_cons_2
        | done ]. }
    destruct (Nat.ltb_spec (length (body ++ (if negative then "-"%char else "+"%char) :: rest)) 2).
    { rewrite length_app in *. lia. }
    assert (Hpos : datetime._tz_pos (body ++ (if negative then "-"%char else "+"%char) :: rest)
                   = Some (length body)).
    { unfold datetime._tz_pos. destruct negative.
      - rewrite find_char_middle; [done|].
        eapply Forall_impl; [exact Hplain | by intros ? (?&?&?)].
      - rewrite find_char_None, find_char_middle; [done | |].
        + eapply Forall_impl; [exact Hplain | by intros ? (?&?&?)].
        + apply Forall_app. split; [|apply Forall_cons_2; [done|]];
            (eapply Forall_impl; [eassumption | by intros ? (?&?&?)]). }
    rewrite Hpos, take_app_length, Hbody. cbn [mbind option_bind].
    rewrite drop_S_middle.
    rewrite decide_True by (left; subst rest; rewrite length_app, length_fixed_digits; done).
    subst rest. rewrite !fixed_digits_2. cbn [app].
    rewrite (_parse_hh_mm_ss_ff_offset _ _ _ _ oh om) by (apply parse_2; lia).
    cbn [mbind option_bind]. rewrite list_lookup_middle by done.
    by destruct negative.
Qed.

End parsing.

Section fromisoformat_facts.
#[local] Open Scope N_scope.

Lemma _parse_isoformat_date_printed y m d :
  y < 10000 → m < 100 → d < 100 →
  datetime._parse_isoformat_date
    (fixed_digits 4 y ++ "-"%char :: fixed_digits 2 m ++ "-"%char :: fixed_digits 2 d)
  = Some (y, m, d).
Proof.
  intros Hy Hm Hd. rewrite fixed_digits_4, !fixed_digits_2. cbn [app].
  unfold datetime._parse_isoformat_date. rewrite decide_True by done.
  by rewrite parse_4, !parse_2.
Qed.

(** The reader of the documented format reads back a date and time printed
    field by field, whatever stands between them. *)
Lemma fromisoformat_documented_printed y m d sep hh mm ss frac us tzs tz :
  y < 10000 → m < 100 → d < 100 → hh < 100 → mm < 100 → ss < 100 →
  datetime._parse_fraction frac = Some us →
  offset_of tzs tz →
  datetime.fromisoformat_documented
    (str_of (fixed_digits 4 y ++ "-"%char :: fixed_digits 2 m ++ "-"%char
             :: fixed_digits 2 d ++ sep
             :: fixed_digits 2 hh ++ ":"%char :: fixed_digits 2 mm ++ ":"%char
             :: fixed_digits 2 ss ++ frac ++ tzs))
  = datetime.new y m d hh mm ss us tz.
Proof.
  intros Hy Hm Hd Hhh Hmm Hss Hus Htz.
  unfold datetime.fromisoformat_documented. rewrite chars_str_of. cbv zeta.
  pose proof (_parse_isoformat_time_printed hh mm ss frac us tzs tz
                Hhh Hmm Hss (_parse_fraction_plain _ _ Hus) Hus Htz) as Htime.
  pose proof (_parse_isoformat_date_printed y m d Hy Hm Hd) as Hdate.
  remember (fixed_digits 2 hh ++ ":"%char :: fixed_digits 2 mm ++ ":"%char
            :: fixed_digits 2 ss ++ frac ++ tzs) as tstr eqn:Etstr.
  clear Etstr.
  rewrite fixed_digits_4, !fixed_digits_2 in Hdate |- *.
  cbn [app take drop] in Hdate |- *.
  rewrite Hdate. cbn [mbind option_bind]. by rewrite Htime.
Qed.

Lemma fromisoformat_documented_date y m d :
  y < 10000 → m < 100 → d < 100 →
  datetime.fromisoformat_documented
    (str_of (fixed_digits 4 y ++ "-"%char :: fixed_digits 2 m ++ "-"%char
             :: fixed_digits 2 d))
  = datetime.new y m d 0 0 0 0 None.
Proof.
  intros Hy Hm Hd.
  unfold datetime.fromisoformat_documented. rewrite chars_str_of. cbv zeta.
  pose proof (_parse_isoformat_date_printed y m d Hy Hm Hd) as Hdate.
  rewrite fixed_digits_4, !fixed_digits_2 in Hdate |- *.
  cbn [app take drop] in Hdate |- *. by rewrite Hdate.
Qed.

Lemma _parse_fraction_6 us :
  us < 1000000 → datetime._parse_fraction ("."%char :: fixed_digits 6 us) = Some us.
Proof.
  intros Hus. unfold datetime._parse_fraction.
  rewrite decide_True, length_fixed_digits by done. cbv beta iota.
  apply parse_fixed_digits; [lia | exact Hus].
Qed.

Lemma _days_in_month_le y m : datetime._days_in_month y m ≤ 31.
Proof.
  unfold datetime._days_in_month. destruct (_ && _); [lia|].
  destruct m as [|p]; [lia|]. do 4 (try destruct p as [p|p|]); cbn; lia.
Qed.

(** What [isoformat] prints for a naive [datetime]: the date, a [T], the
    time, and the microseconds as six digits unless they are zero. *)
Lemma isoformat_naive dt :
  datetime.wf dt = true → datetime.tzinfo dt = None →
  ∃ frac,
    datetime.isoformat dt
    = str_of (fixed_digits 4 (datetime.year dt) ++ "-"%char
              :: fixed_digits 2 (datetime.month dt) ++ "-"%char
              :: fixed_digits 2 (datetime.day dt) ++ "T"%char
              :: fixed_digits 2 (datetime.hour dt) ++ ":"%char
              :: fixed_digits 2 (datetime.minute dt) ++ ":"%char
              :: fixed_digits 2 (datetime.second dt) ++ frac)
    ∧ Forall plain_char frac
    ∧ datetime._parse_fraction frac = Some (datetime.microsecond dt).
Proof.
  destruct dt as [y m d hh mm ss us tz]. cbn [datetime.tzinfo]. intros Hwf ->.
  unfold datetime.wf in Hwf.
  cbn [datetime.year datetime.month datetime.day datetime.hour datetime.minute
       datetime.second datetime.microsecond datetime.tzinfo] in *.
  unfold datetime._check_date_fields, datetime._check_time_fields in Hwf.
  rewrite !andb_true_iff, !N.leb_le in Hwf. destruct_and!.
  pose proof (_days_in_month_le y m).
  unfold datetime.isoformat.
  cbn [datetime.year datetime.month datetime.day datetime.hour datetime.minute
       datetime.second datetime.microsecond datetime.tzinfo].
  unfold datetime._format_time, datetime._format_offset.
  rewrite (zero_pad_fixed 4), !(zero_pad_fixed 2) by (cbn; lia).
  rewrite app_nil_r. eexists. split; [reflexivity|].
  destruct (N.eqb_spec us 0) as [->|]; [by split; [constructor|]|].
  rewrite zero_pad_fixed by (cbn; lia). split.
  - apply Forall_cons_2; [done | apply Forall_plain_fixed_digits].
  - apply _parse_fraction_6. lia.
Qed.

End fromisoformat_facts.

(** *** The reader of the documented format *)

Section documented_reader.
#[local] Open Scope N_scope.

Lemma days_in_month_agree y m :
  1 ≤ m ≤ 12 → Rfc3339.days_in_month y m = datetime._days_in_month y m.
Proof.
  intros Hm. unfold Rfc3339.days_in_month, datetime._days_in_month.
  destruct m as [|p]; [lia|]. do 4 (try destruct p as [p|p|]); try lia; reflexivity.
Qed.

Lemma new_wf y m d hh mm ss us tz dt :
  datetime.new y m d hh mm ss us tz = Some dt → datetime.wf dt = true.
Proof. unfold datetime.new. destruct (datetime.wf _) eqn:E; naive_solver. Qed.

Lemma fromisoformat_documented_wf s dt :
  datetime.fromisoformat_documented s = Some dt → datetime.wf dt = true.
Proof.
  unfold datetime.fromisoformat_documented. cbv zeta.
  destruct (datetime._parse_isoformat_date _) as [[[y m] d]|]; [|done].
  cbn [mbind option_bind]. destruct (drop 10 (chars s)) as [|c tstr]; [apply new_wf|].
  destruct (datetime._parse_isoformat_time _) as [[[[[hh mm] ss] us] tz]|]; [|done].
  apply new_wf.
Qed.

(** The reader of the documented format does what the documentation
    promises. *)
Lemma example_runtime_reads_documented_format :
  @reads_documented_format example_runtime.
Proof.
  split; [exact fromisoformat_documented_wf|]. split.
  - intros y m d. apply fromisoformat_documented_date.
  - intros y m d sep hh mm ss frac us tzs tz Hy Hm Hd Hhh Hmm Hss _ Hus Htz.
    apply fromisoformat_documented_printed; try done. lia.
Qed.

End documented_reader.

(** *** ISODatetime.validate *)

Section ISODatetime_facts.
#[local] Open Scope N_scope.
Context `{PyRuntime}.
Hypothesis documented : reads_documented_format.

Lemma wf_replace_tzinfo dt :
  datetime.wf dt = true → datetime.wf (datetime.replace_tzinfo dt None) = true.
Proof.
  unfold datetime.wf. destruct dt. cbn. intros Hwf.
  apply andb_true_iff in Hwf as [Hwf _]. by rewrite Hwf.
Qed.

Lemma secfrac_digits ds : forallb (λ x, x <? 10) ds = true → Forall (λ x, x < 10) ds.
Proof.
  induction ds as [|x ds IH]; cbn [forallb]; [constructor|].
  rewrite andb_true_iff, N.ltb_lt. intros [Hx Hds]. constructor; auto.
Qed.

Lemma filter_Z_plain l l' :
  Forall plain_char l →
  filter (λ c, c ≠ "Z"%char) (l ++ l') = l ++ filter (λ c, c ≠ "Z"%char) l'.
Proof.
  induction 1 as [|x l (_ & _ & Hx) _ IH]; [done|].
  cbn [app]. by rewrite filter_cons_True, IH.
Qed.

Lemma Forall_plain_secfrac ds :
  forallb (λ x, x <? 10) ds = true → Forall plain_char (Rfc3339.secfrac_chars ds).
Proof.
  intros Hds%secfrac_digits.
  destruct ds as [|x ds]; [constructor|]. unfold Rfc3339.secfrac_chars.
  apply Forall_cons_2; [done|]. apply Forall_fmap.
  eapply Forall_impl; [exact Hds|]. intros y Hy. by apply plain_digit_char.
Qed.

Lemma _parse_fraction_secfrac ds :
  forallb (λ x, x <? 10) ds = true → length ds ∈ [0; 3; 6]%nat →
  datetime._parse_fraction (Rfc3339.secfrac_chars ds) = Some (Rfc3339.micros ds).
Proof.
  intros Hds%secfrac_digits Hlen. rewrite Forall_forall in Hds.
  assert (Hd : ∀ x, x ∈ ds → digit_val (digit_char x) = Some x).
  { intros x Hx. by apply digit_val_digit_char, Hds. }
  clear Hds. rewrite !elem_of_cons, elem_of_nil in Hlen.
  destruct Hlen as [Hlen|[Hlen|[Hlen|[]]]].
  - by destruct ds.
  - destruct ds as [|a [|b [|c [|]]]]; try done.
    unfold Rfc3339.secfrac_chars, datetime._parse_fraction, parse_digits.
    rewrite decide_True by done. cbn [fmap list_fmap length digits_from].
    rewrite !Hd by set_solver. cbn [mbind option_bind]. f_equal.
  - destruct ds as [|a [|b [|c [|d [|e [|f [|]]]]]]]; try done.
    unfold Rfc3339.secfrac_chars, datetime._parse_fraction, parse_digits.
    rewrite decide_True by done. cbn [fmap list_fmap length digits_from].
    rewrite !Hd by set_solver. f_equal. unfold Rfc3339.micros.
    cbn [foldl length]. change (10 ^ N.of_nat (6 - 6)) with 1. lia.
Qed.

Lemma micros_bound ds :
  forallb (λ x, x <? 10) ds = true → length ds ∈ [0; 3; 6]%nat →
  Rfc3339.micros ds ≤ 999999.
Proof.
  intros Hds%secfrac_digits Hlen.
  rewrite !elem_of_cons, elem_of_nil in Hlen.
  destruct Hlen as [Hlen|[Hlen|[Hlen|[]]]].
  - by destruct ds.
  - destruct ds as [|a [|b [|c [|]]]]; try done.
    rewrite !Forall_cons in Hds. destruct Hds as (Ha & Hb & Hc & _).
    unfold Rfc3339.micros. cbn [foldl length].
    change (10 ^ N.of_nat (6 - 3)) with 1000. lia.
  - destruct ds as [|a [|b [|c [|d [|e [|f [|]]]]]]]; try done.
    rewrite !Forall_cons in Hds. destruct Hds as (Ha & Hb & Hc & Hd & He & Hf & _).
    unfold Rfc3339.micros. cbn [foldl length].
    change (10 ^ N.of_nat (6 - 6)) with 1. lia.
Qed.

(** What [isoformat] prints for a naive [datetime], [fromisoformat] reads
    back. *)
Lemma fromisoformat_isoformat dt :
  datetime.wf dt = true → datetime.tzinfo dt = None →
  datetime_fromisoformat (datetime.isoformat dt) = Some dt.
Proof.
  intros Hwf Htz. destruct (isoformat_naive dt Hwf Htz) as (frac & -> & _ & Hfrac).
  destruct dt as [y m d hh mm ss us tz]. cbn [datetime.tzinfo] in Htz. subst tz.
  pose proof Hwf as Hwf'. unfold datetime.wf in Hwf'.
  cbn [datetime.year datetime.month datetime.day datetime.hour datetime.minute
       datetime.second datetime.microsecond datetime.tzinfo] in *.
  unfold datetime._check_date_fields, datetime._check_time_fields in Hwf'.
  rewrite !andb_true_iff, !N.leb_le in Hwf'. destruct_and!.
  pose proof (_days_in_month_le y m).
  destruct documented as (_ & _ & Hprinted).
  rewrite <- (app_nil_r frac).
  rewrite (Hprinted y m d "T"%char hh mm ss frac us [] None);
    [|lia..|by left|done|constructor].
  unfold datetime.new. by rewrite Hwf.
Qed.

(** What is left of [time-offset] once every [Z] is gone: nothing of an
    upper-case [Z], and a numeric offset as it stands. *)
Lemma offset_chars_without_Z o :
  Rfc3339.valid_offset o = true → o ≠ Rfc3339.Zulu Rfc3339.Lower →
  ∃ tz, offset_of (filter (λ c, c ≠ "Z"%char) (Rfc3339.offset_chars o)) tz
        ∧ datetime._check_utc_offset tz = true.
Proof.
  destruct o as [[|]|negative oh om]; intros Ho Hz; [|done|].
  - exists None. split; [constructor | done].
  - cbn [Rfc3339.valid_offset] in Ho.
    apply andb_true_iff in Ho as [Hoh Hom]. apply N.leb_le in Hoh, Hom.
    eexists. split.
    + unfold Rfc3339.offset_chars.
      rewrite filter_cons_True by (by destruct negative).
      rewrite <- (app_nil_r (fixed_digits 2 oh ++ _)), filter_Z_plain.
      * rewrite filter_nil, app_nil_r. apply (offset_some negative oh om); lia.
      * apply Forall_app. split; [apply Forall_plain_fixed_digits|].
        apply Forall_cons_2; [done | apply Forall_plain_fixed_digits].
    + unfold datetime._check_utc_offset.
      apply andb_true_iff. split; apply Z.ltb_lt; destruct negative; lia.
Qed.

(** Every RFC 3339 date-time within reach is accepted, and what comes back
    is its local time. *)
Lemma validate_rfc3339 d :
  Rfc3339.valid d = true → Rfc3339.plain d = true →
  ISODatetime.validate (VStr (Rfc3339.to_string d))
  = Ok (datetime.isoformat (Rfc3339.local d)).
Proof.
  destruct d as [y m dd sep hh mm ss ds o]. unfold Rfc3339.valid, Rfc3339.plain.
  cbn [Rfc3339.year Rfc3339.month Rfc3339.day Rfc3339.separator Rfc3339.hour
       Rfc3339.minute Rfc3339.second Rfc3339.secfrac Rfc3339.offset].
  rewrite !andb_true_iff, !N.leb_le, bool_decide_eq_true.
  intros Hv Hp. destruct_and!.
  destruct (offset_chars_without_Z o) as (tz & Htz & Htzok);
    [done | by intros -> |].
  pose proof (_days_in_month_le y m).
  pose proof (days_in_month_agree y m).
  unfold ISODatetime.validate, ISODatetime.replace_Z, Rfc3339.to_string.
  cbn [Rfc3339.year Rfc3339.month Rfc3339.day Rfc3339.separator Rfc3339.hour
       Rfc3339.minute Rfc3339.second Rfc3339.secfrac Rfc3339.offset].
  rewrite chars_str_of.
  repeat first
    [ rewrite filter_Z_plain by first [apply Forall_plain_fixed_digits | by apply Forall_plain_secfrac]
    | rewrite filter_cons_True by (by destruct sep) ].
  destruct documented as (_ & _ & Hprinted).
  rewrite (Hprinted y m dd _ hh mm ss _ (Rfc3339.micros ds) _ tz);
    [|lia..|by destruct sep; [left | right]|by apply _parse_fraction_secfrac|done].
  pose proof (micros_bound ds ltac:(done) ltac:(done)) as Hus.
  unfold datetime.new, datetime.wf, datetime._check_date_fields,
    datetime._check_time_fields.
  cbn [datetime.year datetime.month datetime.day datetime.hour datetime.minute
       datetime.second datetime.microsecond datetime.tzinfo].
  rewrite Htzok.
  repeat match goal with
         | |- context [(?a <=? ?b)] =>
             destruct (N.leb_spec a b); [|lia]
         end.
  done.
Qed.

(** A leap second is read by no Python that reads the documented format. *)
Lemma validate_leap_second :
  ISODatetime.validate (VStr "1990-12-31T23:59:60Z")
  = Raise (ValueError (datetime_fromisoformat_error "1990-12-31T23:59:60")).
Proof.
  cbn [ISODatetime.validate].
  change (ISODatetime.replace_Z "1990-12-31T23:59:60Z")
    with (str_of (fixed_digits 4 1990 ++ "-"%char :: fixed_digits 2 12 ++ "-"%char
                  :: fixed_digits 2 31 ++ "T"%char
                  :: fixed_digits 2 23 ++ ":"%char :: fixed_digits 2 59 ++ ":"%char
                  :: fixed_digits 2 60 ++ [] ++ [])).
  destruct documented as (_ & _ & Hprinted).
  by rewrite (Hprinted 1990 12 31 "T"%char 23 59 60 [] 0 [] None);
    [|lia..|by left|done|constructor].
Qed.

(** Accepted strings are those [fromisoformat] reads once every [Z] is
    gone; the others raise its [ValueError]. *)
Lemma validate_str s r :
  ISODatetime.validate (VStr s) = Ok r
  ↔ ∃ p, datetime_fromisoformat (ISODatetime.replace_Z s) = Some p
         ∧ r = datetime.isoformat (datetime.replace_tzinfo p None).
Proof.
  cbn [ISODatetime.validate].
  destruct (datetime_fromisoformat _) as [p|]; split.
  - intros [= <-]. by exists p.
  - by intros (? & [= <-] & ->).
  - done.
  - by intros (? & ? & _).
Qed.

(** What [validate] returns reads back as a naive [datetime]. *)
Lemma fromisoformat_naive p :
  datetime.wf p = true →
  datetime_fromisoformat (datetime.isoformat (datetime.replace_tzinfo p None))
  = Some (datetime.replace_tzinfo p None).
Proof. intros Hp. apply fromisoformat_isoformat; [by apply wf_replace_tzinfo | done]. Qed.

Lemma fromisoformat_wf s dt : datetime_fromisoformat s = Some dt → datetime.wf dt = true.
Proof. destruct documented as (Hwf & _). apply Hwf. Qed.

End ISODatetime_facts.

(** C8, as the code has it.  A string is accepted exactly when
    [datetime.fromisoformat] reads what is left of it once every [Z] is
    removed, and raises a [ValueError] otherwise.  On every Python that reads
    the documented format this takes in every RFC 3339 date-time whose year
    is not 0000, whose second is at most 59, whose fraction, if any, has
    three or six digits, and whose [Z], if any, is written in upper case;
    the [T] may be written in either case.  Every native datetime is
    accepted.  What comes back is the ISO string of the local time with the
    offset dropped: [fromisoformat] reads it back as a naive datetime and
    [isoformat] prints that as the same string.  A value that is neither a
    string nor a datetime raises the [TypeError] of the source. *)
Theorem validate_accepts_what_fromisoformat_parses `{PyRuntime}
    (s : string) (d : Rfc3339.t) (dt : datetime.t) (v : PyVal) :
  reads_documented_format →
  Rfc3339.valid d = true → Rfc3339.plain d = true →
  datetime.wf dt = true → neither_str_nor_datetime v = true →
  (∀ r, ISODatetime.validate (VStr s) = Ok r
        ↔ ∃ p, datetime_fromisoformat (ISODatetime.replace_Z s) = Some p
               ∧ r = datetime.isoformat (datetime.replace_tzinfo p None))
  ∧ (datetime_fromisoformat (ISODatetime.replace_Z s) = None →
     ∃ msg, ISODatetime.validate (VStr s) = Raise (ValueError msg))
  ∧ ISODatetime.validate (VStr (Rfc3339.to_string d))
    = Ok (datetime.isoformat (Rfc3339.local d))
  ∧ ISODatetime.validate (VDatetime dt)
    = Ok (datetime.isoformat (datetime.replace_tzinfo dt None))
  ∧ (∀ r, ISODatetime.validate (VStr s) = Ok r
          ∨ ISODatetime.validate (VDatetime dt) = Ok r →
          ∃ p, datetime_fromisoformat r = Some p ∧ datetime.tzinfo p = None
               ∧ datetime.isoformat p = r)
  ∧ ISODatetime.validate v
    = Raise (TypeError "Datetime string RFC 3339 or datetime required").
Proof.
  intros Hdoc Hd Hplain Hdt Hv.
  split; [apply validate_str|].
  split; [intros Hnone; cbn [ISODatetime.validate]; rewrite Hnone; eauto|].
  split; [by apply validate_rfc3339|]. split; [done|].
  split; [|by destruct v].
  intros r [Hr|Hr].
  - apply validate_str in Hr as (p & Hp & ->). exists (datetime.replace_tzinfo p None).
    split; [|done]. eapply fromisoformat_naive, fromisoformat_wf, Hp; done.
  - injection Hr as <-. exists (datetime.replace_tzinfo dt None).
    split; [|done]. by apply fromisoformat_naive.
Qed.

Lemma validate_accepts_what_fromisoformat_parses_witness :
  let R := example_runtime in
  let d := Rfc3339.mk 2019 8 24 Rfc3339.Lower 14 15 22 [1%N; 2%N; 3%N]
             (Rfc3339.Numeric false 6 0) in
  let dt := datetime.mk 2022 3 18 12 0 0 500000 (Some 0) in
  reads_documented_format
  ∧ Rfc3339.to_string d = "2019-08-24t14:15:22.123+06:00"
  ∧ ISODatetime.validate (VStr "2019-08-24t14:15:22.123+06:00")
    = Ok "2019-08-24T14:15:22.123000"
  ∧ ISODatetime.validate (VDatetime dt) = Ok "2022-03-18T12:00:00.500000"
  ∧ ISODatetime.validate (VInt 1647604800)
    = Raise (TypeError "Datetime string RFC 3339 or datetime required").
Proof.
  intros R d dt.
  pose proof (validate_accepts_what_fromisoformat_parses
                "2022-03-18T12:00:00Z" d dt (VInt 1647604800)
                example_runtime_reads_documented_format
                eq_refl eq_refl eq_refl eq_refl) as (_ & _ & Hd & Hdt & _ & Hv).
  split; [exact example_runtime_reads_documented_format|].
  split; [reflexivity|]. split; [exact Hd|]. split; [exact Hdt | exact Hv].
Defined.

(** C8 as the specification states it fails on a leap second: the date-time
    [1990-12-31T23:59:60Z], an example of RFC 3339 itself (section 5.8), is
    not accepted.  [datetime] takes no second above 59: no Python that reads
    the documented format accepts the string, and the call fails with a
    [ValueError]. *)
Lemma rfc3339_leap_second_is_rejected :
  let d := Rfc3339.mk 1990 12 31 Rfc3339.Upper 23 59 60 []
             (Rfc3339.Zulu Rfc3339.Upper) in
  Rfc3339.valid d = true
  ∧ Rfc3339.to_string d = "1990-12-31T23:59:60Z"
  ∧ (∃ msg, @ISODatetime.validate example_runtime (VStr "1990-12-31T23:59:60Z")
            = Raise (ValueError msg))
  ∧ ¬ ∃ R : PyRuntime,
        reads_documented_format
        ∧ ∃ r, ISODatetime.validate (VStr (Rfc3339.to_string d)) = Ok r.
Proof.
  intros d. split; [reflexivity|]. split; [reflexivity|].
  split; [eexists; reflexivity|]. intros (R & Hdoc & r & Hr).
  change (Rfc3339.to_string d) with "1990-12-31T23:59:60Z" in Hr.
  by rewrite (validate_leap_second Hdoc) in Hr.
Qed.

(** * Further properties of the code *)

(** ** What a built record holds *)

Section stored.
Context `{PyRuntime}.

Lemma validate_scalar_stored t b v v' :
  validate_scalar t b v = inr v' → stored_as t b v'.
Proof.
  destruct t; cbn [validate_scalar stored_as].
  - destruct (int_validator v) as [z|]; [|done].
    destruct (number_size_validator b z) as [e|z'] eqn:E; [done|].
    cbn. intros [= <-]. exists z'.
    assert (z' = z) as ->.
    { revert E. unfold number_size_validator.
      repeat case_match; congruence. }
    split; [done|]. apply number_size_validator_inr. eauto.
  - destruct (float_validator v); [|done]. intros [= <-]. eauto.
  - destruct (str_validator v) as [e|s]; [done|].
    destruct (constr_length_validator b s) as [e|s'] eqn:E; [done|].
    cbn. intros [= <-]. exists s'.
    assert (s' = s) as ->.
    { revert E. unfold constr_length_validator. repeat case_match; congruence. }
    split; [done|]. apply constr_length_validator_inr. eauto.
  - destruct (dict_validator v); [|done]. intros [= <-]. eauto.
  - destruct (str_validator v) as [e|s]; [done|].
    destruct (HttpUrl_validate s) as [e|u] eqn:E; [done|]. intros [= <-]. eauto.
  - assert (Hs : sum_map id VSecret (str_validator v) = inr v' → ∃ s, v' = VSecret s).
    { destruct (str_validator v); [done|]. intros [= <-]. eauto. }
    destruct v; try exact Hs. intros [= <-]. eauto.
  - destruct (ISODatetime.validate v) as [s|e] eqn:E.
    + intros [= <-]. eauto.
    + by destruct e.
  - unfold enum_member_validator.
    destruct (List.find (py_eqb v) members) as [m|] eqn:E; [|done].
    intros [= <-]. apply find_some in E as [Hin _]. by apply list_elem_of_In.
Qed.


Lemma validate_nested_built n v v' : validate_nested n v = inr v' → built_as n v'.
Proof.
  unfold validate_nested, built_as.
  assert (Hk : ∀ kw, match construct_with validate_scalar_field n kw with
                     | Ok inst => inr inst
                     | Raise (ValidationError _ errs) => inl errs
                     | Raise _ => inl [([], DictError)]
                     end = inr v' → ∃ vals set, v' = VModel (model_name n) vals set).
  { intros kw. unfold construct_with.
    destruct (acc_errors _); [intros [= <-]; eauto | done]. }
  assert (Hi : ∀ kvs, match kwargs_of kvs with
                      | Some kw =>
                          match construct_with validate_scalar_field n kw with
                          | Ok inst => inr inst
                          | Raise (ValidationError _ errs) => inl errs
                          | Raise _ => inl [([], DictError)]
                          end
                      | None => inl [([], ValidatorTypeError "keywords must be strings")]
                      end = inr v' → ∃ vals set, v' = VModel (model_name n) vals set).
  { intros kvs. destruct (kwargs_of kvs); [apply Hk | done]. }
  destruct v; try done; try (destruct (py_dict _); [apply Hi | done]); [apply Hi|].
  destruct (decide _) as [->|]; [intros [= <-]; eauto | apply Hk].
Qed.

Lemma validate_items_built n i l :
  Forall (built_as n) (validate_items n i l).2.
Proof.
  revert i. induction l as [|v l IH]; intros i; cbn [validate_items]; [constructor|].
  specialize (IH (S i)). destruct (validate_items n (S i) l) as [errs vs].
  destruct (validate_nested n v) as [e|v'] eqn:E; cbn in *; [done|].
  constructor; [by eapply validate_nested_built | done].
Qed.

Lemma validate_field_stored f x v :
  x ≠ VNone → validate_field f x = inr v → stored_in f v.
Proof.
  intros Hx. unfold validate_field, stored_in.
  destruct (type_ f) as [t|n|n].
  - destruct x; try done;
      (destruct (validate_scalar t (bounds f) _) eqn:E; [done|]; intros [= <-];
       by eapply validate_scalar_stored).
  - destruct x; try done; apply validate_nested_built.
  - destruct x; try done.
    pose proof (validate_items_built n 0 l) as Hb.
    destruct (validate_items n 0 l) as [[|e errs] vs]; [|done].
    intros [= <-]. eauto.
Qed.

(** What a record that was built holds under the name of a declared field. *)
Lemma construct_holds m kw c vals set f :
  NoDup (name <$> fields m) →
  construct m kw = Ok (VModel c vals set) →
  f ∈ fields m →
  match kw !! name f with
  | None => required f = false ∧ vals !! name f = Some (get_default f)
  | Some VNone => allow_none f = true ∧ vals !! name f = Some VNone
  | Some x => ∃ v, validate_field f x = inr v ∧ vals !! name f = Some v ∧ stored_in f v
  end.
Proof.
  intros Hnd Hc Hf.
  destruct (construct_cases m kw Hnd (construct_Ok_caught _ _ _ Hc))
    as [(vals0 & set0 & Hc0 & Hok & Hvals & _) | (errs & Hc0 & _)];
    [|congruence].
  rewrite Hc in Hc0. injection Hc0 as _ -> ->.
  rewrite (Hvals f Hf). rewrite Forall_forall in Hok. specialize (Hok f Hf).
  unfold field_ok in Hok. unfold field_value.
  destruct (kw !! name f) as [x|]; [|by rewrite Hok].
  apply validate_field_inr in Hok as [v Hv]. rewrite Hv.
  assert (Hs : x ≠ VNone → stored_in f v) by (intros; by eapply validate_field_stored).
  destruct x; try (exists v; split; [done|]; split; [done|]; by apply Hs).
  cbn in Hv. destruct (allow_none f); [by injection Hv as <- | done].
Qed.

End stored.

Section stored_scalars.
Context `{PyRuntime}.

(** A scalar field that does not take [None]: the record holds the default
    when the field was not supplied, and a validated value when it was. *)
Lemma construct_holds_scalar m kw c vals set n t p b :
  NoDup (name <$> fields m) →
  construct m kw = Ok (VModel c vals set) →
  F n (Scalar t) p b ∈ fields m →
  allow_none (F n (Scalar t) p b) = false →
  (kw !! n = None ∧ p ≠ Required ∧ vals !! n = Some (get_default (F n (Scalar t) p b)))
  ∨ (∃ x v, kw !! n = Some x ∧ validate_scalar t b x = inr v
            ∧ vals !! n = Some v ∧ stored_as t b v).
Proof.
  intros Hnd Hc Hf Hnone.
  pose proof (construct_holds m kw c vals set _ Hnd Hc Hf) as Hh.
  change (name (F n (Scalar t) p b)) with n in Hh.
  destruct (kw !! n) as [x|].
  2:{ left. destruct Hh as [Hr Hd]. split; [done|]. split; [|done].
      intros ->. discriminate Hr. }
  right. exists x.
  assert (Hx : x ≠ VNone).
  { intros ->. destruct Hh as [Ha _]. congruence. }
  assert (∃ v, validate_field (F n (Scalar t) p b) x = inr v ∧ vals !! n = Some v
               ∧ stored_in (F n (Scalar t) p b) v) as (v & Hv & Hl & Hs)
    by (by destruct x).
  exists v. split; [done|]. split; [|done].
  revert Hv. unfold validate_field, F. cbn [type_ bounds].
  destruct x; try done; (case_match; [done | by intros [= ->]]).
Qed.

End stored_scalars.

(** ** [Api.__init__] *)

Section init.
Context `{PyRuntime, Network, Imported}.

Lemma Api_model_NoDup : NoDup (name <$> fields Api.model).
Proof. by apply (bool_decide_unpack _). Qed.

(** X2.  Building a client from keywords either raises the [ValidationError] of the record,
    leaving the world as it was, or returns a client whose [headers] is a
    dict that did not exist before and holds the [SecretStr] and the content
    type, whatever [headers] the caller passed; nothing is logged or sent, no
    other dict is touched.  The key must have been supplied, a key given as a
    string is the client's key, and host and version fall back on the
    staging host and [v2]. *)
Theorem Api___init___contract data w :
  match Api.__init__ data w with
  | (Ok self, w') =>
      (headers self ∉ dom (dicts w))
      ∧ dicts w' = <[headers self := {[ "API-KEY" := VSecret (api_key self);
                                        "Content-Type" := VStr "application/json" ]}]>
                     (dicts w)
      ∧ Order_api w' = Order_api w ∧ log w' = log w ∧ calls w' = calls w
      ∧ is_Some (data !! "api_key")
      ∧ (∀ s, data !! "api_key" = Some (VStr s) → api_key self = s)
      ∧ (data !! "api_host" = None → api_host self = "https://stage-api.ioka.kz")
      ∧ (data !! "version" = None → version self = "v2")
  | (Raise e, w') =>
      w' = w ∧ ∃ errs, e = ValidationError "Api" errs
                       ∧ Exists (λ f, ¬ field_ok data f) (fields Api.model)
  end.
Proof.
  unfold Api.__init__.
  destruct (construct_cases Api.model data Api_model_NoDup
              (escapes_float_free Api.model data eq_refl))
    as [(vals & set & Hc & _) | (errs & Hc & _ & Hex)].
  2:{ unfold mbind, M_bind, lift. rewrite Hc. eauto. }
  assert (∃ host, vals !! "api_host" = Some (VStr host)
                  ∧ (data !! "api_host" = None → host = "https://stage-api.ioka.kz"))
    as (host & Hhost & Hhost').
  { destruct (construct_holds_scalar Api.model data _ vals set "api_host" THttpUrl
                (Default (VStr "https://stage-api.ioka.kz")) unbounded Api_model_NoDup Hc)
      as [(Hk & _ & Hv) | (x & v & Hk & _ & Hv & (s & u & -> & _))];
      [cbn; repeat first [by left | right] | done | |].
    - eexists. split; [exact Hv | done].
    - eexists. split; [exact Hv | congruence]. }
  assert (∃ key, vals !! "api_key" = Some (VSecret key)
                 ∧ is_Some (data !! "api_key")
                 ∧ (∀ s, data !! "api_key" = Some (VStr s) → key = s))
    as (key & Hkey & Hkey' & Hkey'').
  { destruct (construct_holds_scalar Api.model data _ vals set "api_key" TSecretStr
                Required unbounded Api_model_NoDup Hc)
      as [(_ & Hr & _) | (x & v & Hk & Hx & Hv & (s & ->))];
      [cbn; repeat first [by left | right] | done | done |].
    exists s. split; [done|]. split; [by rewrite Hk|].
    intros s' Hs'. rewrite Hs' in Hk. injection Hk as <-. by injection Hx as <-. }
  assert (∃ ver, vals !! "version" = Some (VStr ver)
                 ∧ (data !! "version" = None → ver = "v2"))
    as (ver & Hver & Hver').
  { destruct (construct_holds_scalar Api.model data _ vals set "version" TStr
                (Default (VStr "v2")) unbounded Api_model_NoDup Hc)
      as [(Hk & _ & Hv) | (x & v & Hk & _ & Hv & (s & -> & _))];
      [cbn; repeat first [by left | right] | done | |].
    - eexists. split; [exact Hv | done].
    - eexists. split; [exact Hv | congruence]. }
  unfold mbind, M_bind, lift. rewrite Hc. cbn [Api.model model_name].
  rewrite Hhost, Hkey, Hver. cbn.
  split_and!; try done. apply is_fresh.
Qed.

End init.

(** ** More of [Api._request] *)

Lemma __init___dicts `{PyRuntime} data w0 self w :
  Api.__init__ data w0 = (Ok self, w) →
  (headers self ∉ dom (dicts w0))
  ∧ dicts w = <[headers self := {[ "API-KEY" := VSecret (api_key self);
                                   "Content-Type" := VStr "application/json" ]}]>
                (dicts w0).
Proof.
  unfold Api.__init__, mbind, M_bind, lift.
  destruct (construct Api.model data) as [inst|e]; [|discriminate].
  destruct inst; try discriminate.
  destruct (values !! "api_host") as [[]|]; try discriminate.
  destruct (values !! "api_key") as [[]|]; try discriminate.
  destruct (values !! "version") as [[]|]; try discriminate.
  simpl. unfold mret, M_ret. intros [= <- <-]. simpl.
  split; [apply is_fresh | done].
Qed.

Section more_request.
Context `{PyRuntime, Network}.

(** X3.  Two clients built one after the other hold different headers
    dicts, so a request on the first, which writes its key into its own
    dict, leaves the dict of the second as [__init__] made it, with the
    [SecretStr] under [API-KEY]. *)
Theorem clients_hold_separate_headers d1 d2 w0 a w1 b w2 method url params pt rfs :
  Api.__init__ d1 w0 = (Ok a, w1) →
  Api.__init__ d2 w1 = (Ok b, w2) →
  let w3 := (Api._request a method url params pt None rfs w2).2 in
  (headers a ≠ headers b)
  ∧ (deref (headers a) w3 !! "API-KEY" = Some (VStr (api_key a)))
  ∧ deref (headers b) w3 = {[ "API-KEY" := VSecret (api_key b);
                              "Content-Type" := VStr "application/json" ]}.
Proof.
  intros Ha Hb w3.
  destruct (__init___dicts _ _ _ _ Ha) as [_ Hda].
  destruct (__init___dicts _ _ _ _ Hb) as [Hfb Hdb].
  assert (Hne : headers a ≠ headers b).
  { intros Heq. apply Hfb. rewrite <- Heq, Hda. set_solver. }
  split; [done|].
  assert (Hd3 : dicts w3 = <[headers a := <["API-KEY" := VStr (api_key a)]>
                                            (deref (headers a) w2)]> (dicts w2)).
  { unfold w3. by rewrite _request_dicts. }
  split.
  - unfold deref at 1. rewrite Hd3, lookup_insert_eq. simpl. by rewrite lookup_insert_eq.
  - unfold deref. rewrite Hd3, lookup_insert_ne by done.
    by rewrite Hdb, lookup_insert_eq.
Qed.

(** X4.  With a headers dict of the caller's that is not empty, [_request]
    works on that dict: it logs it as it is, writes the key into it, over
    any [API-KEY] it held, and sends it; every other dict, the one of the
    instance among them, is left as it was. *)
Theorem _request_writes_key_into_callers_headers self method url params pt l rfs w :
  deref l w ≠ ∅ →
  let w' := (Api._request self method url params pt (Some l) rfs w).2 in
  deref l w' = <["API-KEY" := VStr (api_key self)]> (deref l w)
  ∧ (∀ l', l' ≠ l → deref l' w' = deref l' w)
  ∧ (∃ rest, log w' = log w ++ LogRequest method (full_url self url) params pt
                                 (deref l w) rfs :: rest)
  ∧ (truthy params = None ∨ pt ∈ request_keywords →
     ∃ c, calls w' = calls w ++ [c]
          ∧ call_headers c = <["API-KEY" := VStr (api_key self)]> (deref l w)).
Proof.
  intros Hl w'.
  assert (Hch : chosen_headers self (Some l) w = l).
  { unfold chosen_headers. by rewrite decide_False. }
  assert (Hd : dicts w' = <[l := <["API-KEY" := VStr (api_key self)]> (deref l w)]>
                            (dicts w)).
  { unfold w'. by rewrite _request_dicts, Hch. }
  split; [|split; [|split]].
  - unfold deref at 1. by rewrite Hd, lookup_insert_eq.
  - intros l' Hl'. unfold deref. by rewrite Hd, lookup_insert_ne.
  - destruct (_request_log_head self method url params pt (Some l) rfs w) as [rest Hrest].
    rewrite Hch in Hrest. eauto.
  - intros Hkw. eexists. split; [by apply _request_calls|].
    unfold the_call. cbn [call_headers]. by rewrite Hch.
Qed.

(** X5.  A call of [_request] whose keywords [requests.request] takes makes
    exactly one call and never a second one.  When the transport answers,
    the log gains the request line and the response line, whatever the
    status and whether or not the call then raises; when the transport
    fails, its exception is the outcome and only the request line is
    logged.  The class attribute of [Order] is not touched. *)
Theorem _request_sends_once_and_logs self method url params pt ha rfs w :
  truthy params = None ∨ pt ∈ request_keywords →
  let c := the_call self method url params pt ha w in
  let out := Api._request self method url params pt ha rfs w in
  let line := LogRequest method (full_url self url) params pt
                (deref (chosen_headers self ha w) w) rfs in
  calls out.2 = calls w ++ [c]
  ∧ Order_api out.2 = Order_api w
  ∧ match network_answer (calls w) c with
    | Ok r => out.1 = settle rfs r ∧ log out.2 = log w ++ [line; LogResponse r]
    | Raise e => out.1 = Raise e ∧ log out.2 = log w ++ [line]
    end.
Proof.
  intros Hkw c out line. unfold out. rewrite _request_unfold. cbv zeta.
  fold c. destruct (truthy params) as [p|] eqn:Ep.
  - destruct Hkw as [? | Hkw]; [done|]. rewrite decide_True by done.
    destruct (network_answer (calls w) c) as [r|e]; cbn;
      rewrite <- ?(assoc_L (++)); done.
  - destruct (network_answer (calls w) c) as [r|e]; cbn;
      rewrite <- ?(assoc_L (++)); done.
Qed.

(** X6.  With [params] that are not empty and a [params_type] that
    [requests.request] does not take, the call raises a [TypeError] and
    nothing is sent; by then the request line is logged and the key is
    written into the headers dict. *)
Theorem _request_unexpected_keyword self method url params pt ha rfs w p :
  truthy params = Some p → pt ∉ request_keywords →
  let out := Api._request self method url params pt ha rfs w in
  (∃ msg, out.1 = Raise (TypeError msg))
  ∧ calls out.2 = calls w
  ∧ log out.2 = log w ++ [LogRequest method (full_url self url) params pt
                            (deref (chosen_headers self ha w) w) rfs]
  ∧ deref (chosen_headers self ha w) out.2 !! "API-KEY" = Some (VStr (api_key self)).
Proof.
  intros Hp Hpt out. unfold out. rewrite _request_unfold. cbv zeta.
  rewrite Hp, decide_False by done. cbn.
  split; [eauto|]. split; [done|]. split; [done|].
  unfold deref. cbn. rewrite lookup_insert_eq. cbn. by rewrite lookup_insert_eq.
Qed.

End more_request.

Lemma _request_writes_key_into_callers_headers_witness :
  let N := answers ok_response in
  let w := {| dicts := {[ 1%positive := {[ "API-KEY" := VSecret "secret" ]};
                          2%positive := {[ "API-KEY" := VStr "other";
                                           "Accept" := VStr "*/*" ]} ]};
              Order_api := None; log := []; calls := [] |} in
  let w' := (Api._request example_api "get" "orders" None "json"
               (Some 2%positive) true w).2 in
  deref 2%positive w ≠ ∅
  ∧ deref 2%positive w' !! "API-KEY" = Some (VStr "secret")
  ∧ deref 1%positive w' !! "API-KEY" = Some (VSecret "secret").
Proof.
  intros N w w'.
  assert (Hne : deref 2%positive w ≠ ∅).
  { intros Heq. assert (deref 2%positive w !! "Accept" = None) as Hl
      by (rewrite Heq; apply lookup_empty).
    vm_compute in Hl. discriminate Hl. }
  split; [exact Hne|].
  destruct (_request_writes_key_into_callers_headers
              example_api "get" "orders" None "json" 2%positive true w Hne)
    as (Hl & Hother & _).
  fold w' in Hl, Hother. split.
  - rewrite Hl. apply lookup_insert_eq.
  - rewrite (Hother 1%positive) by done. reflexivity.
Defined.

(** ** More of the facade *)

Section more_facade.
Context `{PyRuntime, Network, Imported}.

(** X7.  Before any client is bound to the [Order] class, each of the nine
    facade methods raises an [AttributeError] for the missing attribute
    [api]: the four class methods that of the class, the five methods of a
    record that of the record.  Nothing is validated, logged or sent. *)
Theorem facade_without_client_raises fc w :
  Order_api w = None →
  facade_call Order_class fc w
  = (Raise (AttributeError
              (if on_record fc then "'Order' object has no attribute 'api'"
               else "type object 'Order' has no attribute 'api'")), w).
Proof.
  intros Hw.
  assert (Hg : ∀ B (k : ApiObj → M B),
            (Order.get_api ≫= k) w
            = (Raise (AttributeError "type object 'Order' has no attribute 'api'"), w)).
  { intros B k. unfold mbind, M_bind, Order.get_api. by rewrite Hw. }
  assert (Hs : ∀ B (k : ApiObj → M B),
            (Order.self_api ≫= k) w
            = (Raise (AttributeError "'Order' object has no attribute 'api'"), w)).
  { intros B k. unfold mbind, M_bind, Order.self_api. by rewrite Hw. }
  destruct fc; cbn [facade_call on_record]; unfold mbind at 1, M_bind at 1.
  - unfold Order.create. by rewrite Hg.
  - unfold Order.cancel. by rewrite Hg.
  - unfold Order.list. by rewrite Hg.
  - unfold Order.retrieve. by rewrite Hg.
  - unfold Order.capture. by rewrite Hs.
  - unfold Order.get_events. by rewrite Hs.
  - unfold Order.refund. by rewrite Hs.
  - unfold Order.refund_list. by rewrite Hs.
  - unfold Order.refund_retrieve. by rewrite Hs.
Qed.

Lemma addresses_run {B} api op (m : M RequestResult) (k : RequestResult → M B) w :
  run api op = m → (∀ r, silent (k r)) →
  addresses api (lower_verb (table op).1) (table op).2 (m ≫= k) w.
Proof.
  intros <- Hk. destruct (sends_run api op w) as (cs & Hc & Hlen & HP & _).
  exists cs. by rewrite bind_world_silent.
Qed.

Lemma addresses_raise {A} api method path (e : Exception) w :
  addresses api method path (λ w, (@Raise A e, w)) w.
Proof. exists []. cbn. rewrite app_nil_r. split; [done|]. split; [lia | constructor]. Qed.

Lemma bound_order_id_keyword id data :
  bound_order_id [] (<["order_id" := id]> data) = id.
Proof. unfold bound_order_id, bind_order_id. by rewrite lookup_insert_eq. Qed.

Lemma with_order_id_cases id data :
  (data !! "order_id" = None ∧ Order.with_order_id id data = Ok (<["order_id" := id]> data))
  ∨ (is_Some (data !! "order_id") ∧ ∃ msg, Order.with_order_id id data = Raise (TypeError msg)).
Proof. unfold Order.with_order_id. destruct (data !! "order_id"); eauto. Qed.

Lemma capture_addresses api self id data w :
  Order_api w = Some api → Order.get_id self = Ok id →
  addresses api "post" ("orders/" +:+ format_value id +:+ "/capture")
            (Order.capture self data) w.
Proof.
  intros Hw Hid. unfold addresses, Order.capture.
  rewrite (self_api_bind _ api) by done. rewrite (bind_lift_Ok _ id) by done.
  destruct (with_order_id_cases id data) as [[_ Hk] | [_ [msg Hk]]].
  - rewrite (bind_lift_Ok _ _ _ _ Hk).
    pose proof (addresses_run api (CaptureOrderOp [] (<["order_id" := id]> data))
                  _ _ w eq_refl (silent_tail CaptureOrderResponse)) as Ha.
    cbn [table fst snd] in Ha. by rewrite bound_order_id_keyword in Ha.
  - rewrite Hk. apply (addresses_raise api).
Qed.

Lemma refund_addresses api self id data w :
  Order_api w = Some api → Order.get_id self = Ok id →
  addresses api "post" ("orders/" +:+ format_value id +:+ "/refunds")
            (Order.refund self data) w.
Proof.
  intros Hw Hid. unfold addresses, Order.refund.
  rewrite (self_api_bind _ api) by done. rewrite (bind_lift_Ok _ id) by done.
  destruct (with_order_id_cases id data) as [[_ Hk] | [_ [msg Hk]]].
  - rewrite (bind_lift_Ok _ _ _ _ Hk).
    pose proof (addresses_run api (RefundOrderOp [] (<["order_id" := id]> data))
                  _ _ w eq_refl (silent_tail Refund)) as Ha.
    cbn [table fst snd] in Ha. by rewrite bound_order_id_keyword in Ha.
  - rewrite Hk. apply (addresses_raise api).
Qed.

Lemma get_events_addresses api self id w :
  Order_api w = Some api → Order.get_id self = Ok id →
  addresses api "get" ("orders/" +:+ format_value id +:+ "/events")
            (Order.get_events self) w.
Proof.
  intros Hw Hid. unfold addresses, Order.get_events.
  rewrite (self_api_bind _ api) by done. rewrite (bind_lift_Ok _ id) by done.
  exact (addresses_run api (GetOrderEventsOp id) _ _ w eq_refl (silent_each Event)).
Qed.

Lemma refund_list_addresses api self id w :
  Order_api w = Some api → Order.get_id self = Ok id →
  addresses api "get" ("orders/" +:+ format_value id +:+ "/refunds")
            (Order.refund_list self) w.
Proof.
  intros Hw Hid. unfold addresses, Order.refund_list.
  rewrite (self_api_bind _ api) by done. rewrite (bind_lift_Ok _ id) by done.
  exact (addresses_run api (GetRefundsOp id) _ _ w eq_refl (silent_each Refund)).
Qed.

Lemma refund_retrieve_addresses api self id rid w :
  Order_api w = Some api → Order.get_id self = Ok id →
  addresses api "get"
            ("orders/" +:+ format_value id +:+ "/refunds/" +:+ format_value rid)
            (Order.refund_retrieve self rid) w.
Proof.
  intros Hw Hid. unfold addresses, Order.refund_retrieve.
  rewrite (self_api_bind _ api) by done. rewrite (bind_lift_Ok _ id) by done.
  exact (addresses_run api (GetRefundByIdOp id rid) _ _ w eq_refl (silent_tail Refund)).
Qed.

Lemma record_method_with_order_id_raises {B} api self id data
    (k : ApiObj → Kwargs → M B) w :
  Order_api w = Some api → Order.get_id self = Ok id → is_Some (data !! "order_id") →
  ∃ msg, (Order.self_api ≫= λ api, lift (Order.get_id self) ≫= λ id,
          lift (Order.with_order_id id data) ≫= k api) w
         = (Raise (TypeError msg), w).
Proof.
  intros Hw Hid Hd. rewrite (self_api_bind _ api) by done.
  rewrite (bind_lift_Ok _ id) by done.
  destruct (with_order_id_cases id data) as [[Hn _] | [_ [msg Hk]]].
  - rewrite Hn in Hd. by destruct Hd.
  - exists msg. unfold mbind, M_bind, lift. by rewrite Hk.
Qed.

(** X8.  The methods of an [Order] record address that record's order: with
    a client bound and [self.id] readable, whatever the keywords, each makes
    at most one call, with the verb and to the path of the operation under
    [orders/{self.id}], and with the key of the bound client.  Keywords that
    hold an [order_id] of their own make [capture] and [refund] raise a
    [TypeError] before anything is validated or sent. *)
Theorem record_methods_address_their_own_order api self id data rid w :
  Order_api w = Some api → Order.get_id self = Ok id →
  let under p := ("orders/" +:+ format_value id +:+ p)%string in
  addresses api "post" (under "/capture") (Order.capture self data) w
  ∧ addresses api "post" (under "/refunds") (Order.refund self data) w
  ∧ addresses api "get" (under "/events") (Order.get_events self) w
  ∧ addresses api "get" (under "/refunds") (Order.refund_list self) w
  ∧ addresses api "get" (under ("/refunds/" +:+ format_value rid))
              (Order.refund_retrieve self rid) w
  ∧ (is_Some (data !! "order_id") →
     (∃ msg, Order.capture self data w = (Raise (TypeError msg), w))
     ∧ (∃ msg, Order.refund self data w = (Raise (TypeError msg), w))).
Proof.
  intros Hw Hid under.
  split; [by apply capture_addresses|]. split; [by apply refund_addresses|].
  split; [by apply get_events_addresses|]. split; [by apply refund_list_addresses|].
  split; [by apply refund_retrieve_addresses|].
  intros Hd. split.
  - unfold Order.capture.
    exact (record_method_with_order_id_raises api self id data _ w Hw Hid Hd).
  - unfold Order.refund.
    exact (record_method_with_order_id_raises api self id data _ w Hw Hid Hd).
Qed.

(** X9.  [capture_order] and [refund_order] take the order id as a
    positional argument or as the keyword [order_id], with the same outcome;
    with neither, or with both, they raise a [TypeError] before anything is
    validated or sent. *)
Theorem order_id_positional_or_keyword self v kw w :
  kw !! "order_id" = None →
  Api.capture_order self [v] kw w = Api.capture_order self [] (<["order_id" := v]> kw) w
  ∧ Api.refund_order self [v] kw w = Api.refund_order self [] (<["order_id" := v]> kw) w
  ∧ (∃ msg, Api.capture_order self [] kw w = (Raise (TypeError msg), w))
  ∧ (∃ msg, Api.refund_order self [] kw w = (Raise (TypeError msg), w))
  ∧ (∀ v', ∃ msg, Api.capture_order self [v'] (<["order_id" := v]> kw) w
                  = (Raise (TypeError msg), w))
  ∧ (∀ v', ∃ msg, Api.refund_order self [v'] (<["order_id" := v]> kw) w
                  = (Raise (TypeError msg), w)).
Proof.
  intros Hkw.
  assert (Hpos : bind_order_id [v] kw = Ok (v, kw)).
  { unfold bind_order_id. by rewrite Hkw. }
  assert (Hkey : bind_order_id [] (<["order_id" := v]> kw) = Ok (v, kw)).
  { unfold bind_order_id. rewrite lookup_insert_eq. by rewrite delete_insert_id. }
  assert (Hnone : ∃ msg, bind_order_id [] kw = Raise (TypeError msg)).
  { unfold bind_order_id. rewrite Hkw. eauto. }
  assert (Hboth : ∀ v', ∃ msg, bind_order_id [v'] (<["order_id" := v]> kw)
                               = Raise (TypeError msg)).
  { intros v'. unfold bind_order_id. rewrite lookup_insert_eq. eauto. }
  unfold Api.capture_order, Api.refund_order.
  split; [by rewrite !(bind_lift_Ok _ (v, kw))|].
  split; [by rewrite !(bind_lift_Ok _ (v, kw))|].
  destruct Hnone as [msg Hnone].
  split; [exists msg; unfold mbind, M_bind, lift; by rewrite Hnone|].
  split; [exists msg; unfold mbind, M_bind, lift; by rewrite Hnone|].
  split; intros v'; destruct (Hboth v') as [msg' Hb]; exists msg';
    unfold mbind, M_bind, lift; by rewrite Hb.
Qed.

End more_facade.

Lemma facade_without_client_raises_witness :
  let R := example_runtime in
  let N := answers ok_response in
  let I := example_import in
  Order_api empty_world = None
  ∧ (facade_call Order_class (DoRetrieve (VStr "1")) empty_world).1
    = Raise (AttributeError "type object 'Order' has no attribute 'api'")
  ∧ (facade_call Order_class (DoGetEvents example_order) empty_world).1
    = Raise (AttributeError "'Order' object has no attribute 'api'").
Proof.
  intros R N I. split; [reflexivity|]. split.
  - by rewrite (facade_without_client_raises (DoRetrieve (VStr "1")) empty_world eq_refl).
  - by rewrite (facade_without_client_raises (DoGetEvents example_order) empty_world eq_refl).
Defined.

Lemma record_methods_address_their_own_order_witness :
  let R := example_runtime in
  let N := answers ok_response in
  let I := example_import in
  let w := {| dicts := ∅; Order_api := Some example_api; log := []; calls := [] |} in
  let data : Kwargs := {[ "amount" := VInt 500; "order_id" := VStr "2" ]} in
  Order_api w = Some example_api
  ∧ Order.get_id example_order = Ok (VStr "1")
  ∧ addresses example_api "post" "orders/1/capture" (Order.capture example_order data) w
  ∧ ∃ msg, Order.capture example_order data w = (Raise (TypeError msg), w).
Proof.
  intros R N I w data.
  destruct (record_methods_address_their_own_order
              example_api example_order (VStr "1") data VNone w eq_refl eq_refl)
    as (Hc & _ & _ & _ & _ & Hr).
  split; [reflexivity|]. split; [reflexivity|]. split; [exact Hc|].
  apply Hr. by eexists.
Defined.

Lemma order_id_positional_or_keyword_witness :
  let R := example_runtime in
  let N := answers ok_response in
  let I := example_import in
  let kw : Kwargs := {[ "amount" := VInt 500 ]} in
  kw !! "order_id" = None
  ∧ Api.capture_order example_api [VStr "7"] kw empty_world
    = Api.capture_order example_api [] (<["order_id" := VStr "7"]> kw) empty_world.
Proof.
  intros R N I kw. split; [reflexivity|].
  exact (proj1 (order_id_positional_or_keyword example_api (VStr "7") kw empty_world
                  eq_refl)).
Defined.

(** ** More of validation *)

Section more_validation.
Context `{PyRuntime}.

Lemma validate_fields_insert_other {T} (vf : Field T → PyVal → ErrorList + PyVal)
    fs kw k v :
  k ∉ name <$> fs →
  validate_fields vf fs (<[k := v]> kw) = validate_fields vf fs kw.
Proof.
  unfold validate_fields.
  generalize ({| acc_values := ∅; acc_fields_set := ∅; acc_errors := [] |}).
  induction fs as [|f fs IH]; intros acc Hk; [done|].
  rewrite fmap_cons, not_elem_of_cons in Hk. destruct Hk as [Hne Hk].
  cbn [foldl]. rewrite IH by done. f_equal.
  unfold validate_step. by rewrite lookup_insert_ne.
Qed.

Lemma escapes_insert_other m kw k v :
  k ∉ name <$> fields m → escapes m (<[k := v]> kw) = escapes m kw.
Proof.
  unfold escapes. induction (fields m) as [|f fs IH]; [done|].
  rewrite fmap_cons, not_elem_of_cons. intros [Hne Hk].
  cbn [existsb]. by rewrite IH, lookup_insert_ne.
Qed.

Lemma construct_insert_other m kw k v :
  k ∉ name <$> fields m → construct m (<[k := v]> kw) = construct m kw.
Proof.
  intros Hk. unfold construct, construct_with.
  by rewrite escapes_insert_other, validate_fields_insert_other.
Qed.

Lemma field_errors_located {T} (vf : Field T → PyVal → ErrorList + PyVal) kw f e :
  e ∈ field_errors vf kw f → ∃ rest, e.1 = LField (name f) :: rest.
Proof.
  unfold field_errors. destruct (kw !! name f) as [x|].
  - destruct (vf f x) as [errs|]; [|by intros ?%elem_of_nil].
    unfold at_loc. intros Hin. apply list_elem_of_In, in_map_iff in Hin
      as (e0 & <- & _). eauto.
  - destruct (required f); [|by intros ?%elem_of_nil].
    intros ->%list_elem_of_singleton. eauto.
Qed.

Lemma construct_errors m kw e :
  float_free m = true →
  construct m kw = Raise e →
  e = ValidationError (model_name m) (concat (field_errors validate_field kw <$> fields m))
  ∧ concat (field_errors validate_field kw <$> fields m) ≠ [].
Proof.
  intros Hfree. rewrite construct_float_free by done.
  unfold construct_with. rewrite validate_fields_errors.
  destruct (concat _); [done | by intros [= <-]].
Qed.

(** X11.  For a record that declares no float, as the request records,
    [Order], [Event] and [Refund] do not: when building the record raises,
    the exception is the record's [ValidationError]; it reports every
    declared field that is not satisfied, under the name of the field, and
    reports nothing else.  The two records that declare one,
    [CancelOrderResponse] and [CaptureOrderResponse], raise an
    [OverflowError] instead when [processing_fee] is an int beyond the range
    of a double, whatever the other keywords are. *)
Theorem ValidationError_reports_all_failing_fields :
  (∀ m kw e,
     float_free m = true →
     construct m kw = Raise e →
     ∃ errs, e = ValidationError (model_name m) errs
       ∧ errs ≠ []
       ∧ (∀ f, f ∈ fields m → ¬ field_ok kw f →
            ∃ rest kind, (LField (name f) :: rest, kind) ∈ errs)
       ∧ (∀ loc kind, (loc, kind) ∈ errs →
            ∃ f rest, f ∈ fields m ∧ ¬ field_ok kw f ∧ loc = LField (name f) :: rest))
  ∧ (∀ m kw z,
       m = CancelOrderResponse ∨ m = CaptureOrderResponse →
       kw !! "processing_fee" = Some (VInt z) →
       float_overflows z = true →
       construct m kw = Raise (OverflowError "int too large to convert to float")).
Proof.
  split.
  - intros m kw e Hfree [-> Hne]%construct_errors; [|done].
    eexists. split; [done|]. split; [done|].
    split.
    + intros f Hf Hnok.
      assert (field_errors validate_field kw f ≠ []) as Hfe.
      { intros Hnil. apply Hnok, field_ok_passes.
        by apply (field_errors_nil _ _ _ validate_field_reports). }
      destruct (field_errors validate_field kw f) as [|[loc kind] l] eqn:E; [done|].
      destruct (field_errors_located validate_field kw f (loc, kind)) as [rest Hrest].
      { rewrite E. by left. }
      cbn in Hrest. subst loc. exists rest, kind.
      apply list_elem_of_In, in_concat. exists (field_errors validate_field kw f).
      split; [|rewrite E; by left].
      apply list_elem_of_In. by apply list_elem_of_fmap_2.
    + intros loc kind Hin. apply list_elem_of_In, in_concat in Hin as (l & Hl & Hin).
      apply list_elem_of_In, list_elem_of_fmap in Hl as (f & -> & Hf).
      apply list_elem_of_In in Hin.
      destruct (field_errors_located _ _ _ _ Hin) as [rest Hrest]. cbn in Hrest.
      exists f, rest. split; [done|]. split; [|done].
      intros Hok%field_ok_passes.
      apply (field_errors_nil _ _ _ validate_field_reports) in Hok.
      rewrite Hok in Hin. by apply elem_of_nil in Hin.
  - intros m kw z Hm Hkw Hz.
    assert (Hesc : escapes m kw = true).
    { apply existsb_exists. exists (F "processing_fee" (Scalar TFloat) Required unbounded).
      split; [destruct Hm as [-> | ->]; cbn; tauto|].
      change (name (F "processing_fee" (Scalar TFloat) Required unbounded))
        with "processing_fee".
      by rewrite Hkw. }
    unfold construct. by rewrite Hesc.
Qed.

(** X12.  The comprehension that builds a record from each item of an
    answer gives all or nothing: either a record for every item, in the order
    of the items, or the exception of the first item that cannot be unpacked
    or validated. *)
Theorem construct_each_all_or_nothing m xs :
  match construct_each m xs with
  | Ok insts => Forall2 (builds m) xs insts
  | Raise e =>
      ∃ i x, xs !! i = Some x ∧ fails_with m x e
             ∧ ∃ insts, Forall2 (builds m) (take i xs) insts
  end.
Proof.
  induction xs as [|x xs IH]; cbn [construct_each]; [constructor|].
  destruct (unpack x) as [kw|e] eqn:Eu.
  2:{ exists 0%nat, x. split; [done|]. split; [by left|]. exists []. constructor. }
  destruct (construct m kw) as [inst|e] eqn:Ec.
  2:{ exists 0%nat, x. split; [done|]. split; [right; eauto|]. exists []. constructor. }
  assert (Hx : builds m x inst) by (exists kw; eauto).
  destruct (construct_each m xs) as [insts|e].
  - by constructor.
  - destruct IH as (i & y & Hy & Hfail & insts & Hb).
    exists (S i), y. split; [done|]. split; [done|].
    exists (inst :: insts). by constructor.
Qed.

End more_validation.

Section records_hold.
Context `{PyRuntime, Network, Imported}.

Lemma response_records_NoDup :
  Forall (λ m, NoDup (name <$> fields m)) response_records.
Proof. repeat constructor; by apply (bool_decide_unpack _). Qed.

(** X1.  A record of the library that was built holds, under the name of
    each declared field, the declared default when the field was not
    supplied, and otherwise the validated value: [None] where the field
    takes it, or a value of the declared type within the declared bounds (an
    [int] at least [ge] and at most [le], a string of a length between
    [min_length] and [max_length], a member of the enum, a record of the
    nested class).  It is a record of the class that was called. *)
Theorem built_records_hold_declared_values :
  Forall (λ m, ∀ kw c vals set,
    construct m kw = Ok (VModel c vals set) →
    c = model_name m
    ∧ ∀ f, f ∈ fields m → field_holds f (kw !! name f) (vals !! name f))
    (request_records ++ response_records).
Proof.
  apply Forall_app. split.
  - eapply Forall_impl; [apply request_records_NoDup|].
    intros m Hnd kw c vals set Hc. split.
    + revert Hc. unfold construct, construct_with.
      destruct (escapes m kw); [done|].
      destruct (acc_errors _); [by intros [= <- _ _] | done].
    + intros f Hf. exact (construct_holds m kw c vals set f Hnd Hc Hf).
  - eapply Forall_impl; [apply response_records_NoDup|].
    intros m Hnd kw c vals set Hc. split.
    + revert Hc. unfold construct, construct_with.
      destruct (escapes m kw); [done|].
      destruct (acc_errors _); [by intros [= <- _ _] | done].
    + intros f Hf. exact (construct_holds m kw c vals set f Hnd Hc Hf).
Qed.

(** X10.  A keyword that names no declared field is ignored: the record
    that is built, or the exception that is raised, is the same with it and
    without it.  So [create_order], and [capture_order] for a keyword other
    than [order_id], do the same with and without such a keyword: it never
    reaches the payload.  The names that Python binds itself, [self] of the
    methods and the first parameter of the record classes, are left aside. *)
Theorem unknown_keywords_are_ignored (k : string) (v : PyVal) (kw : Kwargs) :
  k ≠ "__pydantic_self__" → k ≠ "self" →
  (∀ m, k ∉ name <$> fields m → construct m (<[k := v]> kw) = construct m kw)
  ∧ (k ∉ name <$> fields CreateOrder →
     ∀ self w, Api.create_order self (<[k := v]> kw) w = Api.create_order self kw w)
  ∧ (k ∉ name <$> fields CaptureOrder → k ≠ "order_id" →
     ∀ self pos w,
       Api.capture_order self pos (<[k := v]> kw) w = Api.capture_order self pos kw w).
Proof.
  intros _ _. split; [intros m Hk; by apply construct_insert_other|]. split.
  - intros Hk self w. unfold Api.create_order. by rewrite construct_insert_other.
  - intros Hk Hne self pos w. unfold Api.capture_order, bind_order_id.
    rewrite lookup_insert_ne by done.
    destruct pos as [|x [|y pos]]; [| |done].
    + destruct (kw !! "order_id") as [oid|]; [|done].
      rewrite delete_insert_ne by done.
      unfold mbind at 1 3, M_bind at 1 3, lift at 1 3. cbn.
      by rewrite construct_insert_other.
    + destruct (kw !! "order_id") as [oid|]; [done|].
      unfold mbind at 1 3, M_bind at 1 3, lift at 1 3. cbn.
      by rewrite construct_insert_other.
Qed.

End records_hold.

Lemma built_records_hold_declared_values_witness :
  let R := example_runtime in
  let N := answers ok_response in
  let I := example_import in
  let kw : Kwargs := {[ "amount" := VStr "250"; "reason" := VNone ]} in
  ∃ vals set,
    construct CaptureOrder kw = Ok (VModel "CaptureOrder" vals set)
    ∧ field_holds (F "amount" (Scalar TInt) Required (at_least 100))
                  (Some (VStr "250")) (vals !! "amount")
    ∧ vals !! "amount" = Some (VInt 250).
Proof.
  intros R N I kw. eexists _, _. split; [by_evaluation|].
  pose proof built_records_hold_declared_values as Hall.
  apply Forall_app in Hall as [Hreq _].
  apply Forall_cons in Hreq as [_ Hreq]. apply Forall_cons in Hreq as [_ Hreq].
  apply Forall_cons in Hreq as [Hcap _].
  split; [|reflexivity].
  refine (proj2 (Hcap kw _ _ _ _) (F "amount" (Scalar TInt) Required (at_least 100)) _).
  - by_evaluation.
  - cbn. by left.
Defined.

Lemma ValidationError_reports_all_failing_fields_witness :
  let R := example_runtime in
  let I := example_import in
  let kw : Kwargs := {[ "amount" := VInt 5; "attempts" := VInt 0 ]} in
  let fee : Kwargs := {[ "id" := VStr "7"; "processing_fee" := VInt (2 ^ 1024) ]} in
  Forall (λ m, float_free m = true) (request_records ++ [Order.model; Event; Refund])
  ∧ (∃ e, construct CreateOrder kw = Raise e
          ∧ ∃ errs, e = ValidationError "CreateOrder" errs ∧ errs ≠ [])
  ∧ fee !! "processing_fee" = Some (VInt (2 ^ 1024))
  ∧ float_overflows (2 ^ 1024) = true
  ∧ construct CaptureOrderResponse fee
    = Raise (OverflowError "int too large to convert to float").
Proof.
  intros R I kw fee.
  destruct ValidationError_reports_all_failing_fields as [Hfree Hfloat].
  split; [repeat constructor|]. split.
  { eexists. split; [by_evaluation|].
    destruct (Hfree CreateOrder kw _ eq_refl eq_refl) as (errs & He & Hne & _).
    exists errs. split; [exact He | exact Hne]. }
  split; [reflexivity|]. split; [reflexivity|].
  exact (Hfloat CaptureOrderResponse fee (2 ^ 1024) (or_intror eq_refl) eq_refl eq_refl).
Defined.

(** ** What the facade returns *)

Section facade_results.
Context `{PyRuntime, Network, Imported}.

Lemma bind_lift2_fst {A B C} (m : M A) (k1 : A → Result B) (k2 : B → Result C) w :
  ((m ≫= λ a, lift (k1 a) ≫= λ b, lift (k2 b)) w).1
  = and_then (m w).1 (λ a, and_then (k1 a) k2).
Proof.
  unfold mbind, M_bind, lift. destruct (m w) as [[a|e] w']; [|done].
  cbn. by destruct (k1 a).
Qed.

Lemma bind_lift3_fst {A B C D} (m : M A) (k1 : A → Result B) (k2 : B → Result C)
    (k3 : C → Result D) w :
  ((m ≫= λ a, lift (k1 a) ≫= λ b, lift (k2 b) ≫= λ c, lift (k3 c)) w).1
  = and_then (m w).1 (λ a, and_then (k1 a) (λ b, and_then (k2 b) k3)).
Proof.
  unfold mbind, M_bind, lift. destruct (m w) as [[a|e] w']; [|done].
  cbn. destruct (k1 a) as [b|]; [|done]. cbn. by destruct (k2 b).
Qed.

Lemma result_get_absent kvs key :
  Forall (λ kv, kv.1 ≠ VStr key) kvs → result_get (Parsed (VDict kvs)) key = Ok VNone.
Proof.
  intros Hk. cbn. f_equal.
  assert (List.find (λ kv : PyVal * PyVal,
                       match kv.1 with
                       | VStr k => bool_decide (k = key)
                       | _ => false
                       end) kvs = None) as ->; [|done].
  induction Hk as [|[k v] kvs Hkv _ IH]; [done|]. cbn in *.
  destruct k; try done. rewrite bool_decide_eq_false_2; [done | congruence].
Qed.

(** X13.  [Order.list], with a client bound and an answer to its one call:
    a status from 400 to 599 raises the [HTTPError] and builds nothing; a body
    that is not JSON raises the decoding error; a JSON list gives the records
    built from its items, all or nothing; and a JSON object that is not
    empty, whose iteration yields its keys, raises a [TypeError], since a
    string cannot be unpacked as keywords. *)
Theorem Order_list_returns_the_records_of_the_answer api cls w r :
  Order_api w = Some api →
  network_answer (calls w) (the_call api "get" "orders" None "json" None w) = Ok r →
  (400 ≤ status_code r < 600 → (Order.list cls w).1 = Raise (HTTPError r))
  ∧ (¬ 400 ≤ status_code r < 600 →
     match json r with
     | None => (Order.list cls w).1 = Raise JSONDecodeError
     | Some (VList l) => (Order.list cls w).1 = construct_each Order.model l
     | Some (VDict ((VStr k, v) :: kvs)) => ∃ msg, (Order.list cls w).1 = Raise (TypeError msg)
     | Some (VDict []) => (Order.list cls w).1 = Ok []
     | Some _ => True
     end).
Proof.
  intros Hw Hr.
  assert (Hl : (Order.list cls w).1
               = and_then (settle true r)
                   (λ res, and_then (iterate res) (construct_each Order.model))).
  { unfold Order.list. rewrite (get_api_bind _ api) by done.
    rewrite bind_lift2_fst. unfold Api.get_orders.
    by rewrite (_request_result api "get" "orders" None "json" None true w r
                  (or_introl eq_refl) Hr). }
  rewrite Hl. unfold settle. split.
  - intros [?%Z.leb_le ?%Z.ltb_lt]. by rewrite andb_true_intro.
  - intros Hs.
    assert ((400 <=? status_code r) && (status_code r <? 600) = false) as ->.
    { destruct (Z.leb_spec 400 (status_code r)), (Z.ltb_spec (status_code r) 600);
        cbn; try done; lia. }
    destruct (json r) as [j|]; [|done].
    destruct j as [| | | | |l|[|[[] v] kvs]| | |]; try done.
    cbn. eauto.
Qed.

Lemma create_calls api cls data inst w :
  Order_api w = Some api →
  construct CreateOrder data = Ok inst →
  calls (Order.create cls data w).2
  = calls w ++ [the_call api "post" "orders" (Some (dict_exclude_unset inst)) "json" None w].
Proof.
  intros Hw Hc. unfold Order.create. rewrite (get_api_bind _ api) by done.
  rewrite bind_world_silent by (intros; apply silent_create).
  unfold Api.create_order. rewrite (bind_lift_Ok _ inst) by done.
  apply _request_calls. right. apply json_is_request_keyword.
Qed.

Lemma create_result api cls data inst w r :
  Order_api w = Some api →
  construct CreateOrder data = Ok inst →
  network_answer (calls w)
    (the_call api "post" "orders" (Some (dict_exclude_unset inst)) "json" None w) = Ok r →
  (Order.create cls data w).1
  = and_then (settle true r)
      (λ res, and_then (result_get res "order")
                (λ order, and_then (unpack order) (construct Order.model))).
Proof.
  intros Hw Hc Hr. unfold Order.create. rewrite (get_api_bind _ api) by done.
  rewrite bind_lift3_fst. unfold Api.create_order.
  rewrite (bind_lift_Ok _ inst) by done.
  by rewrite (_request_result api "post" "orders" (Some (dict_exclude_unset inst))
                "json" None true w r (or_intror json_is_request_keyword) Hr).
Qed.

(** X14.  [Order.create], with a client bound, keywords that validate and an
    answer with a status outside 400 to 599: the record is built from the
    object under [order] of the JSON answer; an answer with no [order] key
    raises a [TypeError], [None] being no mapping, and an answer that is a
    JSON list raises an [AttributeError], a list having no [get].  In each
    case the call has been made. *)
Theorem Order_create_reads_the_order_of_the_answer api cls data inst w r :
  Order_api w = Some api →
  construct CreateOrder data = Ok inst →
  network_answer (calls w)
    (the_call api "post" "orders" (Some (dict_exclude_unset inst)) "json" None w) = Ok r →
  ¬ 400 ≤ status_code r < 600 →
  (∃ c, calls (Order.create cls data w).2 = calls w ++ [c])
  ∧ match json r with
    | Some (VDict kvs) =>
        (Order.create cls data w).1
        = and_then (result_get (Parsed (VDict kvs)) "order")
            (λ order, and_then (unpack order) (construct Order.model))
        ∧ (Forall (λ kv, kv.1 ≠ VStr "order") kvs →
           ∃ msg, (Order.create cls data w).1 = Raise (TypeError msg))
    | Some (VList _) => ∃ msg, (Order.create cls data w).1 = Raise (AttributeError msg)
    | _ => True
    end.
Proof.
  intros Hw Hc Hr Hs.
  split; [eexists; by eapply create_calls|].
  rewrite (create_result api cls data inst w r Hw Hc Hr). unfold settle.
  assert ((400 <=? status_code r) && (status_code r <? 600) = false) as ->.
  { destruct (Z.leb_spec 400 (status_code r)), (Z.ltb_spec (status_code r) 600);
      cbn; try done; lia. }
  destruct (json r) as [j|]; [|done].
  destruct j as [| | | | |l|kvs| | |]; try done.
  - cbn. eauto.
  - split; [done|]. intros Habs. cbn [and_then].
    rewrite (result_get_absent kvs "order" Habs). cbn. eauto.
Qed.

End facade_results.

Lemma clients_hold_separate_headers_witness :
  let R := example_runtime in
  let N := answers ok_response in
  ∃ a w1 b w2,
    Api.__init__ {[ "api_key" := VStr "key-A" ]} empty_world = (Ok a, w1)
    ∧ Api.__init__ {[ "api_key" := VStr "key-B" ]} w1 = (Ok b, w2)
    ∧ headers a ≠ headers b
    ∧ deref (headers b) (Api._request a "get" "orders" None "json" None true w2).2
      = {[ "API-KEY" := VSecret (api_key b); "Content-Type" := VStr "application/json" ]}.
Proof.
  intros R N.
  destruct (Api.__init__ {[ "api_key" := VStr "key-A" ]} empty_world) as [[a|e] w1] eqn:Ha;
    [|vm_compute in Ha; discriminate Ha].
  destruct (Api.__init__ {[ "api_key" := VStr "key-B" ]} w1) as [[b|e] w2] eqn:Hb.
  - exists a, w1, b, w2. split; [reflexivity|]. split; [exact Hb|].
    destruct (clients_hold_separate_headers _ _ _ _ _ _ _ "get" "orders" None "json" true
                Ha Hb) as (Hne & _ & Hd).
    split; [exact Hne | exact Hd].
  - exfalso. vm_compute in Ha. injection Ha as <- <-. vm_compute in Hb. discriminate Hb.
Defined.

Lemma _request_sends_once_and_logs_witness :
  let N := answers ok_response in
  (truthy None = None ∨ "json" ∈ request_keywords)
  ∧ ∃ c, calls (Api._request example_api "get" "orders" None "json" None true
                  empty_world).2 = [c].
Proof.
  intros N. split; [by left|]. eexists.
  exact (proj1 (_request_sends_once_and_logs example_api "get" "orders" None "json"
                  None true empty_world (or_introl eq_refl))).
Defined.

Lemma _request_unexpected_keyword_witness :
  let N := answers ok_response in
  let p : Kwargs := {[ "amount" := VInt 100 ]} in
  truthy (Some p) = Some p
  ∧ ("body" ∉ request_keywords)
  ∧ calls (Api._request example_api "post" "orders" (Some p) "body" None true
             empty_world).2 = [].
Proof.
  intros N p.
  assert (Ht : truthy (Some p) = Some p) by reflexivity.
  assert (Hb : "body" ∉ request_keywords) by (by apply (bool_decide_unpack _)).
  split; [exact Ht|]. split; [exact Hb|].
  destruct (_request_unexpected_keyword example_api "post" "orders" (Some p) "body"
              None true empty_world p Ht Hb) as (_ & Hc & _).
  exact Hc.
Defined.

Lemma Order_list_returns_the_records_of_the_answer_witness :
  let R := example_runtime in
  let N := answers {| status_code := 200; text := "[]"; json := Some (VList []) |} in
  let I := example_import in
  let w := {| dicts := ∅; Order_api := Some example_api; log := []; calls := [] |} in
  Order_api w = Some example_api
  ∧ (Order.list Order_class w).1 = Ok [].
Proof.
  intros R N I w. split; [reflexivity|].
  refine (proj2 (Order_list_returns_the_records_of_the_answer example_api Order_class w
                   {| status_code := 200; text := "[]"; json := Some (VList []) |}
                   eq_refl eq_refl) _).
  cbn. lia.
Defined.

Lemma Order_create_reads_the_order_of_the_answer_witness :
  let R := example_runtime in
  let N := answers ok_response in
  let I := example_import in
  let w := {| dicts := ∅; Order_api := Some example_api; log := []; calls := [] |} in
  let data : Kwargs := {[ "amount" := VInt 100 ]} in
  (∃ inst, construct CreateOrder data = Ok inst)
  ∧ (∃ c, calls (Order.create Order_class data w).2 = [c])
  ∧ ∃ msg, (Order.create Order_class data w).1 = Raise (TypeError msg).
Proof.
  intros R N I w data.
  assert (Hn : ∀ c, network_answer (calls w) c = Ok ok_response) by reflexivity.
  destruct (construct CreateOrder data) as [inst|e] eqn:Hc;
    [|vm_compute in Hc; discriminate Hc].
  split; [by exists inst|].
  assert (Hs : ¬ 400 ≤ status_code ok_response < 600) by (cbn; lia).
  destruct (Order_create_reads_the_order_of_the_answer example_api Order_class data inst w
              ok_response eq_refl Hc (Hn _) Hs) as (Hcalls & _ & Habs).
  split; [exact Hcalls|]. apply Habs. constructor.
Defined.

(** ** More of [ISODatetime.validate] *)

Section more_ISODatetime.
#[local] Open Scope N_scope.
Context `{PyRuntime}.

Lemma chars_append s1 s2 : chars (s1 +:+ s2) = chars s1 ++ chars s2.
Proof. unfold chars. induction s1 as [|c s1 IH]; simpl; [done | by f_equal]. Qed.

Lemma replace_Z_isoformat dt :
  datetime.wf dt = true → datetime.tzinfo dt = None →
  ISODatetime.replace_Z (datetime.isoformat dt) = datetime.isoformat dt.
Proof.
  intros Hwf Htz. destruct (isoformat_naive dt Hwf Htz) as (frac & -> & Hfrac & _).
  unfold ISODatetime.replace_Z. rewrite chars_str_of. f_equal.
  rewrite <- (app_nil_r frac).
  repeat first
    [ rewrite filter_Z_plain by first [apply Forall_plain_fixed_digits | done]
    | rewrite filter_cons_True by done ].
  by rewrite filter_nil.
Qed.

Lemma validate_naive dt :
  reads_documented_format →
  datetime.wf dt = true →
  ISODatetime.validate (VStr (datetime.isoformat (datetime.replace_tzinfo dt None)))
  = Ok (datetime.isoformat (datetime.replace_tzinfo dt None)).
Proof.
  intros Hdoc Hwf. cbn [ISODatetime.validate].
  rewrite replace_Z_isoformat by (by try apply wf_replace_tzinfo).
  by rewrite fromisoformat_isoformat by (by try apply wf_replace_tzinfo).
Qed.

(** X15.  Validation is idempotent: what [ISODatetime.validate] returns, it
    accepts and returns unchanged, on every Python that reads the documented
    format. *)
Theorem validate_is_idempotent v r :
  reads_documented_format →
  (∀ dt, v = VDatetime dt → datetime.wf dt = true) →
  ISODatetime.validate v = Ok r → ISODatetime.validate (VStr r) = Ok r.
Proof.
  intros Hdoc Hwf. destruct v; try done.
  - cbn [ISODatetime.validate].
    destruct (datetime_fromisoformat _) as [p|] eqn:Hp; [|done].
    intros [= <-]. apply validate_naive; [done|]. by eapply fromisoformat_wf.
  - intros [= <-]. apply validate_naive; [done|]. by apply Hwf.
Qed.

(** X16.  A [Z] counts for nothing wherever it stands: a string is accepted
    with it exactly when it is accepted without it, with the same result. *)
Theorem validate_ignores_every_Z s1 s2 :
  ISODatetime.validate (VStr (s1 +:+ "Z" +:+ s2)) = ISODatetime.validate (VStr (s1 +:+ s2)).
Proof.
  cbn [ISODatetime.validate]. unfold ISODatetime.replace_Z.
  rewrite !chars_append, !filter_app. cbn [chars list_ascii_of_string app].
  by rewrite filter_cons_False by (intros Hn; by apply Hn).
Qed.

(** X17.  A date alone is accepted and stands for its midnight: the result
    is the date followed by [T00:00:00], on every Python that reads the
    documented format. *)
Theorem validate_date_alone y m d :
  reads_documented_format →
  datetime._check_date_fields y m d = true →
  let date := fixed_digits 4 y ++ "-"%char :: fixed_digits 2 m ++ "-"%char
              :: fixed_digits 2 d in
  ISODatetime.validate (VStr (str_of date)) = Ok (str_of (date ++ chars "T00:00:00")).
Proof.
  intros Hdoc Hd date. pose proof Hd as Hd'.
  unfold datetime._check_date_fields in Hd'.
  rewrite !andb_true_iff, !N.leb_le in Hd'. destruct_and!.
  pose proof (_days_in_month_le y m).
  cbn [ISODatetime.validate]. unfold ISODatetime.replace_Z. rewrite chars_str_of.
  assert (Hz : filter (λ c, c ≠ "Z"%char) date = date).
  { subst date. rewrite <- (app_nil_r (fixed_digits 2 d)).
    repeat first
      [ rewrite filter_Z_plain by apply Forall_plain_fixed_digits
      | rewrite filter_cons_True by done ].
    by rewrite filter_nil. }
  rewrite Hz.
  assert (Hf : datetime_fromisoformat (str_of date) = datetime.new y m d 0 0 0 0 None).
  { destruct Hdoc as (_ & Hdate & _). subst date. apply Hdate; lia. }
  rewrite Hf. unfold datetime.new, datetime.wf.
  cbn [datetime.year datetime.month datetime.day datetime.hour datetime.minute
       datetime.second datetime.microsecond datetime.tzinfo].
  rewrite Hd. cbn [andb datetime._check_time_fields datetime._check_utc_offset N.leb].
  cbn. unfold datetime.isoformat, datetime._format_time.
  cbn [datetime.replace_tzinfo datetime.year datetime.month datetime.day datetime.hour
       datetime.minute datetime.second datetime.microsecond datetime.tzinfo
       datetime._format_offset].
  rewrite (zero_pad_fixed 4), !(zero_pad_fixed 2) by (cbn; lia).
  subst date. rewrite <- !app_assoc. reflexivity.
Qed.

End more_ISODatetime.

Lemma validate_is_idempotent_witness :
  let R := example_runtime in
  let dt := datetime.mk 2022 3 18 12 0 0 500000 (Some 21600000000) in
  reads_documented_format
  ∧ (∀ dt', VDatetime dt = VDatetime dt' → datetime.wf dt' = true)
  ∧ ISODatetime.validate (VDatetime dt) = Ok "2022-03-18T12:00:00.500000"
  ∧ ISODatetime.validate (VStr "2022-03-18T12:00:00.500000")
    = Ok "2022-03-18T12:00:00.500000".
Proof.
  intros R dt.
  assert (Hwf : ∀ dt', VDatetime dt = VDatetime dt' → datetime.wf dt' = true)
    by (by intros dt' [= <-]).
  split; [exact example_runtime_reads_documented_format|].
  split; [exact Hwf|]. split; [reflexivity|].
  exact (validate_is_idempotent (VDatetime dt) _
           example_runtime_reads_documented_format Hwf eq_refl).
Defined.

Lemma validate_date_alone_witness :
  let R := example_runtime in
  reads_documented_format
  ∧ datetime._check_date_fields 2024 2 29 = true
  ∧ ISODatetime.validate (VStr "2024-02-29") = Ok "2024-02-29T00:00:00".
Proof.
  intros R. split; [exact example_runtime_reads_documented_format|].
  split; [reflexivity|].
  exact (validate_date_alone 2024 2 29 example_runtime_reads_documented_format eq_refl).
Defined.

Section single_records.
Context `{PyRuntime, Network, Imported}.

(** X18.  [Order.retrieve] and [refund_retrieve], with a client bound and an
    answer to their one call: a status from 400 to 599 raises the
    [HTTPError]; otherwise a JSON object with string keys gives the record
    built from it, or the [ValidationError] of that record, and a JSON list
    raises a [TypeError], a list being no mapping. *)
Theorem retrieve_returns_the_record_of_the_answer api cls self id oid rid w r r' :
  Order_api w = Some api →
  Order.get_id self = Ok id →
  network_answer (calls w)
    (the_call api "get" ("orders/" +:+ format_value oid) None "json" None w) = Ok r →
  network_answer (calls w)
    (the_call api "get" ("orders/" +:+ format_value id +:+ "/refunds/" +:+ format_value rid)
       None "json" None w) = Ok r' →
  (Order.retrieve cls oid w).1
  = and_then (settle true r)
      (λ res, and_then (unpack_result res) (construct Order.model))
  ∧ (Order.refund_retrieve self rid w).1
    = and_then (settle true r')
        (λ res, and_then (unpack_result res) (construct Refund))
  ∧ (400 ≤ status_code r < 600 → (Order.retrieve cls oid w).1 = Raise (HTTPError r))
  ∧ (¬ 400 ≤ status_code r < 600 →
     match json r with
     | Some (VDict kvs) =>
         ∀ kw, kwargs_of kvs = Some kw →
               (Order.retrieve cls oid w).1 = construct Order.model kw
     | Some (VList l) => ∃ msg, (Order.retrieve cls oid w).1 = Raise (TypeError msg)
     | _ => True
     end).
Proof.
  intros Hw Hid Hr Hr'.
  assert (Hone : (Order.retrieve cls oid w).1
               = and_then (settle true r)
                   (λ res, and_then (unpack_result res) (construct Order.model))).
  { unfold Order.retrieve. rewrite (get_api_bind _ api) by done.
    rewrite bind_lift2_fst. unfold Api.get_order_by_id.
    by rewrite (_request_result api "get" _ None "json" None true w r
                  (or_introl eq_refl) Hr). }
  split; [exact Hone|]. split.
  { unfold Order.refund_retrieve. rewrite (self_api_bind _ api) by done.
    rewrite (bind_lift_Ok _ id) by done.
    rewrite bind_lift2_fst. unfold Api.get_refund_by_id.
    by rewrite (_request_result api "get" _ None "json" None true w r'
                  (or_introl eq_refl) Hr'). }
  rewrite Hone. unfold settle. split.
  - intros [?%Z.leb_le ?%Z.ltb_lt]. by rewrite andb_true_intro.
  - intros Hs.
    assert ((400 <=? status_code r) && (status_code r <? 600) = false) as ->.
    { destruct (Z.leb_spec 400 (status_code r)), (Z.ltb_spec (status_code r) 600);
        cbn; try done; lia. }
    destruct (json r) as [j|]; [|done].
    destruct j as [| | | | |l|kvs| | |]; try done.
    + cbn. eauto.
    + intros kw Hkw. cbn. by rewrite Hkw.
Qed.

End single_records.

Lemma retrieve_returns_the_record_of_the_answer_witness :
  let R := example_runtime in
  let N := answers {| status_code := 404; text := "{}"; json := Some (VDict []) |} in
  let I := example_import in
  let w := {| dicts := ∅; Order_api := Some example_api; log := []; calls := [] |} in
  Order_api w = Some example_api
  ∧ Order.get_id example_order = Ok (VStr "1")
  ∧ (Order.retrieve Order_class (VStr "9") w).1
    = Raise (HTTPError {| status_code := 404; text := "{}"; json := Some (VDict []) |}).
Proof.
  intros R N I w. split; [reflexivity|]. split; [reflexivity|].
  assert (Hn : ∀ c, network_answer (calls w) c
                    = Ok {| status_code := 404; text := "{}"; json := Some (VDict []) |})
    by reflexivity.
  destruct (retrieve_returns_the_record_of_the_answer example_api Order_class
              example_order (VStr "1") (VStr "9") (VStr "3") w _ _
              eq_refl eq_refl (Hn _) (Hn _)) as (_ & _ & Herr & _).
  apply Herr. cbn. lia.
Defined.

Section first_log.
Context `{PyRuntime, Network}.

(** X19.  The request line of the first call on a new client, made with no
    headers of the caller's or with an empty dict, shows the headers as
    [__init__] made them: the [SecretStr] under [API-KEY], which prints
    masked, and the content type. *)
Theorem first_request_logs_the_SecretStr data w0 self w method url params pt ha rfs :
  Api.__init__ data w0 = (Ok self, w) →
  falsy_headers ha w →
  ∃ rest,
    log (Api._request self method url params pt ha rfs w).2
    = log w ++ LogRequest method (full_url self url) params pt
                 {[ "API-KEY" := VSecret (api_key self);
                    "Content-Type" := VStr "application/json" ]} rfs :: rest.
Proof.
  intros Hinit Hfalsy.
  destruct (_request_log_head self method url params pt ha rfs w) as [rest Hrest].
  exists rest. rewrite Hrest, chosen_headers_falsy by done.
  by rewrite (__init___headers _ _ _ _ Hinit).
Qed.

End first_log.

Lemma first_request_logs_the_SecretStr_witness :
  let R := example_runtime in
  let N := answers ok_response in
  ∃ self w rest,
    Api.__init__ {[ "api_key" := VStr "secret" ]} empty_world = (Ok self, w)
    ∧ falsy_headers None w
    ∧ log (Api._request self "get" "orders" None "json" None true w).2
      = log w ++ LogRequest "get" (full_url self "orders") None "json"
                   {[ "API-KEY" := VSecret (api_key self);
                      "Content-Type" := VStr "application/json" ]} true :: rest.
Proof.
  intros R N.
  destruct (Api.__init__ {[ "api_key" := VStr "secret" ]} empty_world) as [[self|e] w] eqn:Hi;
    [|vm_compute in Hi; discriminate Hi].
  destruct (first_request_logs_the_SecretStr _ _ self w "get" "orders" None "json" None true
              Hi I) as [rest Hrest].
  exists self, w, rest. split; [reflexivity|]. split; [exact I | exact Hrest].
Defined.

Lemma unknown_keywords_are_ignored_witness :
  let R := example_runtime in
  let N := answers ok_response in
  let I := example_import in
  let kw : Kwargs := {[ "amount" := VInt 100 ]} in
  ("ammount" ∉ name <$> fields CreateOrder)
  ∧ construct CreateOrder (<["ammount" := VInt 5]> kw) = construct CreateOrder kw.
Proof.
  intros R N I kw.
  assert (Hk : "ammount" ∉ name <$> fields CreateOrder) by (by apply (bool_decide_unpack _)).
  split; [exact Hk|].
  refine (proj1 (unknown_keywords_are_ignored "ammount" (VInt 5) kw _ _) CreateOrder Hk);
    discriminate.
Defined.
